(** * awswrangler._data_types: type mapping, schema inference, partition
      paths and type-directed casts

    A shallow embedding of [awswrangler/_data_types.py].  Python strings are
    modelled as [string] (ASCII text), Python dictionaries as insertion-ordered
    association lists, exceptions as the [Raise] case of a result type, and
    the dataframe that [cast_pandas_with_athena_types] mutates as an object in
    an explicit store.  The functions of pandas, pyarrow and [decimal] that
    the module calls are parameters of the sections that use them; reference
    instances are given for evaluation on concrete dataframes. *)

From Stdlib Require Import String Ascii List ZArith Bool Lia.
From Stdlib Require Import DecimalString DecimalZ DecimalPos DecimalN DecimalFacts.
Import ListNotations.
Open Scope string_scope.
Open Scope Z_scope.

(* ================================================================== *)
(** ** Exceptions and the result monad *)

(** The exception classes the module raises itself ([exceptions.py]) and the
    built-in or library exceptions that reach its callers. *)
Inductive exn : Type :=
| UnsupportedType (msg : string)
| UndetectedType (msg : string)
| ValueError
| KeyError
| IndexError
| OverflowError
| AttributeError
| ArrowInvalid
| InvalidOperation.

Inductive result (A : Type) : Type :=
| OK (a : A)
| Raise (e : exn).
Arguments OK {A} a.
Arguments Raise {A} e.

Definition bind {A B} (r : result A) (k : A -> result B) : result B :=
  match r with
  | OK a => k a
  | Raise e => Raise e
  end.

Notation "x <- c1 ;; c2" := (bind c1 (fun x => c2))
  (at level 61, c1 at next level, right associativity).
Notation "' pat <- c1 ;; c2" := (bind c1 (fun x => match x with pat => c2 end))
  (at level 61, pat pattern, c1 at next level, right associativity).

Fixpoint mapM {A B} (f : A -> result B) (l : list A) : result (list B) :=
  match l with
  | [] => OK []
  | a :: l' => b <- f a ;; bs <- mapM f l' ;; OK (b :: bs)
  end.

Definition is_UnsupportedType (e : exn) : bool :=
  match e with UnsupportedType _ => true | _ => false end.

Definition is_UndetectedType (e : exn) : bool :=
  match e with UndetectedType _ => true | _ => false end.

(* ================================================================== *)
(** ** Python string primitives *)

Module Py.

Definition is_upper (c : ascii) : bool :=
  let n := nat_of_ascii c in (65 <=? n)%nat && (n <=? 90)%nat.

Definition lower_char (c : ascii) : ascii :=
  if is_upper c then ascii_of_nat (nat_of_ascii c + 32) else c.

(** [str.lower()] *)
Fixpoint lower (s : string) : string :=
  match s with
  | EmptyString => EmptyString
  | String c s' => String (lower_char c) (lower s')
  end.

(** [s.startswith(p)] *)
Fixpoint startswith (s p : string) {struct p} : bool :=
  match p with
  | EmptyString => true
  | String a p' =>
      match s with
      | EmptyString => false
      | String b s' => Ascii.eqb a b && startswith s' p'
      end
  end.

(** [s.endswith(p)] for a one-character [p], as used by [x[-1] == "/"]. *)
Fixpoint last_char (s : string) : option ascii :=
  match s with
  | EmptyString => None
  | String c EmptyString => Some c
  | String _ s' => last_char s'
  end.

(** [sub in s] on two strings: substring test. *)
Fixpoint contains (s sub : string) : bool :=
  startswith s sub ||
  match s with
  | EmptyString => false
  | String _ s' => contains s' sub
  end.

(** [x in (a, b, ...)] on a tuple of strings. *)
Definition in_tuple (x : string) (t : list string) : bool :=
  existsb (String.eqb x) t.

(** [s.replace(old, "")] for a non-empty [old]: the non-overlapping
    occurrences of [old] are deleted, scanning from the left.  [skip] counts
    the characters of the current occurrence still to drop. *)
Fixpoint remove_from (old : string) (skip : nat) (s : string) : string :=
  match s with
  | EmptyString => EmptyString
  | String c s' =>
      match skip with
      | S k => remove_from old k s'
      | O =>
          if startswith s old
          then remove_from old (String.length old - 1) s'
          else String c (remove_from old 0 s')
      end
  end.

Definition remove (s old : string) : string := remove_from old 0 s.

(** [s.split(sep=c)] for a one-character separator. *)
Fixpoint split (sep : ascii) (s : string) : list string :=
  match s with
  | EmptyString => [EmptyString]
  | String c s' =>
      match split sep s' with
      | [] => [EmptyString]
      | h :: t => if Ascii.eqb c sep then EmptyString :: h :: t
                  else String c h :: t
      end
  end.

(** [sep.join(l)] *)
Fixpoint join (sep : string) (l : list string) : string :=
  match l with
  | [] => EmptyString
  | [x] => x
  | x :: l' => x ++ sep ++ join sep l'
  end.

(** The white space [int()] strips from an ASCII string: the blank and the
    characters 9 to 13 (tab, line feed, vertical tab, form feed, carriage
    return).  The separators 28 to 31 are left in place and refused. *)
Definition is_space (c : ascii) : bool :=
  let n := nat_of_ascii c in
  ((9 <=? n)%nat && (n <=? 13)%nat) || (n =? 32)%nat.

Fixpoint lstrip (s : string) : string :=
  match s with
  | EmptyString => EmptyString
  | String c s' => if is_space c then lstrip s' else s
  end.

Fixpoint rstrip (s : string) : string :=
  match s with
  | EmptyString => EmptyString
  | String c s' =>
      match rstrip s' with
      | EmptyString => if is_space c then EmptyString else String c EmptyString
      | r => String c r
      end
  end.

Definition strip (s : string) : string := rstrip (lstrip s).

Definition digit_of (c : ascii) : option Z :=
  let n := nat_of_ascii c in
  if (48 <=? n)%nat && (n <=? 57)%nat then Some (Z.of_nat (n - 48)) else None.

(** The digits of an integer literal: one or more decimal digits, single
    underscores allowed between digits.  [prev] tells whether the previous
    character was a digit. *)
Fixpoint int_digits (acc : Z) (prev : bool) (s : string) : option Z :=
  match s with
  | EmptyString => if prev then Some acc else None
  | String c s' =>
      match digit_of c with
      | Some d => int_digits (10 * acc + d) true s'
      | None =>
          if Ascii.eqb c "_" && prev then int_digits acc false s' else None
      end
  end.

(** An integer literal: an optional sign, then digits. *)
Definition int_literal (s : string) : option Z :=
  match s with
  | String "-" r => option_map Z.opp (int_digits 0 false r)
  | String "+" r => int_digits 0 false r
  | r => int_digits 0 false r
  end.

(** [int(s)]: the literal left once the surrounding white space is stripped. *)
Definition int (s : string) : result Z :=
  match int_literal (strip s) with
  | Some z => OK z
  | None => Raise ValueError
  end.

(** [str(z)] for an integer, i.e. what an f-string renders. *)
Definition str_int (z : Z) : string :=
  NilZero.string_of_int (Z.to_int z).

End Py.

(* ================================================================== *)
(** ** The columnar type vocabulary (pyarrow) *)

Inductive TimeUnit := unit_s | unit_ms | unit_us | unit_ns.

#[warning="-register-all"] Inductive DataType : Type :=
| pa_int8 | pa_int16 | pa_int32 | pa_int64
| pa_uint8 | pa_uint16 | pa_uint32 | pa_uint64
| pa_float16 | pa_float32 | pa_float64
| pa_bool_
| pa_string
| pa_timestamp (unit : TimeUnit)
| pa_date32 | pa_date64
| pa_binary
| pa_dictionary (value_type : DataType)
| pa_decimal128 (precision scale : Z)
| pa_list_ (value_type : DataType)
| pa_struct (fields : list (string * DataType))
| pa_null.

(** The values of a C [int], the type of both arguments of
    [pa.decimal128]. *)
Definition in_int32 (z : Z) : bool :=
  (-2147483648 <=? z) && (z <=? 2147483647).

(** [pa.decimal128(precision, scale)]: both arguments are converted to C
    integers first, which raises [OverflowError] beyond 32 bits; pyarrow then
    refuses a precision outside 1..38.  The scale may be negative. *)
Definition decimal128 (precision scale : Z) : result DataType :=
  if negb (in_int32 precision && in_int32 scale) then Raise OverflowError
  else if (1 <=? precision) && (precision <=? 38)
  then OK (pa_decimal128 precision scale)
  else Raise ValueError.

(** [str(dtype)] for the leaf types. *)
Definition DataType_str (t : DataType) : string :=
  match t with
  | pa_int8 => "int8" | pa_int16 => "int16"
  | pa_int32 => "int32" | pa_int64 => "int64"
  | pa_uint8 => "uint8" | pa_uint16 => "uint16"
  | pa_uint32 => "uint32" | pa_uint64 => "uint64"
  | pa_float16 => "halffloat" | pa_float32 => "float" | pa_float64 => "double"
  | pa_bool_ => "bool" | pa_string => "string"
  | pa_timestamp unit_s => "timestamp[s]"
  | pa_timestamp unit_ms => "timestamp[ms]"
  | pa_timestamp unit_us => "timestamp[us]"
  | pa_timestamp unit_ns => "timestamp[ns]"
  | pa_date32 => "date32[day]" | pa_date64 => "date64[ms]"
  | pa_binary => "binary"
  | pa_dictionary _ => "dictionary"
  | pa_decimal128 p s =>
      "decimal(" ++ Py.str_int p ++ ", " ++ Py.str_int s ++ ")"
  | pa_list_ _ => "list"
  | pa_struct _ => "struct"
  | pa_null => "null"
  end.

(* ================================================================== *)
(** ** Type Mapper *)

(** [athena2pyarrow].  The test [dtype in ("binary" or "varbinary")] is
    Python's [dtype in "binary"], a substring test, since the [or] of two
    non-empty strings is the first one. *)
Definition athena2pyarrow (dtype : string) : result DataType :=
  let dtype := Py.lower dtype in
  if String.eqb dtype "tinyint" then OK pa_int8
  else if String.eqb dtype "smallint" then OK pa_int16
  else if Py.in_tuple dtype ["int"; "integer"] then OK pa_int32
  else if String.eqb dtype "bigint" then OK pa_int64
  else if String.eqb dtype "float" then OK pa_float32
  else if String.eqb dtype "double" then OK pa_float64
  else if String.eqb dtype "boolean" then OK pa_bool_
  else if Py.in_tuple dtype ["string"; "char"; "varchar"; "array"; "row"; "map"]
  then OK pa_string
  else if String.eqb dtype "timestamp" then OK (pa_timestamp unit_ns)
  else if String.eqb dtype "date" then OK pa_date32
  else if Py.contains "binary" dtype then OK pa_binary
  else if Py.startswith dtype "decimal" then
    match Py.split "," (Py.remove (Py.remove dtype "decimal(") ")") with
    | [precision; scale] =>
        p <- Py.int precision ;;
        s <- Py.int scale ;;
        decimal128 p s
    | _ => Raise ValueError
    end
  else Raise (UnsupportedType ("Unsupported Athena type: " ++ dtype)).

(** [pyarrow2athena] *)
Fixpoint pyarrow2athena (dtype : DataType) : result string :=
  match dtype with
  | pa_int8 => OK "tinyint"
  | pa_int16 => OK "smallint"
  | pa_int32 => OK "int"
  | pa_int64 => OK "bigint"
  | pa_float32 => OK "float"
  | pa_float64 => OK "double"
  | pa_bool_ => OK "boolean"
  | pa_string => OK "string"
  | pa_timestamp _ => OK "timestamp"
  | pa_date32 | pa_date64 => OK "date"
  | pa_binary => OK "binary"
  | pa_dictionary value_type => pyarrow2athena value_type
  | pa_decimal128 precision scale =>
      OK ("decimal(" ++ Py.str_int precision ++ "," ++ Py.str_int scale ++ ")")
  | pa_list_ value_type =>
      t <- pyarrow2athena value_type ;; OK ("array<" ++ t ++ ">")
  | pa_struct fields =>
      fs <- (fix each (l : list (string * DataType)) : result (list string) :=
               match l with
               | [] => OK []
               | (name, type) :: l' =>
                   t <- pyarrow2athena type ;;
                   ts <- each l' ;;
                   OK ((name ++ ": " ++ t) :: ts)
               end) fields ;;
      OK ("struct<" ++ Py.join ", " fs ++ ">")
  | pa_null =>
      Raise (UndetectedType
               "We can not infer the data type from an entire null object column")
  | _ => Raise (UnsupportedType ("Unsupported Pyarrow type: " ++ DataType_str dtype))
  end.

(** [athena2pandas] *)
Definition athena2pandas (dtype : string) : result string :=
  let dtype := Py.lower dtype in
  if String.eqb dtype "tinyint" then OK "Int8"
  else if String.eqb dtype "smallint" then OK "Int16"
  else if Py.in_tuple dtype ["int"; "integer"] then OK "Int32"
  else if String.eqb dtype "bigint" then OK "Int64"
  else if String.eqb dtype "float" then OK "float32"
  else if String.eqb dtype "double" then OK "float64"
  else if String.eqb dtype "boolean" then OK "boolean"
  else if Py.in_tuple dtype ["string"; "char"; "varchar"] then OK "string"
  else if Py.in_tuple dtype ["timestamp"; "timestamp with time zone"]
  then OK "datetime64"
  else if String.eqb dtype "date" then OK "date"
  else if Py.startswith dtype "decimal" then OK "decimal"
  else if Py.in_tuple dtype ["binary"; "varbinary"] then OK "bytes"
  else if String.eqb dtype "array" then OK "list"
  else Raise (UnsupportedType ("Unsupported Athena type: " ++ dtype)).

(* ================================================================== *)
(** ** Python dictionaries: insertion-ordered association lists *)

Definition dict (V : Type) : Type := list (string * V).

Definition mem (k : string) (l : list string) : bool := existsb (String.eqb k) l.

Definition keys {V} (d : dict V) : list string := map fst d.

(** [d[k]] as an expression raises [KeyError] on a missing key. *)
Fixpoint getitem {V} (d : dict V) (k : string) : result V :=
  match d with
  | [] => Raise KeyError
  | (k', v) :: d' => if String.eqb k' k then OK v else getitem d' k
  end.

(** [d[k] = v]: an existing key keeps its position, a new key goes last. *)
Fixpoint setitem {V} (d : dict V) (k : string) (v : V) : dict V :=
  match d with
  | [] => [(k, v)]
  | (k', v') :: d' =>
      if String.eqb k' k then (k', v) :: d' else (k', v') :: setitem d' k v
  end.

(* ================================================================== *)
(** ** Dataframes *)

Record Date := { year : Z; month : Z; day : Z }.

(** A timestamp: its calendar date and the nanoseconds since midnight. *)
Record Timestamp := { ts_date : Date; ts_nanos : Z }.

(** A [decimal.Decimal]: sign, coefficient and exponent. *)
Record PyDecimal := { dec_negative : bool; dec_coefficient : N; dec_exponent : Z }.

(** The cells of a column.  [VNone] is Python's [None], the explicit
    absent-value marker; [VNA], [VNaT] and [VNaN] are the missing values of
    pandas ([pd.NA], [pd.NaT], [nan]). *)
Inductive Value : Type :=
| VNone
| VNA
| VNaT
| VNaN
| VStr (s : string)
| VInt (z : Z)
| VBytes (b : string)
| VTimestamp (t : Timestamp)
| VDate (d : Date)
| VDecimal (d : PyDecimal).

Record Series := { dtype : string; values : list Value }.

(** A dataframe: its labelled columns, in order, and its index levels with
    their optional names. *)
Record DataFrame := {
  columns : list (string * Series);
  index_levels : list (option string * Series)
}.

(** [list(df.columns)] *)
Definition column_names (df : DataFrame) : list string := map fst (columns df).

(** [df.dtypes.to_dict()], each dtype rendered with [str]. *)
Definition dtypes_to_dict (df : DataFrame) : dict string :=
  fold_left (fun d c => setitem d (fst c) (dtype (snd c))) (columns df) [].

(** [df[cols]] for a list of labels: the columns carrying each label, in the
    order of [cols]; the index is kept. *)
Definition getitem_cols (df : DataFrame) (cols : list string) : DataFrame :=
  {| columns :=
       flat_map (fun n => filter (fun c => String.eqb (fst c) n) (columns df)) cols;
     index_levels := index_levels df |}.

Fixpoint is_unique (l : list string) : bool :=
  match l with
  | [] => true
  | x :: l' => negb (mem x l') && is_unique l'
  end.

(* ================================================================== *)
(** ** Schema Inferrer *)

Section SchemaInferrer.

(** The columnar codec's general inference on one pandas column or index
    level: the Arrow type it assigns, or the exception it raises. *)
Variable infer_type : Series -> result DataType.

(** The name pyarrow gives the [i]-th index level when it is serialised as a
    column: its own name, unless it has none or a converted column already
    carries it. *)
Definition index_level_name (name : option string) (i : nat)
    (column_names : list string) : string :=
  match name with
  | Some n =>
      if mem n column_names
      then "__index_level_" ++ NilZero.string_of_uint (Nat.to_uint i) ++ "__"
      else n
  | None => "__index_level_" ++ NilZero.string_of_uint (Nat.to_uint i) ++ "__"
  end.

Fixpoint index_fields (levels : list (option string * Series)) (i : nat)
    (column_names : list string) : result (list (string * DataType)) :=
  match levels with
  | [] => OK []
  | (name, s) :: levels' =>
      t <- infer_type s ;;
      fs <- index_fields levels' (S i) column_names ;;
      OK ((index_level_name name i column_names, t) :: fs)
  end.

(** [pa.Schema.from_pandas(df, preserve_index)]: duplicate column labels are
    refused; the fields are the columns in order, followed, when
    [preserve_index] is set, by the index levels. *)
Definition from_pandas (df : DataFrame) (preserve_index : bool)
    : result (list (string * DataType)) :=
  if negb (is_unique (column_names df)) then Raise ValueError
  else
    cfs <- mapM (fun c => t <- infer_type (snd c) ;; OK (fst c, t)) (columns df) ;;
    ifs <- (if preserve_index
            then index_fields (index_levels df) 0 (column_names df)
            else OK []) ;;
    OK (cfs ++ ifs)%list.

(** First loop of [pyarrow_types_from_pandas]: the columns whose dtype is
    settled without inference, and the list [cols] left to inference. *)
Fixpoint exception_dtypes (items : list (string * string)) (ignore_cols : list string)
    (cols : list string) (cols_dtypes : dict (option DataType))
    : list string * dict (option DataType) :=
  match items with
  | [] => (cols, cols_dtypes)
  | (name, dtype) :: items' =>
      if mem name ignore_cols
      then exception_dtypes items' ignore_cols cols (setitem cols_dtypes name None)
      else if String.eqb dtype "Int8"
      then exception_dtypes items' ignore_cols cols (setitem cols_dtypes name (Some pa_int8))
      else if String.eqb dtype "Int16"
      then exception_dtypes items' ignore_cols cols (setitem cols_dtypes name (Some pa_int16))
      else if String.eqb dtype "Int32"
      then exception_dtypes items' ignore_cols cols (setitem cols_dtypes name (Some pa_int32))
      else if String.eqb dtype "Int64"
      then exception_dtypes items' ignore_cols cols (setitem cols_dtypes name (Some pa_int64))
      else if String.eqb dtype "string"
      then exception_dtypes items' ignore_cols cols (setitem cols_dtypes name (Some pa_string))
      else exception_dtypes items' ignore_cols (cols ++ [name])%list cols_dtypes
  end.

(** Second loop: every inferred field is recorded, and becomes an index column
    when it is no column of the dataframe and the index is kept. *)
Fixpoint fill_fields (fields : list (string * DataType)) (df_columns : list string)
    (index : bool) (cols_dtypes : dict (option DataType)) (indexes : list string)
    : dict (option DataType) * list string :=
  match fields with
  | [] => (cols_dtypes, indexes)
  | (name, type) :: fields' =>
      fill_fields fields' df_columns index
        (setitem cols_dtypes name (Some type))
        (if negb (mem name df_columns) && index then (indexes ++ [name])%list else indexes)
  end.

(** The comprehension [{n: cols_dtypes[n] for n in names}]. *)
Fixpoint comprehension (cols_dtypes : dict (option DataType)) (names : list string)
    (acc : dict (option DataType)) : result (dict (option DataType)) :=
  match names with
  | [] => OK acc
  | n :: names' =>
      v <- getitem cols_dtypes n ;;
      comprehension cols_dtypes names' (setitem acc n v)
  end.

Definition pyarrow_types_from_pandas (df : DataFrame) (index : bool)
    (ignore_cols : option (list string)) : result (dict (option DataType)) :=
  let ignore_cols := match ignore_cols with None => [] | Some l => l end in
  let '(cols, cols_dtypes) :=
    exception_dtypes (dtypes_to_dict df) ignore_cols [] [] in
  fields <- from_pandas (getitem_cols df cols) index ;;
  let '(cols_dtypes, indexes) :=
    fill_fields fields (column_names df) index cols_dtypes [] in
  comprehension cols_dtypes (column_names df ++ indexes)%list [].

(** The loop of [athena_types_from_pandas] over [pa_columns_types.items()]. *)
Fixpoint athena_types_loop (items : dict (option DataType)) (casts : dict string)
    (athena_columns_types : dict string) : result (dict string) :=
  match items with
  | [] => OK athena_columns_types
  | (k, v) :: items' =>
      t <- match v with
           | None => getitem casts k
           | Some v => pyarrow2athena v
           end ;;
      athena_types_loop items' casts (setitem athena_columns_types k t)
  end.

Definition athena_types_from_pandas (df : DataFrame) (index : bool)
    (cast_columns : option (dict string)) : result (dict string) :=
  let casts : dict string :=
    match cast_columns with Some c => c | None => [] end in
  pa_columns_types <- pyarrow_types_from_pandas df index (Some (keys casts)) ;;
  athena_types_loop pa_columns_types casts [].

(** The loop of [athena_types_from_pandas_partitioned]. *)
Fixpoint partition_loop (items : dict string) (partitions : list string)
    (columns_types partitions_types : dict string) : dict string * dict string :=
  match items with
  | [] => (columns_types, partitions_types)
  | (k, v) :: items' =>
      if mem k partitions
      then partition_loop items' partitions columns_types (setitem partitions_types k v)
      else partition_loop items' partitions (setitem columns_types k v) partitions_types
  end.

Definition athena_types_from_pandas_partitioned (df : DataFrame) (index : bool)
    (partition_cols : option (list string)) (cast_columns : option (dict string))
    : result (dict string * dict string) :=
  let partitions : list string :=
    match partition_cols with Some l => l | None => [] end in
  athena_columns_types <- athena_types_from_pandas df index cast_columns ;;
  OK (partition_loop athena_columns_types partitions [] []).

(** [pyarrow_schema_from_pandas], the sibling that builds the Arrow schema of
    the written file: the casts are applied on top of the inferred types. *)
Fixpoint apply_casts (items : dict string) (df_columns : list string)
    (columns_types : dict (option DataType)) : result (dict (option DataType)) :=
  match items with
  | [] => OK columns_types
  | (k, v) :: items' =>
      if mem k df_columns
      then t <- athena2pyarrow v ;;
           apply_casts items' df_columns (setitem columns_types k (Some t))
      else apply_casts items' df_columns columns_types
  end.

Definition pyarrow_schema_from_pandas (df : DataFrame) (index : bool)
    (ignore_cols : option (list string)) (cast_columns : option (dict string))
    : result (list (string * DataType)) :=
  let casts : dict string := match cast_columns with None => [] | Some c => c end in
  let ignore : list string := match ignore_cols with None => [] | Some l => l end in
  let ignore := (ignore ++ keys casts)%list in
  columns_types <- pyarrow_types_from_pandas df index (Some ignore) ;;
  columns_types <- apply_casts casts (column_names df) columns_types ;;
  OK (flat_map (fun kv => match snd kv with
                          | Some t => [(fst kv, t)]
                          | None => []
                          end) columns_types).

End SchemaInferrer.

(* ================================================================== *)
(** ** Partition Path Codec *)

(** [x if x[-1] == "/" else f"{x}/"]; indexing the empty string raises. *)
Definition with_trailing_sep (x : string) : result string :=
  match Py.last_char x with
  | None => Raise IndexError
  | Some c => if Ascii.eqb c "/" then OK x else OK (x ++ "/")
  end.

Fixpoint heads {A} (ls : list (list A)) : option (list A) :=
  match ls with
  | [] => Some []
  | [] :: _ => None
  | (x :: _) :: ls' => option_map (cons x) (heads ls')
  end.

Fixpoint zip_rows {A} (n : nat) (ls : list (list A)) : list (list A) :=
  match n with
  | O => []
  | S n' =>
      match heads ls with
      | None => []
      | Some row => row :: zip_rows n' (map (@tl A) ls)
      end
  end.

(** [zip( *ls)]: the rows across the given lists, as many as the shortest
    list has; no row at all when no list is given. *)
Definition zip_star {A} (ls : list (list A)) : list (list A) :=
  match ls with
  | [] => []
  | l :: _ => zip_rows (length l) ls
  end.

(** ["/".join([f"{n}={v}" for n, v in zip(names, values)])] *)
Definition render_pairs (names values : list string) : string :=
  Py.join "/" (map (fun nv => fst nv ++ "=" ++ snd nv) (combine names values)).

Fixpoint partitions_loop (rows : list (list string)) (path : string)
    (names : list string) (partitions_values : dict (list string))
    : result (dict (list string)) :=
  match rows with
  | [] => OK partitions_values
  | values :: rows' =>
      suffix <- with_trailing_sep (render_pairs names values) ;;
      partitions_loop rows' path names
        (setitem partitions_values (path ++ suffix) values)
  end.

(** [athena_partitions_from_pyarrow_partitions]; a partition level is its
    name and its keys. *)
Definition athena_partitions_from_pyarrow_partitions (path : string)
    (partitions : list (string * list string)) : result (dict (list string)) :=
  path <- with_trailing_sep path ;;
  let names := map fst partitions in
  partitions_loop (zip_star (map snd partitions)) path names [].

(* ================================================================== *)
(** ** Type-Directed Caster *)

(** Dataframes are Python objects: a variable holds a reference, and the
    store maps each reference to the current content of the object. *)
Definition ref : Type := nat.
Definition store : Type := ref -> DataFrame.

Definition store_set (h : store) (r : ref) (df : DataFrame) : store :=
  fun r' => if Nat.eqb r' r then df else h r'.

(** [df[col]] for one label. *)
Definition getitem_col (df : DataFrame) (col : string) : result Series :=
  getitem (columns df) col.

(** [df[col] = s]: the column carrying the label is replaced where it stands;
    a new label is appended. *)
Definition setitem_col (df : DataFrame) (col : string) (s : Series) : DataFrame :=
  {| columns :=
       if mem col (column_names df)
       then map (fun c => if String.eqb (fst c) col then (fst c, s) else c) (columns df)
       else (columns df ++ [(col, s)])%list;
     index_levels := index_levels df |}.

Section Caster.

(** [pandas.to_datetime] on a column, with its default [errors="raise"]: the
    converted column, or the parser's exception.  The column it returns is
    [datetime64[ns]], [datetime64[ns, tz]] for values of one UTC offset, or a
    column of objects for values of mixed offsets. *)
Variable to_datetime : Series -> result Series.

(** [Series.astype("string")] on one cell: a string, [pd.NA] (here [None]),
    or the exception pandas raises for a cell it does not convert. *)
Variable astype_string : Value -> result (option string).

(** The constructor [decimal.Decimal] on a string. *)
Variable Decimal : string -> result PyDecimal.

(** [Series.astype(dtype)] for the remaining dtypes. *)
Variable astype : string -> Series -> result Series.

(** The columns that have the [.dt] accessor among those [to_datetime]
    returns: the datetime64 ones, with or without a time zone. *)
Definition is_datetime64 (s : Series) : bool :=
  Py.startswith (dtype s) "datetime64[".

(** [.dt.date] on one cell of a datetime column: the calendar date of a
    timestamp; [NaT] stays. *)
Definition date_of_cell (v : Value) : Value :=
  match v with
  | VTimestamp t => VDate (ts_date t)
  | _ => v
  end.

(** [.dt.date]: a column of objects; on a column without the accessor,
    [.dt] raises [AttributeError]. *)
Definition dt_date (s : Series) : result Series :=
  if is_datetime64 s
  then OK {| dtype := "object"; values := map date_of_cell (values s) |}
  else Raise AttributeError.

(** [.replace(to_replace={pd.NaT: None})] on one cell. *)
Definition replace_NaT (v : Value) : Value :=
  match v with VNaT => VNone | _ => v end.

(** [.str.encode(encoding="utf-8")] on one cell of a string column. *)
Definition str_encode (x : option string) : Value :=
  match x with
  | Some s => VBytes s
  | None => VNA
  end.

(** [.replace(to_replace={pd.NA: None})] on one cell. *)
Definition replace_NA (v : Value) : Value :=
  match v with VNA => VNone | _ => v end.

(** [str(x)] on one cell of a string column; [str(pd.NA)] is ["<NA>"]. *)
Definition str_cell (x : option string) : string :=
  match x with
  | Some s => s
  | None => "<NA>"
  end.

(** [lambda x: Decimal(str(x)) if str(x) not in ("", "none", " ", "<NA>") else None] *)
Definition decimal_cell (x : option string) : result Value :=
  if negb (Py.in_tuple (str_cell x) [""; "none"; " "; "<NA>"])
  then d <- Decimal (str_cell x) ;; OK (VDecimal d)
  else OK VNone.

(** The right-hand side assigned to [df[col]], by pandas type. *)
Definition cast_series (pandas_type : string) (s : Series) : result Series :=
  if String.eqb pandas_type "datetime64" then
    to_datetime s
  else if String.eqb pandas_type "date" then
    ts <- to_datetime s ;;
    ds <- dt_date ts ;;
    OK {| dtype := dtype ds; values := map replace_NaT (values ds) |}
  else if String.eqb pandas_type "bytes" then
    xs <- mapM astype_string (values s) ;;
    OK {| dtype := "object";
          values := map (fun x => replace_NA (str_encode x)) xs |}
  else if String.eqb pandas_type "decimal" then
    xs <- mapM astype_string (values s) ;;
    ds <- mapM decimal_cell xs ;;
    OK {| dtype := "object"; values := ds |}
  else astype pandas_type s.

(** The loop of [cast_pandas_with_athena_types]: every assignment updates the
    object [df] refers to; an exception leaves the store as it is then. *)
Fixpoint cast_loop (items : dict string) (df : ref) (h : store)
    : store * result unit :=
  match items with
  | [] => (h, OK tt)
  | (col, athena_type) :: items' =>
      if mem col (column_names (h df)) then
        match (pandas_type <- athena2pandas athena_type ;;
               s <- getitem_col (h df) col ;;
               cast_series pandas_type s) with
        | OK s' => cast_loop items' df (store_set h df (setitem_col (h df) col s'))
        | Raise e => (h, Raise e)
        end
      else cast_loop items' df h
  end.

Definition cast_pandas_with_athena_types (df : ref) (cast_columns : dict string)
    (h : store) : store * result ref :=
  let (h', r) := cast_loop cast_columns df h in
  (h', _ <- r ;; OK df).

End Caster.

(* ================================================================== *)
(** ** Reference instances of the library functions *)

(** General inference by pandas dtype: the numpy-backed dtypes map to their
    Arrow counterparts, and an [object] column is typed by its cells: all
    missing gives the null type, strings give the string type, dates the
    32-bit date type.  Columns of other objects are outside this instance. *)
Definition is_missing (v : Value) : bool :=
  match v with VNone | VNA | VNaT | VNaN => true | _ => false end.

Definition is_str_or_missing (v : Value) : bool :=
  match v with VStr _ => true | _ => is_missing v end.

Definition is_date_or_missing (v : Value) : bool :=
  match v with VDate _ => true | _ => is_missing v end.

Definition infer_by_dtype (s : Series) : result DataType :=
  let d := dtype s in
  if String.eqb d "int8" then OK pa_int8
  else if String.eqb d "int16" then OK pa_int16
  else if String.eqb d "int32" then OK pa_int32
  else if String.eqb d "int64" then OK pa_int64
  else if String.eqb d "uint8" then OK pa_uint8
  else if String.eqb d "uint16" then OK pa_uint16
  else if String.eqb d "uint32" then OK pa_uint32
  else if String.eqb d "uint64" then OK pa_uint64
  else if String.eqb d "float16" then OK pa_float16
  else if String.eqb d "float32" then OK pa_float32
  else if String.eqb d "float64" then OK pa_float64
  else if String.eqb d "bool" then OK pa_bool_
  else if String.eqb d "datetime64[ns]" then OK (pa_timestamp unit_ns)
  else if String.eqb d "object" then
    if forallb is_missing (values s) then OK pa_null
    else if forallb is_str_or_missing (values s) then OK pa_string
    else if forallb is_date_or_missing (values s) then OK pa_date32
    else Raise ArrowInvalid
  else Raise ArrowInvalid.

Definition two_digits (a b : ascii) : option Z :=
  match Py.digit_of a, Py.digit_of b with
  | Some x, Some y => Some (10 * x + y)
  | _, _ => None
  end.

Definition is_leap (y : Z) : bool :=
  ((y mod 4 =? 0) && negb (y mod 100 =? 0)) || (y mod 400 =? 0).

Definition days_in_month (y m : Z) : Z :=
  if m =? 2 then (if is_leap y then 29 else 28)
  else if (m =? 4) || (m =? 6) || (m =? 9) || (m =? 11) then 30
  else 31.

Definition valid_date (d : Date) : bool :=
  (1 <=? year d) && (1 <=? month d) && (month d <=? 12) &&
  (1 <=? day d) && (day d <=? days_in_month (year d) (month d)).

(** The time of day [HH:MM:SS] in nanoseconds. *)
Definition iso_time (s : string) : option Z :=
  match s with
  | String ha (String hb (String ":" (String ma (String mb
      (String ":" (String sa (String sb EmptyString))))))) =>
      match two_digits ha hb, two_digits ma mb, two_digits sa sb with
      | Some h, Some m, Some sec =>
          if (h <? 24) && (m <? 60) && (sec <? 60)
          then Some (((h * 60 + m) * 60 + sec) * 1000000000)
          else None
      | _, _, _ => None
      end
  | _ => None
  end.

(** An ISO-8601 datetime, [YYYY-MM-DD] optionally followed by a blank or [T]
    and [HH:MM:SS]. *)
Definition iso_datetime (s : string) : option Timestamp :=
  match s with
  | String ya (String yb (String yc (String yd (String "-" (String ma
      (String mb (String "-" (String da (String db rest))))))))) =>
      match two_digits ya yb, two_digits yc yd, two_digits ma mb, two_digits da db with
      | Some yh, Some yl, Some m, Some d =>
          let date := {| year := 100 * yh + yl; month := m; day := d |} in
          if valid_date date then
            match rest with
            | EmptyString => Some {| ts_date := date; ts_nanos := 0 |}
            | String sep time =>
                if Ascii.eqb sep " " || Ascii.eqb sep "T" then
                  option_map (fun n => {| ts_date := date; ts_nanos := n |})
                             (iso_time time)
                else None
            end
          else None
      | _, _, _, _ => None
      end
  | _ => None
  end.

(** The timestamps a [datetime64[ns]] cell can hold: from 1677-09-21
    00:12:43.145224193 to 2262-04-11 23:47:16.854775807. *)
Definition date_key (d : Date) : Z := (year d * 100 + month d) * 100 + day d.

Definition in_bounds (t : Timestamp) : bool :=
  let k := date_key (ts_date t) in
  ((16770921 <? k) || ((k =? 16770921) && (763145224193 <=? ts_nanos t))) &&
  ((k <? 22620411) || ((k =? 22620411) && (ts_nanos t <=? 85636854775807))).

(** [pandas.to_datetime] on one cell of a column of ISO datetime strings: a
    missing cell is [NaT], a timestamp stays, a date is taken at midnight, a
    string is parsed; an unparseable string and a timestamp out of bounds
    raise ([ValueError], of which [OutOfBoundsDatetime] is a subclass). *)
Definition iso_cell (v : Value) : result Value :=
  match v with
  | VNone | VNA | VNaT | VNaN => OK VNaT
  | VTimestamp t => OK (VTimestamp t)
  | VDate d =>
      let t := {| ts_date := d; ts_nanos := 0 |} in
      if in_bounds t then OK (VTimestamp t) else Raise ValueError
  | VStr s =>
      match iso_datetime s with
      | Some t => if in_bounds t then OK (VTimestamp t) else Raise ValueError
      | None => Raise ValueError
      end
  | _ => Raise ValueError
  end.

(** [pandas.to_datetime] on a column of ISO datetime strings without UTC
    offset, [YYYY-MM-DD] or [YYYY-MM-DD HH:MM:SS], and missing values: a
    [datetime64[ns]] column.  Other formats and cells of other kinds are
    outside this instance. *)
Definition iso_to_datetime (s : Series) : result Series :=
  ts <- mapM iso_cell (values s) ;;
  OK {| dtype := "datetime64[ns]"; values := ts |}.

(** A [to_datetime] that leaves its column as it is, as pandas leaves a
    column of values with mixed UTC offsets a column of objects. *)
Definition to_datetime_objects (s : Series) : result Series :=
  OK {| dtype := "object"; values := values s |}.

(** [astype("string")] on the cells of a column of strings: a missing cell
    becomes [pd.NA]; cells of other kinds are refused. *)
Definition astype_string_of_str (v : Value) : result (option string) :=
  match v with
  | VNone | VNA | VNaN => OK None
  | VStr s => OK (Some s)
  | _ => Raise ValueError
  end.

Fixpoint digits_N (acc : N) (s : string) : option (N * nat * string) :=
  match s with
  | EmptyString => Some (acc, O, EmptyString)
  | String c s' =>
      match Py.digit_of c with
      | Some d =>
          match digits_N (10 * acc + Z.to_N d)%N s' with
          | Some (n, k, r) => Some (n, S k, r)
          | None => None
          end
      | None => Some (acc, O, s)
      end
  end.

(** [decimal.Decimal] on the plain fixed-point literals
    [[sign] digits [. digits]].  The exponent forms, the special values, and
    the underscores and surrounding blanks that the constructor also accepts
    are outside this instance, which refuses them. *)
Definition plain_Decimal (s : string) : result PyDecimal :=
  let '(neg, body) :=
    match s with
    | String "-" r => (true, r)
    | String "+" r => (false, r)
    | _ => (false, s)
    end in
  match digits_N 0 body with
  | Some (i, ki, EmptyString) =>
      if (0 <? ki)%nat
      then OK {| dec_negative := neg; dec_coefficient := i; dec_exponent := 0 |}
      else Raise InvalidOperation
  | Some (i, ki, String "." frac) =>
      match digits_N i frac with
      | Some (n, kf, EmptyString) =>
          if (0 <? ki + kf)%nat
          then OK {| dec_negative := neg; dec_coefficient := n;
                     dec_exponent := - Z.of_nat kf |}
          else Raise InvalidOperation
      | _ => Raise InvalidOperation
      end
  | _ => Raise InvalidOperation
  end.

(** [astype(dtype)] that keeps the cells and relabels the column. *)
Definition astype_relabel (dt : string) (s : Series) : result Series :=
  OK {| dtype := dt; values := values s |}.

(* ================================================================== *)
(** ** The catalog vocabulary, in the words of the specification *)

(** The non-composite tags of the fixed vocabulary, decimal apart. *)
Definition non_composite_names : list string :=
  ["tinyint"; "smallint"; "int"; "integer"; "bigint"; "float"; "double";
   "boolean"; "string"; "char"; "varchar"; "timestamp"; "date"; "binary";
   "varbinary"].

(** All the tag names of the fixed vocabulary, decimal apart. *)
Definition vocabulary_names : list string :=
  (non_composite_names ++ ["array"; "row"; "map"])%list.

(** The tag [decimal(p,s)]. *)
Definition decimal_tag (p s : Z) : string :=
  "decimal(" ++ Py.str_int p ++ "," ++ Py.str_int s ++ ")".

(** A tag of the fixed vocabulary, matched case-insensitively. *)
Definition in_vocabulary (tag : string) : Prop :=
  In (Py.lower tag) vocabulary_names \/
  exists p s, Py.lower tag = decimal_tag p s.

(** [columnarToCatalog(catalogToColumnar(T))] *)
Definition round_trip (T : string) : result string :=
  t <- athena2pyarrow T ;; pyarrow2athena t.

(** The tags that name one columnar type and are rendered back under the
    same name. *)
Definition canonical_names : list string :=
  ["tinyint"; "smallint"; "int"; "bigint"; "float"; "double"; "boolean";
   "string"; "timestamp"; "date"; "binary"].


(* ================================================================== *)
(** ** Sample dataframes *)

Definition int64_series (l : list Z) : Series :=
  {| dtype := "int64"; values := map VInt l |}.

Definition object_series (l : list Value) : Series :=
  {| dtype := "object"; values := l |}.

(** Columns [id] (int64) and [name] (strings), under an unnamed index. *)
Definition df_id_name : DataFrame :=
  {| columns := [("id", int64_series [1; 2]);
                 ("name", object_series [VStr "a"; VStr "b"])];
     index_levels := [(None, int64_series [0; 1])] |}.

(** The same columns under an index level that is itself named [id]. *)
Definition df_indexed_by_id : DataFrame :=
  {| columns := columns df_id_name;
     index_levels := [(Some "id", int64_series [10; 20])] |}.

(** An unsigned-byte column followed by an all-null column. *)
Definition df_uint8_then_null : DataFrame :=
  {| columns := [("a", {| dtype := "uint8"; values := [VInt 1; VInt 2] |});
                 ("b", object_series [VNone; VNone])];
     index_levels := [(None, int64_series [0; 1])] |}.

(** An integer column and an all-null column. *)
Definition df_id_null : DataFrame :=
  {| columns := [("id", int64_series [1; 2]);
                 ("b", object_series [VNone; VNone])];
     index_levels := [(None, int64_series [0; 1])] |}.

(** Three integer columns [a], [b], [c]. *)
Definition df_abc : DataFrame :=
  {| columns := [("a", int64_series [1]); ("b", int64_series [2]);
                 ("c", int64_series [3])];
     index_levels := [(None, int64_series [0])] |}.

(* ================================================================== *)
(** ** Auxiliary predicates on characters and strings *)

(** A property of every character of a string. *)
Fixpoint all_chars (f : ascii -> bool) (s : string) : bool :=
  match s with
  | EmptyString => true
  | String c s' => f c && all_chars f s'
  end.

(** A decimal digit; a character of a rendered integer; a character other
    than [a]. *)
Definition is_digit (c : ascii) : bool :=
  match Py.digit_of c with Some _ => true | None => false end.

Definition is_num_char (c : ascii) : bool := is_digit c || Ascii.eqb c "-".

Definition differs (a : ascii) (c : ascii) : bool := negb (Ascii.eqb c a).


(** The suffix [key1=val1/key2=val2/.../] in the words of the specification:
    every pair rendered [key=val] and followed by the separator. *)
Definition rendered_suffix (names values : list string) : string :=
  String.concat "" (map (fun nv => fst nv ++ "=" ++ snd nv ++ "/") (combine names values)).

(** A column [d] of ISO datetime strings with an absent cell, and a column
    [x] that no cast names. *)
Definition df_dates : DataFrame :=
  {| columns := [("d", object_series [VStr "2020-01-01 10:30:00"; VNone;
                                      VStr "2021-12-31"]);
                 ("x", int64_series [1; 2; 3])];
     index_levels := [(None, int64_series [0; 1; 2])] |}.

(** A column [d] whose second cell is no datetime. *)
Definition df_dates_unparseable : DataFrame :=
  {| columns := [("d", object_series [VStr "2020-01-01 10:30:00";
                                      VStr "not a date"])];
     index_levels := [(None, int64_series [0; 1])] |}.

(** A column [amt] of decimal strings and missing-looking strings. *)
Definition df_amounts : DataFrame :=
  {| columns := [("id", int64_series [1; 2; 3]);
                 ("amt", object_series [VStr "1.50"; VStr ""; VStr "none"])];
     index_levels := [(None, int64_series [0; 1; 2])] |}.

(** A store in which every reference holds the given dataframe. *)
Definition store_of (df : DataFrame) : store := fun _ => df.

(** Two dataframes that differ at most in the columns labelled in [cs]:
    same index, same labels in the same order, and every column labelled
    outside [cs] is the same. *)
Definition same_outside (cs : list string) (a b : DataFrame) : Prop :=
  index_levels a = index_levels b /\
  Forall2 (fun c c' => fst c = fst c' /\ (~ In (fst c) cs -> c = c'))
          (columns a) (columns b).

(** A path "normalized to end with the separator", in the words of the
    specification: left as it is when it ends with ["/"], given one
    otherwise. *)
Definition ends_with_sep (x : string) : bool :=
  match Py.last_char x with
  | Some c => Ascii.eqb c "/"
  | None => false
  end.

Definition normalized (x : string) : string :=
  if ends_with_sep x then x else x ++ "/".

(** The key the specification gives a row of partition values: the
    normalized base followed by the joined pairs, normalized too. *)
Definition partition_key (path : string) (names row : list string) : string :=
  normalized path ++ normalized (render_pairs names row).

(** What the date cast makes of a cell of the converted column, in the words
    of the specification: the calendar date of a timestamp, the explicit
    absent-value marker for the timestamp-null. *)
Definition is_date_of (v out : Value) : Prop :=
  (forall t, v = VTimestamp t -> out = VDate (ts_date t)) /\
  (v = VNaT -> out = VNone).

(** The four string forms the decimal cast takes for missing. *)
Definition swallowed_forms : list string := [""; "none"; " "; "<NA>"].

(* ================================================================== *)
(** ** Further functions of the module *)

(** The pandas extension dtypes that [pyarrow2pandas_extension] returns. *)
Inductive ExtensionDtype : Type :=
| Int8Dtype | Int16Dtype | Int32Dtype | Int64Dtype | BooleanDtype | StringDtype.

(** [str(dtype)] for an extension dtype. *)
Definition ExtensionDtype_str (d : ExtensionDtype) : string :=
  match d with
  | Int8Dtype => "Int8"
  | Int16Dtype => "Int16"
  | Int32Dtype => "Int32"
  | Int64Dtype => "Int64"
  | BooleanDtype => "boolean"
  | StringDtype => "string"
  end.

(** [pyarrow2pandas_extension] *)
Definition pyarrow2pandas_extension (dtype : DataType) : option ExtensionDtype :=
  match dtype with
  | pa_int8 => Some Int8Dtype
  | pa_int16 => Some Int16Dtype
  | pa_int32 => Some Int32Dtype
  | pa_int64 => Some Int64Dtype
  | pa_bool_ => Some BooleanDtype
  | pa_string => Some StringDtype
  | _ => None
  end.

(** A partition level as pyarrow discovers it: its name, the type of its
    dictionary of values, and its keys. *)
Record ParquetPartition := {
  part_name : string;
  part_dictionary_type : DataType;
  part_keys : list string
}.

(** The comprehension [{name: pyarrow2athena(type) for ...}] over named
    types. *)
Fixpoint athena_types_comprehension (fields : list (string * DataType))
    (acc : dict string) : result (dict string) :=
  match fields with
  | [] => OK acc
  | (name, type) :: fields' =>
      t <- pyarrow2athena type ;;
      athena_types_comprehension fields' (setitem acc name t)
  end.

(** [athena_types_from_pyarrow_schema] *)
Definition athena_types_from_pyarrow_schema (schema : list (string * DataType))
    (partitions : list ParquetPartition) : result (dict string * dict string) :=
  columns_types <- athena_types_comprehension schema [] ;;
  partitions_types <-
    athena_types_comprehension
      (map (fun p => (part_name p, part_dictionary_type p)) partitions) [] ;;
  OK (columns_types, partitions_types).

(** The types [pyarrow2athena] has a name for: the supported leaves, and the
    dictionaries, lists and structs built from them. *)
Fixpoint convertible (t : DataType) : bool :=
  match t with
  | pa_int8 | pa_int16 | pa_int32 | pa_int64 | pa_float32 | pa_float64
  | pa_bool_ | pa_string | pa_timestamp _ | pa_date32 | pa_date64 | pa_binary
  | pa_decimal128 _ _ => true
  | pa_dictionary v => convertible v
  | pa_list_ v => convertible v
  | pa_struct fs =>
      (fix each (l : list (string * DataType)) : bool :=
         match l with
         | [] => true
         | (_, t) :: l' => convertible t && each l'
         end) fs
  | _ => false
  end.

(** The types in which the null type occurs. *)
Fixpoint contains_null (t : DataType) : bool :=
  match t with
  | pa_null => true
  | pa_dictionary v => contains_null v
  | pa_list_ v => contains_null v
  | pa_struct fs =>
      (fix any (l : list (string * DataType)) : bool :=
         match l with
         | [] => false
         | (_, t) :: l' => contains_null t || any l'
         end) fs
  | _ => false
  end.

(** The dtypes that [pyarrow_types_from_pandas] settles without inference. *)
Definition exception_dtype_names : list string :=
  ["Int8"; "Int16"; "Int32"; "Int64"; "string"].

(** What the bytes cast makes of a stringified cell: the UTF-8 bytes of a
    string, the absent-value marker for [pd.NA]. *)
Definition bytes_cell (x : option string) : Value :=
  match x with
  | Some s => VBytes s
  | None => VNone
  end.

(* ================================================================== *)
(** ** The S3 module ([awswrangler/s3.py]) *)

(** [s.split(sep, 1)] for a one-character separator: at most one split, at
    the first separator. *)
Fixpoint split_once (sep : ascii) (s : string) : list string :=
  match s with
  | EmptyString => [EmptyString]
  | String c s' =>
      if Ascii.eqb c sep then [EmptyString; s']
      else match split_once sep s' with
           | h :: t => String c h :: t
           | [] => [String c EmptyString]
           end
  end.

(** What a call that goes to the S3 client comes to: a value, an exception of
    Python or of this library, or a botocore [ClientError] with its HTTP
    status code. *)
Inductive outcome (A : Type) : Type :=
| Returned (a : A)
| Raised (e : exn)
| RaisedClientError (status : Z).
Arguments Returned {A} a.
Arguments Raised {A} e.
Arguments RaisedClientError {A} status.

Section S3.

(** [s3_client.head_object(Bucket=bucket, Key=key)] *)
Variable head_object : string -> string -> outcome unit.

(** [S3.does_object_exists] *)
Definition does_object_exists (path : string) : outcome bool :=
  match split_once "/" (Py.remove path "s3://") with
  | [bucket; key] =>
      match head_object bucket key with
      | Returned _ => Returned true
      | RaisedClientError status =>
          if status =? 404 then Returned false else RaisedClientError status
      | Raised e => Raised e
      end
  | _ => Raised ValueError
  end.

(** [_utils.parse_path], which splits a path into its bucket and its key. *)
Variable parse_path : string -> result (string * string).

(** The loop of [S3._split_paths_by_bucket]. *)
Fixpoint split_paths_loop (paths : list string) (buckets : dict (list string))
    : result (dict (list string)) :=
  match paths with
  | [] => OK buckets
  | path :: paths' =>
      bk <- parse_path path ;;
      let buckets :=
        if negb (mem (fst bk) (keys buckets))
        then setitem buckets (fst bk) []
        else buckets in
      l <- getitem buckets (fst bk) ;;
      split_paths_loop paths' (setitem buckets (fst bk) (l ++ [snd bk])%list)
  end.

(** [S3._split_paths_by_bucket] *)
Definition _split_paths_by_bucket (paths : list string) : result (dict (list string)) :=
  split_paths_loop paths [].

End S3.

(** What [_writer_factory] does to the bucket, in order: the prefixes it has
    deleted and the files it has had written. *)
Inductive s3_event : Type :=
| DeletePrefix (path : string) (parallel : bool)
| WriteFile (df : DataFrame) (path : string) (filename : option string)
            (cpus : Z) (self_destruct : bool).

(** The key of a group of [df.groupby]: a scalar when grouping by one column,
    a tuple otherwise. *)
Inductive group_key : Type :=
| ScalarKey (v : string)
| TupleKey (vs : list string).

(** [(keys, ) if not isinstance(keys, tuple) else keys] *)
Definition as_tuple (keys : group_key) : list string :=
  match keys with
  | ScalarKey v => [v]
  | TupleKey vs => vs
  end.

(** [df.drop(labels, axis="columns")]: a label that is no column raises. *)
Definition drop_columns (df : DataFrame) (labels : list string) : result DataFrame :=
  if forallb (fun l => mem l (column_names df)) labels
  then OK {| columns := filter (fun c => negb (mem (fst c) labels)) (columns df);
             index_levels := index_levels df |}
  else Raise KeyError.

(** A computation that appends to the sequence of events and may raise. *)
Definition traced (A : Type) : Type := list s3_event -> list s3_event * result A.

Definition ret {A} (a : A) : traced A := fun tr => (tr, OK a).

Definition bindT {A B} (m : traced A) (k : A -> traced B) : traced B :=
  fun tr => match m tr with
            | (tr', OK a) => k a tr'
            | (tr', Raise e) => (tr', Raise e)
            end.

(** A call that leaves an event, whatever it comes to. *)
Definition call {A} (ev : s3_event) (r : result A) : traced A :=
  fun tr => ((tr ++ [ev])%list, r).

Definition lift {A} (r : result A) : traced A := fun tr => (tr, r).

Section Writer.

(** [_utils.get_cpu_count] *)
Variable get_cpu_count : bool -> Z.

(** The [file_writer] callable, [_write_csv_file] or [_write_parquet_file]:
    it uploads one file and returns its path. *)
Variable file_writer : DataFrame -> string -> option string -> Z -> bool -> result string.

(** [self.delete_objects_prefix] *)
Variable delete_objects_prefix : string -> bool -> result unit.

(** [np.array_split(df, num_files)] *)
Variable array_split : DataFrame -> Z -> result (list DataFrame).

(** [df.groupby(by=partition_cols, observed=True)], the values of the keys
    rendered as an f-string renders them. *)
Variable groupby : DataFrame -> list string -> result (list (group_key * DataFrame)).

Definition write (df : DataFrame) (path : string) (filename : option string)
    (cpus : Z) (self_destruct : bool) : traced string :=
  call (WriteFile df path filename cpus self_destruct)
       (file_writer df path filename cpus self_destruct).

Definition delete (path : string) (parallel : bool) : traced unit :=
  call (DeletePrefix path parallel) (delete_objects_prefix path parallel).

(** The loop over the subgroups of [np.array_split]. *)
Fixpoint write_subgroups (subgroups : list DataFrame) (path : string) (cpus : Z)
    (self_destruct : bool) (paths : list string) : traced (list string) :=
  match subgroups with
  | [] => ret paths
  | subgroup :: rest =>
      bindT (write subgroup path None cpus self_destruct) (fun p =>
      write_subgroups rest path cpus self_destruct (paths ++ [p])%list)
  end.

(** The loop over the groups of [df.groupby]. *)
Fixpoint write_groups (groups : list (group_key * DataFrame))
    (partition_cols : list string) (path mode : string) (parallel : bool)
    (cpus : Z) (self_destruct : bool) (paths : list string)
    : traced (list string) :=
  match groups with
  | [] => ret paths
  | (keys, subgroup) :: rest =>
      bindT (lift (drop_columns subgroup partition_cols)) (fun subgroup =>
      let keys := as_tuple keys in
      let subdir := render_pairs partition_cols keys in
      let prefix := path ++ subdir ++ "/" in
      bindT (if String.eqb mode "partition_upsert"
             then delete prefix parallel
             else ret tt) (fun _ =>
      bindT (write subgroup prefix None cpus self_destruct) (fun p =>
      write_groups rest partition_cols path mode parallel cpus self_destruct
                   (paths ++ [p])%list)))
  end.

(** [not partition_cols] *)
Definition no_partition_cols (partition_cols : option (list string)) : bool :=
  match partition_cols with
  | None | Some [] => true
  | Some (_ :: _) => false
  end.

(** [S3._writer_factory] *)
Definition _writer_factory (df : DataFrame) (path : string)
    (filename : option string) (partition_cols : option (list string))
    (num_files : Z) (mode : string) (parallel : bool) (self_destruct : bool)
    : traced (list string) :=
  let cpus := get_cpu_count parallel in
  bindT (lift (with_trailing_sep path)) (fun path =>
  match filename with
  | Some filename =>
      bindT (write df path (Some filename) cpus self_destruct) (fun p =>
      ret [p])
  | None =>
      bindT (if String.eqb mode "overwrite" ||
                (String.eqb mode "partition_upsert" &&
                 no_partition_cols partition_cols)
             then delete path parallel
             else ret tt) (fun _ =>
      if no_partition_cols partition_cols then
        if num_files <? 2 then
          bindT (write df path None cpus self_destruct) (fun p => ret [p])
        else
          bindT (lift (array_split df num_files)) (fun subgroups =>
          write_subgroups subgroups path cpus self_destruct [])
      else
        bindT (lift (groupby df (match partition_cols with
                                 | Some l => l
                                 | None => []
                                 end))) (fun groups =>
        write_groups groups (match partition_cols with
                             | Some l => l
                             | None => []
                             end)
                     path mode parallel cpus self_destruct []))
  end).

End Writer.

(** Reference instances for the writer: a file writer that names its file
    [part.parquet], a deletion that succeeds, the split of the rows into
    sections as [np.array_split] sizes them, and the groups of [df_id_name]
    by its column [name]. *)
Definition sample_file_writer (df : DataFrame) (path : string)
    (filename : option string) (cpus : Z) (self_destruct : bool) : result string :=
  match filename with
  | Some f => OK (path ++ f)
  | None => OK (path ++ "part.parquet")
  end.

Definition sample_delete (path : string) (parallel : bool) : result unit := OK tt.

Definition slice_series (s : Series) (start len : nat) : Series :=
  {| dtype := dtype s; values := firstn len (skipn start (values s)) |}.

Definition slice_frame (df : DataFrame) (start len : nat) : DataFrame :=
  {| columns := map (fun c => (fst c, slice_series (snd c) start len)) (columns df);
     index_levels :=
       map (fun c => (fst c, slice_series (snd c) start len)) (index_levels df) |}.

Definition n_rows (df : DataFrame) : nat :=
  match index_levels df with
  | (_, s) :: _ => length (values s)
  | [] => match columns df with
          | (_, s) :: _ => length (values s)
          | [] => O
          end
  end.

Fixpoint sections (df : DataFrame) (start : nat) (sizes : list nat) : list DataFrame :=
  match sizes with
  | [] => []
  | k :: sizes' => slice_frame df start k :: sections df (start + k) sizes'
  end.

Definition rows_array_split (df : DataFrame) (n : Z) : result (list DataFrame) :=
  if n <=? 0 then Raise ValueError
  else
    let parts := Z.to_nat n in
    let each := Nat.div (n_rows df) parts in
    let extras := Nat.modulo (n_rows df) parts in
    OK (sections df 0 (repeat (S each) extras ++ repeat each (parts - extras))%list).

Definition groups_of_df_id_name (df : DataFrame) (by_ : list string)
    : result (list (group_key * DataFrame)) :=
  match by_ with
  | ["name"] => OK [(ScalarKey "a", slice_frame df_id_name 0 1);
                    (ScalarKey "b", slice_frame df_id_name 1 1)]
  | _ => Raise KeyError
  end.

(** The entry of a bucket in a mapping, or no keys when it has none. *)
Definition keys_of_bucket (buckets : dict (list string)) (b : string) : list string :=
  match getitem buckets b with
  | OK l => l
  | Raise _ => []
  end.

(** What [does_object_exists] makes of the answer of [head_object]. *)
Definition exists_of_head (r : outcome unit) : outcome bool :=
  match r with
  | Returned _ => Returned true
  | RaisedClientError status =>
      if status =? 404 then Returned false else RaisedClientError status
  | Raised e => Raised e
  end.

(** The paths of the files written and the prefixes deleted, in an event
    sequence. *)
Definition written_paths (tr : list s3_event) : list string :=
  flat_map (fun ev => match ev with
                      | WriteFile _ p _ _ _ => [p]
                      | DeletePrefix _ _ => []
                      end) tr.

Definition deleted_prefixes (tr : list s3_event) : list string :=
  flat_map (fun ev => match ev with
                      | DeletePrefix p _ => [p]
                      | WriteFile _ _ _ _ _ => []
                      end) tr.

(** The prefix [_writer_factory] writes a group into. *)
Definition group_prefix (path : string) (partition_cols : list string)
    (g : group_key * DataFrame) : string :=
  path ++ render_pairs partition_cols (as_tuple (fst g)) ++ "/".

(** A deletion of a prefix followed by a write into it. *)
Definition delete_then_write (parallel : bool) (cpus : Z) (self_destruct : bool)
    (pd : string * DataFrame) : list s3_event :=
  [DeletePrefix (fst pd) parallel;
   WriteFile (snd pd) (fst pd) None cpus self_destruct].

(** A reference instance of [parse_path]: the bucket and the key as
    [does_object_exists] splits them. *)
Definition parse_bucket_key (path : string) : result (string * string) :=
  match split_once "/" (Py.remove path "s3://") with
  | [bucket; key] => OK (bucket, key)
  | _ => Raise ValueError
  end.

(** What the file writer returned for each file of an event sequence. *)
Definition write_results
    (file_writer : DataFrame -> string -> option string -> Z -> bool -> result string)
    (tr : list s3_event) : list (result string) :=
  flat_map (fun ev => match ev with
                      | WriteFile df p f c s => [file_writer df p f c s]
                      | DeletePrefix _ _ => []
                      end) tr.

(** The partition levels of [df_id_name] grouped by its column [name]. *)
Definition levels_of_df_id_name : list (string * list string) :=
  [("name", ["a"; "b"])].

(** A reference instance of [get_cpu_count], and a run of the writer on
    [df_id_name] partitioned by [name], in mode [append]. *)
Definition sample_cpu_count (parallel : bool) : Z := if parallel then 4 else 1.

Definition sample_run : list s3_event * result (list string) :=
  _writer_factory sample_cpu_count sample_file_writer sample_delete
    rows_array_split groups_of_df_id_name df_id_name "s3://bucket/prefix"
    None (Some ["name"]) 1 "append" true false [].

(** The groups of [df_abc] by its columns [c] and [a], in that order: one
    group, keyed by the values of [c] and [a]. *)
Definition groups_of_df_abc (df : DataFrame) (by_ : list string)
    : result (list (group_key * DataFrame)) :=
  match by_ with
  | ["c"; "a"] => OK [(TupleKey ["3"; "1"], df_abc)]
  | _ => Raise KeyError
  end.

(** The partition levels pyarrow discovers under the paths written for
    [df_abc] partitioned by [c] and [a]. *)
Definition levels_of_df_abc : list ParquetPartition :=
  [{| part_name := "c"; part_dictionary_type := pa_int64; part_keys := ["3"] |};
   {| part_name := "a"; part_dictionary_type := pa_int64; part_keys := ["1"] |}].

(* ================================================================== *)
(** * Properties *)

(** ** Characters and strings *)

Ltac each_ascii c :=
  destruct c as [[] [] [] [] [] [] [] []]; try reflexivity; try discriminate.

Lemma lower_char_idempotent (c : ascii) :
  Py.lower_char (Py.lower_char c) = Py.lower_char c.
Proof. each_ascii c. Qed.

Lemma lower_idempotent (s : string) : Py.lower (Py.lower s) = Py.lower s.
Proof.
  induction s as [|c s IH]; simpl; [reflexivity|].
  now rewrite lower_char_idempotent, IH.
Qed.

Lemma append_assoc (a b c : string) : (a ++ b) ++ c = a ++ (b ++ c).
Proof. induction a as [|x a IH]; simpl; [reflexivity | now rewrite IH]. Qed.

Lemma all_chars_app f (a b : string) :
  all_chars f (a ++ b) = all_chars f a && all_chars f b.
Proof.
  induction a as [|c a IH]; simpl; [reflexivity|].
  now rewrite IH, andb_assoc.
Qed.

Lemma all_chars_weaken (f g : ascii -> bool) (s : string) :
  (forall c, f c = true -> g c = true) ->
  all_chars f s = true -> all_chars g s = true.
Proof.
  intros Hfg. induction s as [|c s IH]; simpl; [reflexivity|].
  intros H. apply andb_prop in H as [Hc Hs].
  now rewrite (Hfg _ Hc), IH.
Qed.

(** C9. [athena2pyarrow] is case-insensitive: on every tag it returns what it
    returns on the lowercased tag, and ["BIGINT"], ["bigint"] and ["BigInt"]
    all map to the 64-bit signed integer type. *)
Theorem athena2pyarrow_case_insensitive :
  (forall tag, athena2pyarrow tag = athena2pyarrow (Py.lower tag)) /\
  athena2pyarrow "BIGINT" = OK pa_int64 /\
  athena2pyarrow "bigint" = OK pa_int64 /\
  athena2pyarrow "BigInt" = OK pa_int64.
Proof.
  split; [|repeat split; reflexivity].
  intros tag. unfold athena2pyarrow.
  now rewrite lower_idempotent.
Qed.

(** ** The accepted vocabulary *)

Lemma startswith_app (s p : string) :
  Py.startswith s p = true -> exists r, s = p ++ r.
Proof.
  revert s. induction p as [|a p IH]; intros s H; simpl in *.
  - now exists s.
  - destruct s as [|b s]; [discriminate|].
    apply andb_prop in H as [Hab H]. apply Ascii.eqb_eq in Hab as ->.
    destruct (IH _ H) as [r ->]. now exists r.
Qed.

Lemma int_raises_ValueError (s : string) (e : exn) :
  Py.int s = Raise e -> e = ValueError.
Proof.
  unfold Py.int. destruct (Py.int_literal _); intros H; [discriminate | now injection H].
Qed.

Lemma decimal128_raises (p s : Z) (e : exn) :
  decimal128 p s = Raise e -> e = ValueError \/ e = OverflowError.
Proof.
  unfold decimal128. destruct (in_int32 p && in_int32 s); cbn [negb].
  - destruct (_ && _); intros H; [discriminate | left; now injection H].
  - intros H. right. now injection H.
Qed.

Lemma decimal128_returns (p s : Z) (t : DataType) :
  decimal128 p s = OK t ->
  t = pa_decimal128 p s /\ 1 <= p <= 38 /\ in_int32 s = true.
Proof.
  unfold decimal128. destruct (in_int32 p && in_int32 s) eqn:Ei; cbn [negb];
    [|discriminate].
  destruct ((1 <=? p) && (p <=? 38)) eqn:Ep; intros H; [|discriminate].
  apply andb_prop in Ei as [_ Hs]. apply andb_prop in Ep as [H1 H2].
  apply Z.leb_le in H1, H2. injection H as <-. repeat split; assumption.
Qed.

Lemma decimal128_accepts (p s : Z) :
  1 <= p <= 38 -> in_int32 s = true -> decimal128 p s = OK (pa_decimal128 p s).
Proof.
  intros Hp Hs. unfold decimal128.
  replace (in_int32 p) with true
    by (symmetry; unfold in_int32; apply andb_true_intro; split; apply Z.leb_le; lia).
  rewrite Hs. cbn [andb negb].
  replace (1 <=? p) with true by (symmetry; apply Z.leb_le; lia).
  replace (p <=? 38) with true by (symmetry; apply Z.leb_le; lia).
  reflexivity.
Qed.

(** What [athena2pyarrow] does with a lowercased tag that starts with
    ["decimal"]. *)
Lemma athena2pyarrow_decimal_branch (tag r : string) :
  Py.lower tag = "decimal" ++ r ->
  athena2pyarrow tag =
  match Py.split "," (Py.remove (Py.remove ("decimal" ++ r) "decimal(") ")") with
  | [precision; scale] =>
      p <- Py.int precision ;; s <- Py.int scale ;; decimal128 p s
  | _ => Raise ValueError
  end.
Proof.
  intros H. unfold athena2pyarrow. rewrite H.
  generalize (Py.split "," (Py.remove (Py.remove ("decimal" ++ r) "decimal(") ")")).
  intros l.
  cbn [String.append String.eqb Ascii.eqb Bool.eqb Py.in_tuple existsb
       Py.contains Py.startswith orb andb].
  reflexivity.
Qed.

(** C2, what fails: the tag ["decimal"] is outside the vocabulary, and the
    call fails with a [ValueError] while unpacking the two fields, not with
    [UnsupportedType]. *)
Lemma athena2pyarrow_decimal_prefix_ValueError :
  ~ in_vocabulary "decimal" /\
  athena2pyarrow "decimal" = Raise ValueError /\
  is_UnsupportedType ValueError = false.
Proof.
  split; [|split; reflexivity].
  intros [H | (p & s & H)].
  - simpl in H. repeat (destruct H as [H | H]; [discriminate|]). exact H.
  - unfold decimal_tag in H. simpl in H. discriminate.
Qed.

(** The slip on the binary test: ["varbinary"] is refused, where the sibling
    [athena2pandas] accepts it, and the fragments of ["binary"] are taken for
    it. *)
Lemma athena2pyarrow_binary_membership_slip :
  athena2pyarrow "varbinary"
    = Raise (UnsupportedType "Unsupported Athena type: varbinary") /\
  athena2pandas "varbinary" = OK "bytes" /\
  athena2pyarrow "bin" = OK pa_binary /\
  athena2pyarrow "" = OK pa_binary.
Proof. repeat split; reflexivity. Qed.

(** C2, amended. [athena2pyarrow] maps ["binary"] to the binary type; a tag
    whose lowercased form is no name of the vocabulary, does not start with
    ["decimal"] and is no fragment of the word ["binary"] fails with
    [UnsupportedType]; a tag whose lowercased form starts with ["decimal"]
    yields a decimal128 type, of a precision from 1 to 38 and a scale of 32
    bits, or fails with [ValueError] (the arguments do not parse, or the
    precision is outside 1 to 38) or with [OverflowError] (an argument
    beyond 32 bits), never with [UnsupportedType]. *)
Theorem athena2pyarrow_vocabulary :
  athena2pyarrow "binary" = OK pa_binary /\
  (forall tag,
      Py.in_tuple (Py.lower tag) vocabulary_names = false ->
      Py.startswith (Py.lower tag) "decimal" = false ->
      Py.contains "binary" (Py.lower tag) = false ->
      athena2pyarrow tag
        = Raise (UnsupportedType ("Unsupported Athena type: " ++ Py.lower tag))) /\
  (forall tag,
      Py.startswith (Py.lower tag) "decimal" = true ->
      (exists p s, athena2pyarrow tag = OK (pa_decimal128 p s) /\
                   1 <= p <= 38 /\ in_int32 s = true) \/
      athena2pyarrow tag = Raise ValueError \/
      athena2pyarrow tag = Raise OverflowError).
Proof.
  split; [reflexivity|]. split.
  - intros tag Hv Hd Hb. unfold athena2pyarrow.
    set (t := Py.lower tag) in *.
    unfold Py.in_tuple, vocabulary_names, non_composite_names in *.
    simpl in Hv.
    repeat match goal with
           | H : _ || _ = false |- _ => apply orb_false_elim in H as [? ?]
           end.
    simpl existsb.
    repeat match goal with
           | H : String.eqb t _ = false |- _ => rewrite H; clear H
           end.
    rewrite Hb, Hd. reflexivity.
  - intros tag Hd. apply startswith_app in Hd as [r Hr].
    rewrite (athena2pyarrow_decimal_branch _ _ Hr).
    destruct (Py.split _ _) as [|a [|b [|c l]]]; try (right; left; reflexivity).
    destruct (Py.int a) as [p|e] eqn:Ea; simpl.
    2:{ right. left. now rewrite (int_raises_ValueError _ _ Ea). }
    destruct (Py.int b) as [s|e] eqn:Eb; simpl.
    2:{ right. left. now rewrite (int_raises_ValueError _ _ Eb). }
    destruct (decimal128 p s) as [t|e] eqn:Ed.
    + left. exists p, s. destruct (decimal128_returns _ _ _ Ed) as (-> & Hp & Hs).
      now repeat split.
    + right. destruct (decimal128_raises _ _ _ Ed) as [-> | ->]; [now left | now right].
Qed.

Lemma athena2pyarrow_vocabulary_witness :
  athena2pyarrow "JSON" = Raise (UnsupportedType "Unsupported Athena type: json") /\
  ((exists p s, athena2pyarrow "Decimal(10,2)" = OK (pa_decimal128 p s) /\
                1 <= p <= 38 /\ in_int32 s = true) \/
   athena2pyarrow "Decimal(10,2)" = Raise ValueError \/
   athena2pyarrow "Decimal(10,2)" = Raise OverflowError).
Proof.
  split.
  - apply (proj1 (proj2 athena2pyarrow_vocabulary) "JSON"); reflexivity.
  - apply (proj2 (proj2 athena2pyarrow_vocabulary) "Decimal(10,2)"); reflexivity.
Defined.

(** ** Rendering and reading integers *)

Lemma string_of_uint_digits (u : Decimal.uint) :
  all_chars is_digit (NilEmpty.string_of_uint u) = true.
Proof. induction u; simpl; auto. Qed.

Lemma str_int_num_chars (z : Z) : all_chars is_num_char (Py.str_int z) = true.
Proof.
  assert (D : forall u, all_chars is_num_char (NilZero.string_of_uint u) = true).
  { intros u. unfold NilZero.string_of_uint.
    destruct u; try reflexivity;
      match goal with
      | |- all_chars _ (NilEmpty.string_of_uint ?u) = true =>
          apply all_chars_weaken with (f := is_digit);
          [ intros c Hc; unfold is_num_char; now rewrite Hc
          | apply string_of_uint_digits ]
      end. }
  unfold Py.str_int, NilZero.string_of_int.
  destruct (Z.to_int z); [apply D | simpl; apply D].
Qed.

Ltac eval_digit :=
  lazymatch goal with
  | |- context [Py.digit_of ?c] =>
      let v := eval vm_compute in (Py.digit_of c) in
      change (Py.digit_of c) with v
  end; cbv iota beta.

Lemma int_digits_acc (u : Decimal.uint) (a : positive) :
  Py.int_digits (Z.pos a) true (NilEmpty.string_of_uint u)
  = Some (Z.pos (Pos.of_uint_acc u a)).
Proof.
  revert a. induction u; intros a;
    cbn [NilEmpty.string_of_uint Py.int_digits Pos.of_uint_acc];
    [reflexivity | ..];
    eval_digit; rewrite <- IHu; f_equal; lia.
Qed.

Lemma int_digits_of_uint (u : Decimal.uint) :
  Py.int_digits 0 true (NilEmpty.string_of_uint u) = Some (Z.of_N (Pos.of_uint u)).
Proof.
  induction u;
    cbn [NilEmpty.string_of_uint Py.int_digits Pos.of_uint];
    [reflexivity | ..];
    eval_digit; [exact IHu | ..];
    lazymatch goal with
    | |- Py.int_digits ?z true _ = _ =>
        let v := eval vm_compute in z in change z with v
    end; rewrite int_digits_acc; reflexivity.
Qed.

Lemma int_digits_first (u : Decimal.uint) :
  u <> Decimal.Nil ->
  Py.int_digits 0 false (NilEmpty.string_of_uint u)
  = Py.int_digits 0 true (NilEmpty.string_of_uint u).
Proof. destruct u; intros H; [now elim H | reflexivity ..]. Qed.

Lemma string_of_uint_nonnil (u : Decimal.uint) :
  u <> Decimal.Nil -> NilZero.string_of_uint u = NilEmpty.string_of_uint u.
Proof. destruct u; intros H; [now elim H | reflexivity ..]. Qed.

Lemma int_digits_to_uint (p : positive) :
  Py.int_digits 0 false (NilZero.string_of_uint (Pos.to_uint p)) = Some (Z.pos p).
Proof.
  pose proof (DecimalPos.Unsigned.to_uint_nonnil p) as Hn.
  rewrite (string_of_uint_nonnil _ Hn), (int_digits_first _ Hn).
  rewrite int_digits_of_uint, DecimalPos.Unsigned.of_to. reflexivity.
Qed.

Lemma lstrip_fixed (s : string) :
  all_chars (fun c => negb (Py.is_space c)) s = true -> Py.lstrip s = s.
Proof.
  destruct s as [|c s]; simpl; [reflexivity|].
  intros H. apply andb_prop in H as [Hc _].
  now destruct (Py.is_space c).
Qed.

Lemma rstrip_fixed (s : string) :
  all_chars (fun c => negb (Py.is_space c)) s = true -> Py.rstrip s = s.
Proof.
  induction s as [|c s IH]; simpl; [reflexivity|].
  intros H. apply andb_prop in H as [Hc Hs].
  rewrite (IH Hs). destruct s; [|reflexivity].
  now destruct (Py.is_space c).
Qed.

Lemma num_char_no_space (c : ascii) :
  is_num_char c = true -> negb (Py.is_space c) = true.
Proof. each_ascii c. Qed.

Lemma int_literal_digits (s : string) :
  all_chars is_digit s = true -> Py.int_literal s = Py.int_digits 0 false s.
Proof.
  destruct s as [|c s]; [reflexivity|].
  simpl. intros H. apply andb_prop in H as [Hc _]. revert Hc.
  each_ascii c.
Qed.

(** [int(str(z)) == z] *)
Lemma int_str_int (z : Z) : Py.int (Py.str_int z) = OK z.
Proof.
  unfold Py.int, Py.strip.
  assert (Hs : all_chars (fun c => negb (Py.is_space c)) (Py.str_int z) = true).
  { apply all_chars_weaken with (f := is_num_char);
      [apply num_char_no_space | apply str_int_num_chars]. }
  rewrite (lstrip_fixed _ Hs), (rstrip_fixed _ Hs).
  unfold Py.str_int, NilZero.string_of_int.
  destruct z as [|p|p]; simpl Z.to_int; cbv iota.
  - reflexivity.
  - rewrite int_literal_digits.
    + now rewrite int_digits_to_uint.
    + rewrite string_of_uint_nonnil
        by apply DecimalPos.Unsigned.to_uint_nonnil.
      apply string_of_uint_digits.
  - change (Py.int_literal (String "-" ?r))
      with (option_map Z.opp (Py.int_digits 0 false r)).
    now rewrite int_digits_to_uint.
Qed.

(** ** Lowercasing, deleting and splitting strings free of a character *)

Lemma lower_fixed (s : string) :
  all_chars (fun c => negb (Py.is_upper c)) s = true -> Py.lower s = s.
Proof.
  induction s as [|c s IH]; simpl; [reflexivity|].
  intros H. apply andb_prop in H as [Hc Hs]. rewrite (IH Hs).
  unfold Py.lower_char. now destruct (Py.is_upper c).
Qed.

Lemma remove_from_absent (a : ascii) (old s : string) :
  all_chars (differs a) s = true -> Py.remove_from (String a old) 0 s = s.
Proof.
  induction s as [|c s IH]; [reflexivity|].
  intros H. simpl in H. apply andb_prop in H as [Hc Hs].
  unfold differs in Hc. cbn [Py.remove_from Py.startswith].
  rewrite Ascii.eqb_sym. destruct (Ascii.eqb c a); [discriminate|].
  simpl. now rewrite (IH Hs).
Qed.

Lemma remove_char_at_end (a : ascii) (x : string) :
  all_chars (differs a) x = true ->
  Py.remove_from (String a EmptyString) 0 (x ++ String a EmptyString) = x.
Proof.
  induction x as [|c x IH]; simpl.
  - intros _. now rewrite Ascii.eqb_refl.
  - intros H. apply andb_prop in H as [Hc Hx].
    unfold differs in Hc. rewrite Ascii.eqb_sym.
    destruct (Ascii.eqb c a); [discriminate|].
    simpl. now rewrite (IH Hx).
Qed.

Lemma split_absent (sep : ascii) (y : string) :
  all_chars (differs sep) y = true -> Py.split sep y = [y].
Proof.
  induction y as [|c y IH]; simpl; [reflexivity|].
  intros H. apply andb_prop in H as [Hc Hy]. rewrite (IH Hy).
  unfold differs in Hc. now destruct (Ascii.eqb c sep).
Qed.

Lemma split_at_first (sep : ascii) (x y : string) :
  all_chars (differs sep) x = true -> all_chars (differs sep) y = true ->
  Py.split sep (x ++ String sep y) = [x; y].
Proof.
  intros Hx Hy. induction x as [|c x IH]; simpl.
  - now rewrite (split_absent _ _ Hy), Ascii.eqb_refl.
  - simpl in Hx. apply andb_prop in Hx as [Hc Hx]. rewrite (IH Hx).
    unfold differs in Hc. now destruct (Ascii.eqb c sep).
Qed.

Lemma num_char_not_upper (c : ascii) :
  is_num_char c = true -> negb (Py.is_upper c) = true.
Proof. each_ascii c. Qed.

Lemma num_char_differs (a : ascii) :
  is_num_char a = false -> forall c, is_num_char c = true -> differs a c = true.
Proof.
  intros Ha c Hc. unfold differs.
  destruct (Ascii.eqb c a) eqn:E; [|reflexivity].
  apply Ascii.eqb_eq in E. congruence.
Qed.

Lemma str_int_differs (a : ascii) (z : Z) :
  is_num_char a = false -> all_chars (differs a) (Py.str_int z) = true.
Proof.
  intros Ha. apply all_chars_weaken with (f := is_num_char);
    [apply (num_char_differs a Ha) | apply str_int_num_chars].
Qed.

(** ** The round trip of catalog tags *)

(** [athena2pyarrow] reads back the precision and the scale that
    [decimal_tag] renders. *)
Lemma athena2pyarrow_decimal_tag (p s : Z) :
  athena2pyarrow (decimal_tag p s) = decimal128 p s.
Proof.
  set (P := Py.str_int p). set (S := Py.str_int s).
  assert (Hl : Py.lower (decimal_tag p s)
               = "decimal" ++ ("(" ++ P ++ "," ++ S ++ ")")).
  { apply lower_fixed. rewrite !all_chars_app.
    assert (Hn : forall z, all_chars (fun c => negb (Py.is_upper c))
                             (Py.str_int z) = true).
    { intros z. apply all_chars_weaken with (f := is_num_char);
        [apply num_char_not_upper | apply str_int_num_chars]. }
    unfold P, S. rewrite !Hn. reflexivity. }
  rewrite (athena2pyarrow_decimal_branch _ _ Hl).
  assert (Hr : Py.remove (Py.remove ("decimal" ++ "(" ++ P ++ "," ++ S ++ ")")
                            "decimal(") ")" = P ++ String "," S).
  { unfold Py.remove.
    change (Py.remove_from "decimal(" 0 ("decimal" ++ "(" ++ P ++ "," ++ S ++ ")"))
      with (Py.remove_from "decimal(" 0 (P ++ "," ++ S ++ ")")).
    rewrite (remove_from_absent "d" "ecimal(" (P ++ "," ++ S ++ ")")).
    - replace (P ++ "," ++ S ++ ")") with ((P ++ String "," S) ++ ")").
      + apply remove_char_at_end. rewrite all_chars_app. simpl.
        unfold P, S. now rewrite !str_int_differs.
      + rewrite append_assoc. reflexivity.
    - rewrite !all_chars_app. simpl. unfold P, S.
      now rewrite !str_int_differs. }
  rewrite Hr, split_at_first by (apply str_int_differs; reflexivity).
  unfold P, S. rewrite !int_str_int. reflexivity.
Qed.

(** C1, what fails: the aliases ["integer"], ["char"] and ["varchar"] come
    back under their canonical names; a decimal of precision 39 is refused
    by [decimal128], and one whose scale does not fit 32 bits overflows. *)
Lemma round_trip_not_identity :
  In "integer" non_composite_names /\
  round_trip "integer" = OK "int" /\ round_trip "integer" <> OK "integer" /\
  In "char" non_composite_names /\ round_trip "char" = OK "string" /\
  In "varchar" non_composite_names /\ round_trip "varchar" = OK "string" /\
  round_trip (decimal_tag 39 2) = Raise ValueError /\
  round_trip (decimal_tag 10 2147483648) = Raise OverflowError.
Proof.
  repeat split; try reflexivity; try discriminate; simpl; tauto.
Qed.

(** C1, amended. Every canonical non-composite tag (tinyint, smallint, int,
    bigint, float, double, boolean, string, timestamp, date, binary) and
    every [decimal(p,s)] that [decimal128] admits, a precision from 1 to 38
    and a scale of 32 bits, make the round trip through [athena2pyarrow] and
    [pyarrow2athena] unchanged, with the exact precision and scale. *)
Theorem round_trip_canonical :
  (forall T, In T canonical_names -> round_trip T = OK T) /\
  (forall p s, 1 <= p <= 38 -> -2147483648 <= s <= 2147483647 ->
     athena2pyarrow (decimal_tag p s) = OK (pa_decimal128 p s) /\
     round_trip (decimal_tag p s) = OK (decimal_tag p s)).
Proof.
  split.
  - intros T H. simpl in H.
    repeat (destruct H as [<- | H]; [reflexivity|]). now elim H.
  - intros p s Hp Hs.
    assert (E : athena2pyarrow (decimal_tag p s) = OK (pa_decimal128 p s)).
    { rewrite athena2pyarrow_decimal_tag. apply decimal128_accepts; [exact Hp|].
      unfold in_int32. apply andb_true_intro. split; apply Z.leb_le; lia. }
    split; [exact E|]. unfold round_trip. rewrite E. reflexivity.
Qed.

Lemma round_trip_canonical_witness :
  round_trip "timestamp" = OK "timestamp" /\
  round_trip (decimal_tag 10 2) = OK "decimal(10,2)".
Proof.
  split.
  - apply (proj1 round_trip_canonical). simpl. tauto.
  - apply (proj2 round_trip_canonical 10 2); lia.
Defined.


(* ================================================================== *)
(** ** Dictionaries *)

Lemma mem_In (k : string) (l : list string) : mem k l = true <-> In k l.
Proof.
  unfold mem. rewrite existsb_exists. split.
  - intros (x & Hx & E). apply String.eqb_eq in E. now subst.
  - intros H. exists k. split; [exact H | apply String.eqb_refl].
Qed.

Lemma mem_false (k : string) (l : list string) : mem k l = false <-> ~ In k l.
Proof.
  rewrite <- mem_In. destruct (mem k l); split; congruence.
Qed.

Lemma keys_setitem {V} (d : dict V) (k k' : string) (v : V) :
  In k (keys (setitem d k' v)) <-> k = k' \/ In k (keys d).
Proof.
  induction d as [|[k0 v0] d IH]; simpl.
  - intuition.
  - destruct (String.eqb_spec k0 k') as [->|N]; simpl.
    + intuition.
    + unfold keys in IH. rewrite IH. intuition.
Qed.

Lemma setitem_fresh {V} (d : dict V) (k : string) (v : V) :
  ~ In k (keys d) -> setitem d k v = (d ++ [(k, v)])%list.
Proof.
  induction d as [|[k0 v0] d IH]; simpl; intros H; [reflexivity|].
  destruct (String.eqb_spec k0 k) as [->|N]; [tauto|].
  rewrite IH by tauto. reflexivity.
Qed.

Lemma NoDup_keys_setitem {V} (d : dict V) (k : string) (v : V) :
  NoDup (keys d) -> NoDup (keys (setitem d k v)).
Proof.
  induction d as [|[k0 v0] d IH]; simpl; intros H.
  - constructor; [intros [] | constructor].
  - inversion H as [|? ? Hn Hd]; subst.
    destruct (String.eqb_spec k0 k) as [->|N]; simpl.
    + now constructor.
    + constructor; [|now apply IH].
      intros Hin. apply (keys_setitem d k0 k v) in Hin. tauto.
Qed.

Lemma In_setitem {V} (d : dict V) (k k' : string) (v v' : V) :
  In (k, v) (setitem d k' v') -> (k = k' /\ v = v') \/ In (k, v) d.
Proof.
  induction d as [|[k0 v0] d IH]; simpl.
  - intros [[= <- <-] | []]. now left.
  - destruct (String.eqb_spec k0 k') as [->|N]; simpl.
    + intros [[= <- <-] | H]; [now left | right; now right].
    + intros [H | H]; [right; now left|].
      destruct (IH H) as [?|?]; [now left | right; now right].
Qed.

Lemma getitem_In {V} (d : dict V) (k : string) (v : V) :
  getitem d k = OK v -> In (k, v) d.
Proof.
  induction d as [|[k0 v0] d IH]; simpl; [discriminate|].
  destruct (String.eqb_spec k0 k) as [->|N].
  - intros [= ->]. now left.
  - intros H. right. now apply IH.
Qed.

Lemma getitem_keys {V} (d : dict V) (k : string) :
  In k (keys d) -> exists v, getitem d k = OK v.
Proof.
  induction d as [|[k0 v0] d IH]; simpl; [intros []|].
  destruct (String.eqb_spec k0 k) as [->|N].
  - intros _. now exists v0.
  - intros [H | H]; [congruence | now apply IH].
Qed.

Lemma getitem_setitem_same {V} (d : dict V) (k : string) (v : V) :
  getitem (setitem d k v) k = OK v.
Proof.
  induction d as [|[k0 v0] d IH]; simpl.
  - now rewrite String.eqb_refl.
  - destruct (String.eqb_spec k0 k) as [->|N]; simpl.
    + now rewrite String.eqb_refl.
    + destruct (String.eqb_spec k0 k); [congruence | exact IH].
Qed.

Lemma getitem_setitem_other {V} (d : dict V) (k k' : string) (v : V) :
  k <> k' -> getitem (setitem d k' v) k = getitem d k.
Proof.
  intros Hk. induction d as [|[k0 v0] d IH]; simpl.
  - destruct (String.eqb_spec k' k); [congruence | reflexivity].
  - destruct (String.eqb_spec k0 k') as [->|N]; simpl.
    + destruct (String.eqb_spec k' k); [congruence | reflexivity].
    + destruct (String.eqb_spec k0 k); [reflexivity | exact IH].
Qed.

(* ================================================================== *)
(** ** The schema loops *)

Lemma athena_types_loop_NoDup (items : dict (option DataType)) (casts acc res : dict string) :
  athena_types_loop items casts acc = OK res ->
  NoDup (keys acc) -> NoDup (keys res).
Proof.
  revert acc. induction items as [|[k v] items IH]; simpl; intros acc H Hacc.
  - now injection H as <-.
  - destruct (match v with
              | Some v0 => pyarrow2athena v0
              | None => getitem casts k
              end) as [t|e]; simpl in H; [|discriminate].
    apply (IH _ H). now apply NoDup_keys_setitem.
Qed.

(** The loop fails exactly where an entry fails to convert. *)
Lemma athena_types_loop_raises (items : dict (option DataType)) (casts acc : dict string)
    (e : exn) :
  athena_types_loop items casts acc = Raise e ->
  exists k v, In (k, v) items /\
    match v with
    | Some t => pyarrow2athena t
    | None => getitem casts k
    end = Raise e.
Proof.
  revert acc. induction items as [|[k v] items IH]; simpl; intros acc H.
  - discriminate.
  - destruct (match v with
              | Some v0 => pyarrow2athena v0
              | None => getitem casts k
              end) as [t|e'] eqn:E; simpl in H.
    + destruct (IH _ H) as (k' & v' & Hin & Hr).
      exists k', v'. split; [now right | exact Hr].
    + injection H as <-. exists k, v. split; [now left | exact E].
Qed.

(** An entry left with the null type stops the loop. *)
Lemma athena_types_loop_null (items : dict (option DataType)) (casts acc : dict string)
    (k : string) :
  In (k, Some pa_null) items ->
  exists e, athena_types_loop items casts acc = Raise e.
Proof.
  revert acc. induction items as [|[k0 v0] items IH]; simpl; intros acc H.
  - destruct H.
  - destruct H as [[= -> ->] | H].
    + simpl. eexists. reflexivity.
    + destruct (match v0 with
                | Some v1 => pyarrow2athena v1
                | None => getitem casts k0
                end) as [t|e]; simpl.
      * now apply IH.
      * now exists e.
Qed.

Lemma partition_loop_filter (items : dict string) (partitions : list string)
    (c p : dict string) :
  NoDup (keys items) ->
  (forall k, In k (keys items) -> ~ In k (keys c) /\ ~ In k (keys p)) ->
  partition_loop items partitions c p
  = ((c ++ filter (fun kv => negb (mem (fst kv) partitions)) items)%list,
     (p ++ filter (fun kv => mem (fst kv) partitions) items)%list).
Proof.
  revert c p. induction items as [|[k v] items IH]; simpl; intros c p Hn Hd.
  - now rewrite !List.app_nil_r.
  - inversion Hn as [|? ? Hk Hn']; subst.
    destruct (Hd k (or_introl eq_refl)) as [Hc Hp].
    destruct (mem k partitions) eqn:E; simpl.
    + rewrite (setitem_fresh p k v Hp), IH; [|exact Hn'|].
      * now rewrite <- List.app_assoc.
      * intros k' Hk'. destruct (Hd k' (or_intror Hk')) as [Hc' Hp'].
        split; [exact Hc'|]. unfold keys. rewrite List.map_app, List.in_app_iff. simpl.
        intros [?|[<-|[]]]; [now apply Hp' | now apply Hk].
    + rewrite (setitem_fresh c k v Hc), IH; [|exact Hn'|].
      * now rewrite <- List.app_assoc.
      * intros k' Hk'. destruct (Hd k' (or_intror Hk')) as [Hc' Hp'].
        split; [|exact Hp']. unfold keys. rewrite List.map_app, List.in_app_iff. simpl.
        intros [?|[<-|[]]]; [now apply Hc' | now apply Hk].
Qed.

Lemma keys_filter_In (f : string -> bool) (d : dict string) (k : string) :
  In k (keys (filter (fun kv => f (fst kv)) d)) <-> In k (keys d) /\ f k = true.
Proof.
  unfold keys. rewrite !in_map_iff. split.
  - intros ([k' v] & <- & H). apply filter_In in H as [H Hf].
    split; [now exists (k', v) | exact Hf].
  - intros (([k' v] & <- & H) & Hf). exists (k', v). split; [reflexivity|].
    apply filter_In. now split.
Qed.

Section SchemaFacts.

Variable infer_type : Series -> result DataType.

(** The schema [athena_types_from_pandas] returns is a dictionary: no column
    name occurs twice. *)
Lemma athena_types_from_pandas_NoDup df index cast_columns schema :
  athena_types_from_pandas infer_type df index cast_columns = OK schema ->
  NoDup (keys schema).
Proof.
  unfold athena_types_from_pandas.
  destruct (pyarrow_types_from_pandas _ _ _ _) as [types|e]; simpl; [|discriminate].
  intros H. apply (athena_types_loop_NoDup _ _ _ _ H). constructor.
Qed.

(** Whenever schema inference succeeds,
    [athena_types_from_pandas_partitioned] returns the inferred schema split
    in two by membership in the partition-key list: every inferred column is
    in exactly one of the two mappings, each in the order of the inferred
    schema. *)
Lemma athena_types_partitioned_split df index partition_cols cast_columns schema :
  athena_types_from_pandas infer_type df index cast_columns = OK schema ->
  let partitions := match partition_cols with Some l => l | None => [] end in
  let cols := filter (fun kv => negb (mem (fst kv) partitions)) schema in
  let parts := filter (fun kv => mem (fst kv) partitions) schema in
  athena_types_from_pandas_partitioned infer_type df index partition_cols cast_columns
    = OK (cols, parts) /\
  (forall k, In k (keys parts) <-> In k (keys schema) /\ In k partitions) /\
  (forall k, In k (keys cols) <-> In k (keys schema) /\ ~ In k partitions) /\
  (forall k, ~ (In k (keys cols) /\ In k (keys parts))) /\
  (forall k, In k (keys schema) -> In k (keys cols) \/ In k (keys parts)).
Proof.
  intros H partitions cols parts.
  assert (Hp : forall k, In k (keys parts) <-> In k (keys schema) /\ In k partitions).
  { intros k. unfold parts.
    rewrite (keys_filter_In (fun k => mem k partitions)), mem_In. tauto. }
  assert (Hc : forall k, In k (keys cols) <-> In k (keys schema) /\ ~ In k partitions).
  { intros k. unfold cols.
    rewrite (keys_filter_In (fun k => negb (mem k partitions))),
      negb_true_iff, mem_false. tauto. }
  split; [|split; [exact Hp | split; [exact Hc | split]]].
  - unfold athena_types_from_pandas_partitioned. rewrite H. simpl.
    fold partitions. rewrite partition_loop_filter.
    + reflexivity.
    + exact (athena_types_from_pandas_NoDup _ _ _ _ H).
    + intros k _. simpl. tauto.
  - intros k [H1 H2]. apply Hc in H1. apply Hp in H2. tauto.
  - intros k Hk. rewrite Hc, Hp.
    destruct (mem k partitions) eqn:E.
    + right. split; [exact Hk | now apply mem_In].
    + left. split; [exact Hk | now apply mem_false].
Qed.

End SchemaFacts.

(** C5. The partition schema does not follow the partition-key list: with
    columns [a], [b], [c] and the keys given as [c], [a],
    [athena_types_from_pandas_partitioned] lists [a] before [c], the order
    of the dataframe.  The sibling paths keep the order of the list: for the
    same keys [_writer_factory] nests the files under [c=3/a=1/],
    [athena_partitions_from_pyarrow_partitions] reports the values of that
    path as ["3"], ["1"], and [athena_types_from_pyarrow_schema] lists [c]
    before [a].  Paired by position, the partition schema takes the value of
    [c] for [a] and the value of [a] for [c]. *)
Theorem partition_schema_order_mismatch :
  athena_types_from_pandas_partitioned infer_by_dtype df_abc false
    (Some ["c"; "a"]) None
  = OK ([("b", "bigint")], [("a", "bigint"); ("c", "bigint")]) /\
  keys [("a", "bigint"); ("c", "bigint")] <> ["c"; "a"] /\
  written_paths
    (fst (_writer_factory sample_cpu_count sample_file_writer sample_delete
            rows_array_split groups_of_df_abc df_abc "s3://bucket/prefix"
            None (Some ["c"; "a"]) 1 "append" true false []))
  = ["s3://bucket/prefix/c=3/a=1/"] /\
  athena_partitions_from_pyarrow_partitions "s3://bucket/prefix"
    [("c", ["3"]); ("a", ["1"])]
  = OK [("s3://bucket/prefix/c=3/a=1/", ["3"; "1"])] /\
  athena_types_from_pyarrow_schema [("b", pa_int64)] levels_of_df_abc
  = OK ([("b", "bigint")], [("c", "bigint"); ("a", "bigint")]) /\
  combine (keys [("a", "bigint"); ("c", "bigint")]) ["3"; "1"]
  = [("a", "3"); ("c", "1")].
Proof. repeat split; try reflexivity. discriminate. Qed.

(* ================================================================== *)
(** ** Untyped columns *)

Section InferenceFacts.

Variable infer_type : Series -> result DataType.

(** Only an ignored column is left without a columnar type. *)
Lemma exception_dtypes_None items ignore cols cd k :
  (forall k, In (k, None) cd -> In k ignore) ->
  In (k, None) (snd (exception_dtypes items ignore cols cd)) -> In k ignore.
Proof.
  revert cols cd. induction items as [|[name dt] items IH]; simpl; intros cols cd Hcd.
  - apply Hcd.
  - destruct (mem name ignore) eqn:E.
    { apply IH. intros k' H. apply In_setitem in H as [[-> _] | H];
        [now apply mem_In | now apply Hcd]. }
    repeat match goal with
           | |- context [if String.eqb dt ?x then _ else _] =>
               destruct (String.eqb dt x);
               [ apply IH; intros k' H; apply In_setitem in H as [[_ [=]] | H];
                 now apply Hcd | ]
           end.
    now apply IH.
Qed.

Lemma fill_fields_None fields df_columns index cd indexes k :
  In (k, None) (fst (fill_fields fields df_columns index cd indexes)) ->
  In (k, None) cd.
Proof.
  revert cd indexes. induction fields as [|[name t] fields IH]; simpl;
    intros cd indexes H; [exact H|].
  apply IH in H. apply In_setitem in H as [[_ [=]] | H]. exact H.
Qed.

Lemma comprehension_In cd names acc res k (v : option DataType) :
  comprehension cd names acc = OK res ->
  In (k, v) res -> In (k, v) acc \/ In (k, v) cd.
Proof.
  revert acc. induction names as [|n names IH]; simpl; intros acc H Hin.
  - injection H as <-. now left.
  - destruct (getitem cd n) as [x|e] eqn:E; simpl in H; [|discriminate].
    destruct (IH _ H Hin) as [Ha | Hc]; [|now right].
    apply In_setitem in Ha as [[-> ->] | Ha]; [|now left].
    right. now apply getitem_In.
Qed.

Lemma pyarrow_types_from_pandas_None df index ignore_cols types k :
  pyarrow_types_from_pandas infer_type df index (Some ignore_cols) = OK types ->
  In (k, None) types -> In k ignore_cols.
Proof.
  unfold pyarrow_types_from_pandas.
  destruct (exception_dtypes (dtypes_to_dict df) ignore_cols [] [])
    as [cols cd0] eqn:E0.
  destruct (from_pandas _ _ _) as [fields|e]; simpl; [|discriminate].
  destruct (fill_fields fields (column_names df) index cd0 [])
    as [cd1 indexes] eqn:E1.
  intros H Hin.
  destruct (comprehension_In _ _ _ _ _ _ H Hin) as [[] | Hc].
  assert (H1 : In (k, None) cd0).
  { apply (fill_fields_None fields (column_names df) index cd0 []).
    now rewrite E1. }
  apply (exception_dtypes_None (dtypes_to_dict df) ignore_cols [] []).
  - intros k' [].
  - now rewrite E0.
Qed.

(** C7, what fails: a cast override on the all-null column gives it the
    forced type and the schema is returned; and an unsigned-byte column
    standing before the all-null column makes the inference fail with
    [UnsupportedType] first. *)
Lemma all_null_column_without_UndetectedType :
  athena_types_from_pandas infer_by_dtype df_id_null false (Some [("b", "string")])
    = OK [("id", "bigint"); ("b", "string")] /\
  athena_types_from_pandas infer_by_dtype df_uint8_then_null false None
    = Raise (UnsupportedType "Unsupported Pyarrow type: uint8").
Proof. split; reflexivity. Qed.

(** C7, amended. [pyarrow2athena] on the null type always fails with
    [UndetectedType].  Consequently, whenever the inference succeeds and
    leaves a column with the null type (an all-null column that no cast
    override names), [athena_types_from_pandas] returns no schema: it raises,
    and what it raises is [UndetectedType] unless the conversion of another
    column fails with another exception. *)
Theorem null_type_is_never_defaulted :
  (exists msg, pyarrow2athena pa_null = Raise (UndetectedType msg)) /\
  (forall df index cast_columns types k,
      let casts := match cast_columns with Some c => c | None => [] end in
      pyarrow_types_from_pandas infer_type df index (Some (keys casts)) = OK types ->
      In (k, Some pa_null) types ->
      exists e,
        athena_types_from_pandas infer_type df index cast_columns = Raise e /\
        ((forall k' t' e', In (k', Some t') types ->
                           pyarrow2athena t' = Raise e' ->
                           is_UndetectedType e' = true) ->
         is_UndetectedType e = true)).
Proof.
  split; [eexists; reflexivity|].
  intros df index cast_columns types k casts Ht Hk.
  assert (E : athena_types_from_pandas infer_type df index cast_columns
              = (t <- pyarrow_types_from_pandas infer_type df index (Some (keys casts)) ;;
                 athena_types_loop t casts [])) by reflexivity.
  rewrite E, Ht. simpl.
  destruct (athena_types_loop_null types casts [] k Hk) as [e He].
  exists e. split; [exact He|].
  intros Hall.
  destruct (athena_types_loop_raises _ _ _ _ He) as (k' & v' & Hin & Hr).
  destruct v' as [t'|].
  - exact (Hall _ _ _ Hin Hr).
  - apply (pyarrow_types_from_pandas_None _ _ _ _ _ Ht) in Hin.
    destruct (getitem_keys casts k' Hin) as [v Hv]. congruence.
Qed.

End InferenceFacts.

Lemma null_type_is_never_defaulted_witness :
  exists e,
    athena_types_from_pandas infer_by_dtype df_id_null false None = Raise e /\
    ((forall k' t' e', In (k', Some t') [("id", Some pa_int64); ("b", Some pa_null)] ->
                       pyarrow2athena t' = Raise e' ->
                       is_UndetectedType e' = true) ->
     is_UndetectedType e = true).
Proof.
  apply (proj2 (null_type_is_never_defaulted infer_by_dtype)
           df_id_null false None [("id", Some pa_int64); ("b", Some pa_null)] "b").
  - reflexivity.
  - simpl. right. left. reflexivity.
Defined.

(* ================================================================== *)
(** ** Cast overrides in the inferred schema *)

(** C3, at the failing input. The dataframe has the columns [id] and [name]
    and an index level that is itself named [id]; the index is kept and [id]
    is overridden to ["string"].  The overridden column is left out of the
    inference, so the index level keeps its name, its field overwrites the
    entry of the column, and the schema gives [id] the inferred ["bigint"]
    instead of the override.  The sibling [pyarrow_schema_from_pandas]
    applies the casts after the inference and gives [id] the string type;
    without the index the override wins here too. *)
Theorem override_lost_to_index_level :
  athena_types_from_pandas infer_by_dtype df_indexed_by_id true
    (Some [("id", "string")])
    = OK [("id", "bigint"); ("name", "string")] /\
  pyarrow_schema_from_pandas infer_by_dtype df_indexed_by_id true None
    (Some [("id", "string")])
    = OK [("id", pa_string); ("name", pa_string)] /\
  athena_types_from_pandas infer_by_dtype df_indexed_by_id false
    (Some [("id", "string")])
    = OK [("id", "string"); ("name", "string")].
Proof. repeat split; reflexivity. Qed.

(* ================================================================== *)
(** ** Partition paths *)

Lemma last_char_app (a b : string) :
  b <> EmptyString -> Py.last_char (a ++ b) = Py.last_char b.
Proof.
  intros Hb. induction a as [|c a IH]; [reflexivity|].
  simpl. rewrite IH. destruct (a ++ b) eqn:E; [|reflexivity].
  destruct a; simpl in E; [now elim Hb | discriminate].
Qed.

Lemma last_char_nonempty (s : string) :
  s <> EmptyString -> exists c, Py.last_char s = Some c.
Proof.
  induction s as [|c s IH]; intros H; [now elim H|].
  destruct s as [|c' s]; [now exists c|].
  destruct IH as [x Hx]; [discriminate|]. exists x. exact Hx.
Qed.

Lemma with_trailing_sep_nonempty (s : string) :
  s <> EmptyString ->
  exists r, with_trailing_sep s = OK r /\
            (r = s \/ r = s ++ "/") /\
            Py.last_char r = Some "/"%char /\
            (Py.last_char s <> Some "/"%char -> r = s ++ "/").
Proof.
  intros Hs. unfold with_trailing_sep.
  destruct (last_char_nonempty s Hs) as [c Hc]. rewrite Hc.
  destruct (Ascii.eqb_spec c "/") as [->|N].
  - exists s. repeat split; auto. intros H. now elim H.
  - exists (s ++ "/"). repeat split; auto.
    rewrite last_char_app by discriminate. reflexivity.
Qed.

Lemma heads_length {A} (ls : list (list A)) (row : list A) :
  heads ls = Some row -> length row = length ls.
Proof.
  revert row. induction ls as [|l ls IH]; simpl; intros row H.
  - now injection H as <-.
  - destruct l as [|x l]; [discriminate|].
    destruct (heads ls) as [r|]; simpl in H; [|discriminate].
    injection H as <-. simpl. now rewrite (IH r).
Qed.

Lemma zip_rows_length {A} (n : nat) (ls : list (list A)) (row : list A) :
  In row (zip_rows n ls) -> length row = length ls.
Proof.
  revert ls. induction n as [|n IH]; simpl; intros ls H; [destruct H|].
  destruct (heads ls) as [r|] eqn:E; [|destruct H].
  destruct H as [<- | H]; [now apply heads_length|].
  rewrite (IH _ H). apply length_map.
Qed.

Lemma zip_star_length {A} (ls : list (list A)) (row : list A) :
  In row (zip_star ls) -> length row = length ls /\ ls <> [].
Proof.
  unfold zip_star. destruct ls as [|l ls]; [intros []|].
  intros H. split; [now apply (zip_rows_length _ _ _ H) | discriminate].
Qed.

Lemma join_nonempty (sep x : string) (l : list string) :
  x <> EmptyString -> Py.join sep (x :: l) <> EmptyString.
Proof.
  intros Hx. simpl. destruct l; [exact Hx|].
  destruct x; [now elim Hx | discriminate].
Qed.

Lemma render_pairs_nonempty (names values : list string) :
  names <> [] -> values <> [] -> render_pairs names values <> EmptyString.
Proof.
  intros Hn Hv. destruct names as [|n names]; [now elim Hn|].
  destruct values as [|v values]; [now elim Hv|].
  unfold render_pairs. cbn [combine map fst snd].
  apply join_nonempty. destruct n; discriminate.
Qed.

Lemma join_with_trailing_sep (l : list string) :
  l <> [] -> Py.join "/" l ++ "/" = String.concat "" (map (fun x => x ++ "/") l).
Proof.
  induction l as [|x l IH]; intros H; [now elim H|].
  destruct l as [|y l].
  - simpl. reflexivity.
  - change (Py.join "/" (x :: y :: l)) with (x ++ "/" ++ Py.join "/" (y :: l)).
    rewrite !append_assoc, IH by discriminate.
    set (f := fun x : string => x ++ "/").
    change (String.concat "" (map f (x :: y :: l)))
      with ((x ++ "/") ++ String.concat "" (map f (y :: l))).
    now rewrite append_assoc.
Qed.

Lemma rendered_suffix_join (names values : list string) :
  names <> [] -> values <> [] ->
  render_pairs names values ++ "/" = rendered_suffix names values.
Proof.
  intros Hn Hv. unfold render_pairs, rendered_suffix.
  rewrite join_with_trailing_sep.
  - rewrite map_map. f_equal. apply map_ext. intros [n v]. simpl.
    now rewrite !append_assoc.
  - destruct names; [now elim Hn|]. destruct values; [now elim Hv|]. discriminate.
Qed.

(** What the loop leaves in the mapping: the entries it found there, and for
    each row its path and the row itself. *)
Lemma partitions_loop_spec (rows : list (list string)) (path : string)
    (names : list string) (acc : dict (list string)) :
  (forall row, In row rows -> render_pairs names row <> EmptyString) ->
  exists m,
    partitions_loop rows path names acc = OK m /\
    (forall key vals, In (key, vals) m ->
       In (key, vals) acc \/
       (In vals rows /\
        exists sfx, with_trailing_sep (render_pairs names vals) = OK sfx /\
                    key = path ++ sfx)) /\
    (forall k, In k (keys acc) -> In k (keys m)) /\
    (forall row, In row rows ->
       exists sfx, with_trailing_sep (render_pairs names row) = OK sfx /\
                   In (path ++ sfx) (keys m)).
Proof.
  revert acc. induction rows as [|row rows IH]; intros acc Hne.
  - exists acc. simpl. repeat split; auto. intros row [].
  - destruct (with_trailing_sep_nonempty _ (Hne row (or_introl eq_refl)))
      as (sfx & Hs & _).
    destruct (IH (setitem acc (path ++ sfx) row)) as (m & Hm & Hin & Hk & Hr).
    { intros r Hr. apply Hne. now right. }
    exists m. cbn [partitions_loop]. rewrite Hs. simpl. split; [exact Hm|].
    split; [|split].
    + intros key vals H. destruct (Hin _ _ H) as [Ha | (Hv & s' & Hs' & ->)].
      * apply In_setitem in Ha as [[-> ->] | Ha]; [|now left].
        right. split; [now left|]. now exists sfx.
      * right. split; [now right|]. now exists s'.
    + intros k H. apply Hk. apply keys_setitem. now right.
    + intros r [<- | H].
      * exists sfx. split; [exact Hs|]. apply Hk. apply keys_setitem. now left.
      * now apply Hr.
Qed.

(** The normalization of the code is the normalization of the
    specification, where the string is not empty. *)
Lemma with_trailing_sep_normalized (x : string) :
  x <> EmptyString -> with_trailing_sep x = OK (normalized x).
Proof.
  intros Hx. unfold with_trailing_sep, normalized, ends_with_sep.
  destruct (last_char_nonempty x Hx) as [c ->].
  now destruct (Ascii.eqb c "/").
Qed.

Lemma with_trailing_sep_empty : with_trailing_sep "" = Raise IndexError.
Proof. reflexivity. Qed.

(** The loop builds the mapping row by row. *)
Lemma partitions_loop_fold (rows : list (list string)) (base : string)
    (names : list string) (acc : dict (list string)) :
  (forall row, In row rows -> render_pairs names row <> EmptyString) ->
  partitions_loop rows base names acc
  = OK (fold_left (fun d row =>
                     setitem d (base ++ normalized (render_pairs names row)) row)
                  rows acc).
Proof.
  revert acc. induction rows as [|row rows IH]; intros acc Hne; [reflexivity|].
  cbn [partitions_loop fold_left].
  rewrite (with_trailing_sep_normalized _ (Hne row (or_introl eq_refl))).
  cbn [bind]. apply IH. intros r Hr. apply Hne. now right.
Qed.

(** C8, what fails: a last partition value that itself ends with the
    separator gets no second one, so the path is not the base followed by
    [key=val/]; and on the empty base path the call raises [IndexError]. *)
Lemma partition_path_without_added_separator :
  athena_partitions_from_pyarrow_partitions "s3://b" [("name", ["A/"])]
    = OK [("s3://b/name=A/", ["A/"])] /\
  "s3://b/" ++ rendered_suffix ["name"] ["A/"] = "s3://b/name=A//" /\
  athena_partitions_from_pyarrow_partitions "" [("name", ["A"])] = Raise IndexError.
Proof. repeat split; reflexivity. Qed.

(** C8, amended. [athena_partitions_from_pyarrow_partitions] is a function of
    its arguments.  On the empty base path it raises [IndexError].  On a
    non-empty base path it returns the mapping built row by row, in which
    the key of a row is the base, given a ["/"] unless it ends with one,
    followed by the pairs [key=val] of the row joined by ["/"], given a
    ["/"] unless they end with one; the value is the row, as given; every
    row has its key in the mapping.  The key is the normalized base followed
    by [key1=val1/key2=val2/.../] whenever the joined pairs do not end with
    the separator themselves.  Base ["s3://bucket/prefix"], names [name],
    [date] and row [("A", "2020-01-01")] give
    ["s3://bucket/prefix/name=A/date=2020-01-01/"]. *)
Theorem partition_paths path partitions :
  let names := map fst partitions in
  let rows := zip_star (map snd partitions) in
  (path = EmptyString ->
   athena_partitions_from_pyarrow_partitions path partitions = Raise IndexError) /\
  (path <> EmptyString ->
   exists m,
     athena_partitions_from_pyarrow_partitions path partitions = OK m /\
     m = fold_left (fun d row => setitem d (partition_key path names row) row)
                   rows [] /\
     (forall key vals, In (key, vals) m ->
        In vals rows /\ key = partition_key path names vals) /\
     (forall row, In row rows -> In (partition_key path names row) (keys m))) /\
  (forall row, In row rows ->
     ends_with_sep (render_pairs names row) = false ->
     partition_key path names row = normalized path ++ rendered_suffix names row) /\
  (forall path' partitions', path' = path -> partitions' = partitions ->
     athena_partitions_from_pyarrow_partitions path' partitions'
     = athena_partitions_from_pyarrow_partitions path partitions) /\
  athena_partitions_from_pyarrow_partitions "s3://bucket/prefix"
    [("name", ["A"]); ("date", ["2020-01-01"])]
    = OK [("s3://bucket/prefix/name=A/date=2020-01-01/", ["A"; "2020-01-01"])].
Proof.
  intros names rows.
  assert (Hrow : forall row, In row rows -> names <> [] /\ row <> []).
  { intros row H. apply zip_star_length in H as [Hlen Hne].
    rewrite length_map in Hlen. unfold names.
    destruct partitions; [now elim Hne|]. destruct row; [discriminate|].
    split; discriminate. }
  assert (Hne : forall row, In row rows -> render_pairs names row <> EmptyString).
  { intros row H. destruct (Hrow row H). now apply render_pairs_nonempty. }
  split; [|split; [|split; [|split; [now intros ? ? -> -> | reflexivity]]]].
  - intros ->. reflexivity.
  - intros Hp.
    destruct (partitions_loop_spec rows (normalized path) names [] Hne)
      as (m & Hm & Hin & _ & Hr).
    exists m. unfold athena_partitions_from_pyarrow_partitions.
    rewrite (with_trailing_sep_normalized path Hp). cbn [bind].
    fold names rows. split; [exact Hm|]. split; [|split].
    + rewrite (partitions_loop_fold rows (normalized path) names [] Hne) in Hm.
      now injection Hm as <-.
    + intros key vals H. destruct (Hin _ _ H) as [[] | (Hv & sfx & Hs & ->)].
      split; [exact Hv|].
      rewrite (with_trailing_sep_normalized _ (Hne vals Hv)) in Hs.
      now injection Hs as <-.
    + intros row H. destruct (Hr row H) as (sfx & Hs & Hk).
      rewrite (with_trailing_sep_normalized _ (Hne row H)) in Hs.
      now injection Hs as <-.
  - intros row H He. unfold partition_key, normalized at 2. rewrite He.
    destruct (Hrow row H) as [Hn Hv]. now rewrite rendered_suffix_join.
Qed.

Lemma partition_paths_witness :
  athena_partitions_from_pyarrow_partitions ""
    [("name", ["A"; "B"]); ("date", ["2020-01-01"; "2020-01-02"])]
  = Raise IndexError /\
  exists m,
    athena_partitions_from_pyarrow_partitions "s3://bucket/prefix"
      [("name", ["A"; "B"]); ("date", ["2020-01-01"; "2020-01-02"])] = OK m /\
    m = fold_left (fun d row =>
                     setitem d (partition_key "s3://bucket/prefix"
                                  ["name"; "date"] row) row)
                  [["A"; "2020-01-01"]; ["B"; "2020-01-02"]] [] /\
    (forall key vals, In (key, vals) m ->
       In vals [["A"; "2020-01-01"]; ["B"; "2020-01-02"]] /\
       key = partition_key "s3://bucket/prefix" ["name"; "date"] vals) /\
    (forall row, In row [["A"; "2020-01-01"]; ["B"; "2020-01-02"]] ->
       In (partition_key "s3://bucket/prefix" ["name"; "date"] row) (keys m)).
Proof.
  split.
  - apply (proj1 (partition_paths ""
                    [("name", ["A"; "B"]); ("date", ["2020-01-01"; "2020-01-02"])])).
    reflexivity.
  - apply (proj1 (proj2 (partition_paths "s3://bucket/prefix"
                    [("name", ["A"; "B"]); ("date", ["2020-01-01"; "2020-01-02"])]))).
    discriminate.
Defined.

(* ================================================================== *)
(** ** Casting columns *)

Lemma mapM_Forall2 {A B} (f : A -> result B) (l : list A) (l' : list B) :
  mapM f l = OK l' -> Forall2 (fun a b => f a = OK b) l l'.
Proof.
  revert l'. induction l as [|a l IH]; simpl; intros l' H.
  - injection H as <-. constructor.
  - destruct (f a) as [b|e] eqn:E; simpl in H; [|discriminate].
    destruct (mapM f l) as [bs|e]; simpl in H; [|discriminate].
    injection H as <-. constructor; [exact E | now apply IH].
Qed.

Lemma mapM_total {A B} (f : A -> result B) (l : list A) :
  (forall a, In a l -> exists b, f a = OK b) -> exists l', mapM f l = OK l'.
Proof.
  induction l as [|a l IH]; simpl; intros H; [now exists []|].
  destruct (H a (or_introl eq_refl)) as [b ->].
  destruct IH as [bs ->]; [intros x Hx; apply H; now right|].
  now exists (b :: bs).
Qed.

Lemma mapM_raises {A B} (f : A -> result B) (l : list A) (a : A) (e : exn) :
  In a l -> f a = Raise e -> exists e', mapM f l = Raise e'.
Proof.
  induction l as [|x l IH]; simpl; intros H E; [destruct H|].
  destruct H as [-> | H].
  - rewrite E. now exists e.
  - destruct (f x) as [b|e']; simpl; [|now exists e'].
    destruct (IH H E) as [e' ->]. now exists e'.
Qed.

Lemma getitem_col_mem (df : DataFrame) (col : string) (s : Series) :
  getitem_col df col = OK s -> mem col (column_names df) = true.
Proof.
  unfold getitem_col, column_names. intros H. apply mem_In.
  apply getitem_In in H. change col with (fst (col, s)). now apply in_map.
Qed.

Lemma getitem_col_setitem_col (df : DataFrame) (col : string) (s s' : Series) :
  getitem_col df col = OK s -> getitem_col (setitem_col df col s') col = OK s'.
Proof.
  intros Hg. unfold getitem_col, setitem_col. rewrite (getitem_col_mem _ _ _ Hg).
  cbn [columns]. unfold getitem_col in Hg.
  induction (columns df) as [|[k v] l IH]; simpl in *; [discriminate|].
  destruct (String.eqb_spec k col) as [->|N]; simpl.
  - now rewrite String.eqb_refl.
  - destruct (String.eqb_spec k col); [contradiction | now apply IH].
Qed.

Lemma store_set_same (h : store) (r : ref) (df : DataFrame) : store_set h r df r = df.
Proof. unfold store_set. now rewrite Nat.eqb_refl. Qed.

(** The tags [athena2pandas] sends to each of the four casts written out
    in [cast_pandas_with_athena_types]. *)
Lemma athena2pandas_date (tag : string) :
  Py.lower tag = "date" -> athena2pandas tag = OK "date".
Proof. intros H. unfold athena2pandas. now rewrite H. Qed.

Lemma athena2pandas_datetime64 (tag : string) :
  In (Py.lower tag) ["timestamp"; "timestamp with time zone"] ->
  athena2pandas tag = OK "datetime64".
Proof.
  intros H. unfold athena2pandas.
  destruct H as [<- | [<- | []]]; reflexivity.
Qed.

Lemma athena2pandas_bytes (tag : string) :
  In (Py.lower tag) ["binary"; "varbinary"] -> athena2pandas tag = OK "bytes".
Proof.
  intros H. unfold athena2pandas.
  destruct H as [<- | [<- | []]]; reflexivity.
Qed.

Lemma athena2pandas_decimal (tag : string) :
  Py.startswith (Py.lower tag) "decimal" = true -> athena2pandas tag = OK "decimal".
Proof.
  intros H. apply startswith_app in H as [r Hr]. unfold athena2pandas. rewrite Hr.
  cbn [String.append String.eqb Ascii.eqb Bool.eqb Py.in_tuple existsb
       Py.startswith orb andb].
  reflexivity.
Qed.

Section CasterFacts.

Variable to_datetime : Series -> result Series.
Variable astype_string : Value -> result (option string).
Variable Decimal : string -> result PyDecimal.
Variable astype : string -> Series -> result Series.

(** One override on a column that is there: the column is cast and put back
    into the very object, or the exception leaves the store as it was. *)
Lemma cast_one_column (h : store) (df : ref) (col tag pandas_type : string)
    (s : Series) :
  athena2pandas tag = OK pandas_type ->
  getitem_col (h df) col = OK s ->
  cast_pandas_with_athena_types to_datetime astype_string Decimal astype
    df [(col, tag)] h
  = match cast_series to_datetime astype_string Decimal astype pandas_type s with
    | OK s' => (store_set h df (setitem_col (h df) col s'), OK df)
    | Raise e => (h, Raise e)
    end.
Proof.
  intros Ht Hs. unfold cast_pandas_with_athena_types. cbn [cast_loop].
  rewrite (getitem_col_mem _ _ _ Hs), Ht, Hs. simpl.
  destruct (cast_series _ _ _ _ pandas_type s); reflexivity.
Qed.

(** When the cast of the column returns, the call returns the object and
    the column read back from it is the cast column. *)
Lemma cast_one_column_returns (h : store) (df : ref)
    (col tag pandas_type : string) (s s' : Series) :
  athena2pandas tag = OK pandas_type ->
  getitem_col (h df) col = OK s ->
  cast_series to_datetime astype_string Decimal astype pandas_type s = OK s' ->
  exists h',
    cast_pandas_with_athena_types to_datetime astype_string Decimal astype
      df [(col, tag)] h = (h', OK df) /\
    getitem_col (h' df) col = OK s'.
Proof.
  intros Ht Hs Hc. rewrite (cast_one_column h df col tag pandas_type s Ht Hs), Hc.
  eexists. split; [reflexivity|].
  rewrite store_set_same. now apply getitem_col_setitem_col with (s := s).
Qed.

Lemma cast_one_column_raises (h : store) (df : ref)
    (col tag pandas_type : string) (s : Series) (e : exn) :
  athena2pandas tag = OK pandas_type ->
  getitem_col (h df) col = OK s ->
  cast_series to_datetime astype_string Decimal astype pandas_type s = Raise e ->
  cast_pandas_with_athena_types to_datetime astype_string Decimal astype
    df [(col, tag)] h = (h, Raise e).
Proof.
  intros Ht Hs Hc. now rewrite (cast_one_column h df col tag pandas_type s Ht Hs), Hc.
Qed.

(** C4, amended. For a column cast with a ["date"] override: when
    [to_datetime] converts the column into a datetime column, the cast
    returns, and in the caller's dataframe each cell of the column is then
    the calendar date of its timestamp, or the explicit absent-value marker
    where the timestamp is null; when [to_datetime] raises, as it does on an
    unparseable value, the cast raises the same exception and changes
    nothing; when [to_datetime] returns a column that is no datetime column,
    the cast raises [AttributeError] and changes nothing. *)
Theorem date_cast (h : store) (df : ref) (col tag : string) (s : Series) :
  Py.lower tag = "date" ->
  getitem_col (h df) col = OK s ->
  (forall ts, to_datetime s = OK ts -> is_datetime64 ts = true ->
   exists h' s',
     cast_pandas_with_athena_types to_datetime astype_string Decimal astype
       df [(col, tag)] h = (h', OK df) /\
     getitem_col (h' df) col = OK s' /\
     Forall2 is_date_of (values ts) (values s')) /\
  (forall e, to_datetime s = Raise e ->
     cast_pandas_with_athena_types to_datetime astype_string Decimal astype
       df [(col, tag)] h = (h, Raise e)) /\
  (forall ts, to_datetime s = OK ts -> is_datetime64 ts = false ->
     cast_pandas_with_athena_types to_datetime astype_string Decimal astype
       df [(col, tag)] h = (h, Raise AttributeError)).
Proof.
  intros Ht Hs. apply athena2pandas_date in Ht.
  split; [|split].
  - intros ts Hts Hdt.
    destruct (cast_one_column_returns h df col tag "date" s
                {| dtype := "object";
                   values := map replace_NaT (map date_of_cell (values ts)) |}
                Ht Hs) as (h' & Hc & Hg).
    { unfold cast_series. cbn [String.eqb Ascii.eqb Bool.eqb].
      rewrite Hts. cbn [bind]. unfold dt_date. now rewrite Hdt. }
    exists h'. eexists. split; [exact Hc|]. split; [exact Hg|].
    cbn [values]. clear. induction (values ts) as [|v l IH]; simpl; constructor;
      [|exact IH].
    split; [now intros t -> | now intros ->].
  - intros e He. apply (cast_one_column_raises h df col tag "date" s e Ht Hs).
    unfold cast_series. cbn [String.eqb Ascii.eqb Bool.eqb]. now rewrite He.
  - intros ts Hts Hdt.
    apply (cast_one_column_raises h df col tag "date" s AttributeError Ht Hs).
    unfold cast_series. cbn [String.eqb Ascii.eqb Bool.eqb].
    rewrite Hts. cbn [bind]. unfold dt_date. now rewrite Hdt.
Qed.

End CasterFacts.

(** C4, what fails: with the unparseable second cell the parser's exception
    propagates, the cast raises and the column is left as it was. *)
Lemma date_cast_raises_on_unparseable :
  cast_pandas_with_athena_types iso_to_datetime astype_string_of_str
    plain_Decimal astype_relabel 0%nat [("d", "date")]
    (store_of df_dates_unparseable)
  = (store_of df_dates_unparseable, Raise ValueError).
Proof. reflexivity. Qed.

Lemma date_cast_witness :
  (exists h' s',
     cast_pandas_with_athena_types iso_to_datetime astype_string_of_str
       plain_Decimal astype_relabel 0%nat [("d", "DATE")] (store_of df_dates)
     = (h', OK 0%nat) /\
     getitem_col (h' 0%nat) "d" = OK s' /\
     Forall2 is_date_of
       [VTimestamp {| ts_date := {| year := 2020; month := 1; day := 1 |};
                      ts_nanos := 37800000000000 |};
        VNaT;
        VTimestamp {| ts_date := {| year := 2021; month := 12; day := 31 |};
                      ts_nanos := 0 |}]
       (values s')) /\
  cast_pandas_with_athena_types to_datetime_objects astype_string_of_str
    plain_Decimal astype_relabel 0%nat [("d", "DATE")] (store_of df_dates)
  = (store_of df_dates, Raise AttributeError).
Proof.
  split.
  - apply (proj1 (date_cast iso_to_datetime astype_string_of_str plain_Decimal
                    astype_relabel (store_of df_dates) 0%nat "d" "DATE"
                    (object_series [VStr "2020-01-01 10:30:00"; VNone;
                                    VStr "2021-12-31"])
                    eq_refl eq_refl)
                 {| dtype := "datetime64[ns]";
                    values :=
                      [VTimestamp {| ts_date := {| year := 2020; month := 1;
                                                   day := 1 |};
                                     ts_nanos := 37800000000000 |};
                       VNaT;
                       VTimestamp {| ts_date := {| year := 2021; month := 12;
                                                   day := 31 |};
                                     ts_nanos := 0 |}] |});
      reflexivity.
  - apply (proj2 (proj2 (date_cast to_datetime_objects astype_string_of_str
                           plain_Decimal astype_relabel (store_of df_dates) 0%nat
                           "d" "DATE"
                           (object_series [VStr "2020-01-01 10:30:00"; VNone;
                                           VStr "2021-12-31"])
                           eq_refl eq_refl))
                 (object_series [VStr "2020-01-01 10:30:00"; VNone;
                                 VStr "2021-12-31"]));
      reflexivity.
Defined.

Section DecimalCast.

Variable to_datetime : Series -> result Series.
Variable astype_string : Value -> result (option string).
Variable Decimal : string -> result PyDecimal.
Variable astype : string -> Series -> result Series.

(** The lambda of the decimal cast: the four forms give the absent-value
    marker, every other rendering goes to the [Decimal] constructor. *)
Lemma decimal_cell_cases (x : option string) :
  (In (str_cell x) swallowed_forms -> decimal_cell Decimal x = OK VNone) /\
  (~ In (str_cell x) swallowed_forms ->
   decimal_cell Decimal x = (d <- Decimal (str_cell x) ;; OK (VDecimal d))).
Proof.
  unfold decimal_cell.
  change (Py.in_tuple (str_cell x) [""; "none"; " "; "<NA>"])
    with (mem (str_cell x) swallowed_forms).
  destruct (mem (str_cell x) swallowed_forms) eqn:E; simpl.
  - apply mem_In in E. split; [reflexivity | intros N; now elim N].
  - apply mem_false in E. split; [intros H; now elim E | reflexivity].
Qed.

(** C6. For a column cast with a decimal override, any tag that starts with
    [decimal], once the cells are stringified: a cell whose rendering is
    [""], ["none"], [" "] or the rendering ["<NA>"] of the absent value
    becomes the explicit absent-value marker, and every other cell, and only
    those, goes to the [Decimal] constructor.  When they all parse the cast
    returns and the column of the caller's dataframe holds these cells; when
    one does not parse the cast raises and changes nothing.  The strings
    ["1.50"], [""], ["none"] give [Decimal("1.50")], absent, absent. *)
Theorem decimal_cast (h : store) (df : ref) (col tag : string) (s : Series)
    (xs : list (option string)) :
  Py.startswith (Py.lower tag) "decimal" = true ->
  getitem_col (h df) col = OK s ->
  mapM astype_string (values s) = OK xs ->
  ((forall x, In x xs -> ~ In (str_cell x) swallowed_forms ->
              exists d, Decimal (str_cell x) = OK d) ->
   exists h' s',
     cast_pandas_with_athena_types to_datetime astype_string Decimal astype
       df [(col, tag)] h = (h', OK df) /\
     getitem_col (h' df) col = OK s' /\
     Forall2 (fun x out =>
                (In (str_cell x) swallowed_forms /\ out = VNone) \/
                (~ In (str_cell x) swallowed_forms /\
                 exists d, Decimal (str_cell x) = OK d /\ out = VDecimal d))
             xs (values s')) /\
  (forall x e, In x xs -> ~ In (str_cell x) swallowed_forms ->
               Decimal (str_cell x) = Raise e ->
   exists e',
     cast_pandas_with_athena_types to_datetime astype_string Decimal astype
       df [(col, tag)] h
     = (h, Raise e')) /\
  (xs = [Some "1.50"; Some ""; Some "none"] ->
   forall d, Decimal "1.50" = OK d ->
   exists h',
     cast_pandas_with_athena_types to_datetime astype_string Decimal astype
       df [(col, tag)] h = (h', OK df) /\
     getitem_col (h' df) col
     = OK {| dtype := "object"; values := [VDecimal d; VNone; VNone] |}).
Proof.
  intros Ht Hs Hx. apply athena2pandas_decimal in Ht.
  assert (Hcast : cast_series to_datetime astype_string Decimal astype "decimal" s
                  = (ds <- mapM (decimal_cell Decimal) xs ;;
                     OK {| dtype := "object"; values := ds |})).
  { unfold cast_series. cbn [String.eqb Ascii.eqb Bool.eqb]. now rewrite Hx. }
  split; [|split].
  - intros Hall.
    destruct (mapM_total (decimal_cell Decimal) xs) as [ds Hds].
    { intros x Hin. destruct (decimal_cell_cases x) as [Hy Hn].
      destruct (in_dec string_dec (str_cell x) swallowed_forms) as [Hi | Hi].
      - exists VNone. now apply Hy.
      - destruct (Hall x Hin Hi) as [d Hd]. exists (VDecimal d).
        rewrite (Hn Hi), Hd. reflexivity. }
    destruct (cast_one_column_returns to_datetime astype_string Decimal astype
                h df col tag "decimal" s {| dtype := "object"; values := ds |}
                Ht Hs) as (h' & Hc & Hg).
    { now rewrite Hcast, Hds. }
    exists h'. eexists. split; [exact Hc|]. split; [exact Hg|]. cbn [values].
    apply mapM_Forall2 in Hds. clear -Hds.
    induction Hds as [|x out xs' ds' Hc _ IH]; constructor; [|exact IH].
    destruct (decimal_cell_cases x) as [Hy Hn].
    destruct (in_dec string_dec (str_cell x) swallowed_forms) as [Hi | Hi].
    + left. split; [exact Hi|]. rewrite (Hy Hi) in Hc. now injection Hc.
    + right. split; [exact Hi|]. rewrite (Hn Hi) in Hc.
      destruct (Decimal (str_cell x)) as [d|e]; simpl in Hc; [|discriminate].
      exists d. split; [reflexivity | now injection Hc].
  - intros x e Hin Hi He.
    destruct (mapM_raises (decimal_cell Decimal) xs x e Hin) as [e' He'].
    { destruct (decimal_cell_cases x) as [_ Hn]. rewrite (Hn Hi), He. reflexivity. }
    exists e'.
    apply (cast_one_column_raises to_datetime astype_string Decimal astype
             h df col tag "decimal" s e' Ht Hs).
    now rewrite Hcast, He'.
  - intros -> d Hd.
    apply (cast_one_column_returns to_datetime astype_string Decimal astype
             h df col tag "decimal" s _ Ht Hs).
    rewrite Hcast. cbn [mapM]. unfold decimal_cell at 1.
    cbn [str_cell Py.in_tuple existsb String.eqb Ascii.eqb Bool.eqb orb negb].
    rewrite Hd. reflexivity.
Qed.

End DecimalCast.

Lemma decimal_cast_witness :
  exists h',
    cast_pandas_with_athena_types iso_to_datetime astype_string_of_str
      plain_Decimal astype_relabel 0%nat [("amt", "decimal(10,2)")]
      (store_of df_amounts) = (h', OK 0%nat) /\
    getitem_col (h' 0%nat) "amt"
    = OK {| dtype := "object";
            values := [VDecimal {| dec_negative := false;
                                   dec_coefficient := 150;
                                   dec_exponent := -2 |};
                       VNone; VNone] |}.
Proof.
  apply (proj2 (proj2 (decimal_cast iso_to_datetime astype_string_of_str
                         plain_Decimal astype_relabel (store_of df_amounts)
                         0%nat "amt" "decimal(10,2)"
                         (object_series [VStr "1.50"; VStr ""; VStr "none"])
                         [Some "1.50"; Some ""; Some "none"]
                         eq_refl eq_refl eq_refl)));
    reflexivity.
Defined.

(* ================================================================== *)
(** ** The cast works in place *)

Lemma same_outside_refl (cs : list string) (a : DataFrame) : same_outside cs a a.
Proof.
  split; [reflexivity|].
  induction (columns a) as [|c l IH]; constructor; [now split | exact IH].
Qed.

Lemma same_outside_trans (cs : list string) (a b c : DataFrame) :
  same_outside cs a b -> same_outside cs b c -> same_outside cs a c.
Proof.
  intros [Hi1 H1] [Hi2 H2]. split; [congruence|].
  revert H2. generalize (columns c). induction H1 as [|x y l l' [Hf Hxy] _ IH];
    intros lc H2; inversion H2 as [|y' z l'' lc' [Hf' Hyz] Hrest]; subst.
  - constructor.
  - constructor; [|now apply IH].
    split; [congruence|]. intros Hn. rewrite (Hxy Hn). apply Hyz.
    now rewrite <- Hf.
Qed.

Lemma same_outside_weaken (cs cs' : list string) (a b : DataFrame) :
  (forall k, In k cs -> In k cs') -> same_outside cs a b -> same_outside cs' a b.
Proof.
  intros Hsub [Hi H]. split; [exact Hi|].
  induction H as [|x y l l' [Hf Hxy] _ IH]; constructor; [|exact IH].
  split; [exact Hf|]. intros Hn. apply Hxy. intros Hc. apply Hn. now apply Hsub.
Qed.

Lemma setitem_col_same_outside (cs : list string) (df : DataFrame) (col : string)
    (s : Series) :
  In col cs -> mem col (column_names df) = true ->
  same_outside cs df (setitem_col df col s).
Proof.
  intros Hc Hm. split; [reflexivity|].
  unfold setitem_col. rewrite Hm. cbn [columns].
  induction (columns df) as [|c l IH]; simpl; constructor; [|exact IH].
  destruct (String.eqb_spec (fst c) col) as [E|N]; simpl.
  - split; [reflexivity|]. intros Hn. elim Hn. now rewrite E.
  - now split.
Qed.

Lemma same_outside_names (cs : list string) (a b : DataFrame) :
  same_outside cs a b -> column_names a = column_names b.
Proof.
  intros [_ H]. unfold column_names.
  induction H as [|x y l l' [Hf _] _ IH]; simpl; [reflexivity | now rewrite Hf, IH].
Qed.

Lemma same_outside_getitem (cs : list string) (a b : DataFrame) (col : string) :
  same_outside cs a b -> ~ In col cs -> getitem_col a col = getitem_col b col.
Proof.
  intros [_ H] Hn. unfold getitem_col.
  induction H as [|[k v] [k' v'] l l' [Hf Hxy] _ IH]; simpl; [reflexivity|].
  simpl in Hf. subst k'.
  destruct (String.eqb_spec k col) as [->|N]; [|exact IH].
  specialize (Hxy Hn). now injection Hxy as <-.
Qed.

Section InPlace.

Variable to_datetime : Series -> result Series.
Variable astype_string : Value -> result (option string).
Variable Decimal : string -> result PyDecimal.
Variable astype : string -> Series -> result Series.

(** The loop writes to the object [df] only, and there only to the columns
    the overrides name. *)
Lemma cast_loop_frame (items : dict string) (df : ref) (h h' : store)
    (r : result unit) :
  cast_loop to_datetime astype_string Decimal astype items df h = (h', r) ->
  (forall r', r' <> df -> h' r' = h r') /\
  same_outside (keys items) (h df) (h' df).
Proof.
  revert h. induction items as [|[col ty] items IH]; intros h H.
  - simpl in H. injection H as <- <-. split; [reflexivity | apply same_outside_refl].
  - cbn [cast_loop] in H.
    destruct (mem col (column_names (h df))) eqn:Em.
    + destruct (pandas_type <- athena2pandas ty ;;
                s <- getitem_col (h df) col ;;
                cast_series to_datetime astype_string Decimal astype pandas_type s)
        as [s'|e].
      * destruct (IH _ H) as [Ho Hs]. split.
        -- intros r' Hr. rewrite (Ho r' Hr). unfold store_set.
           destruct (Nat.eqb_spec r' df); [contradiction | reflexivity].
        -- apply same_outside_trans with (b := setitem_col (h df) col s').
           ++ apply setitem_col_same_outside; [now left | exact Em].
           ++ apply same_outside_weaken with (cs := keys items);
                [intros k Hk; now right|].
              unfold store_set in Hs at 1. now rewrite Nat.eqb_refl in Hs.
      * injection H as <- <-. split; [reflexivity | apply same_outside_refl].
    + destruct (IH _ H) as [Ho Hs]. split; [exact Ho|].
      apply same_outside_weaken with (cs := keys items);
        [intros k Hk; now right | exact Hs].
Qed.

(** Overrides that name no column of the dataframe do nothing. *)
Lemma cast_loop_absent (items : dict string) (df : ref) (h : store) :
  (forall col, In col (keys items) -> ~ In col (column_names (h df))) ->
  cast_loop to_datetime astype_string Decimal astype items df h = (h, OK tt).
Proof.
  induction items as [|[col ty] items IH]; intros H; [reflexivity|].
  cbn [cast_loop].
  replace (mem col (column_names (h df))) with false.
  - apply IH. intros c Hc. apply H. now right.
  - symmetry. apply mem_false. apply H. now left.
Qed.

(** Every override of a returning loop has reached the object: a column an
    override names is, in the end, the cast of what it was at the start. *)
Lemma cast_loop_reaches (items : dict string) (df : ref) (h h' : store)
    (col tag : string) (s : Series) :
  NoDup (keys items) ->
  cast_loop to_datetime astype_string Decimal astype items df h = (h', OK tt) ->
  In (col, tag) items ->
  getitem_col (h df) col = OK s ->
  exists pandas_type s',
    athena2pandas tag = OK pandas_type /\
    cast_series to_datetime astype_string Decimal astype pandas_type s = OK s' /\
    getitem_col (h' df) col = OK s'.
Proof.
  revert h. induction items as [|[c ty] items IH]; intros h Hn H Hin Hg;
    [destruct Hin|].
  cbn [keys map fst] in Hn. inversion Hn as [|? ? Hc Hn']; subst.
  cbn [cast_loop] in H.
  destruct Hin as [E | Hin].
  - injection E as -> ->.
    rewrite (getitem_col_mem _ _ _ Hg) in H.
    destruct (athena2pandas tag) as [pt|e]; cbn [bind] in H; [|discriminate].
    rewrite Hg in H. cbn [bind] in H.
    destruct (cast_series to_datetime astype_string Decimal astype pt s)
      as [s1|e] eqn:Ec; [|discriminate].
    exists pt, s1. split; [reflexivity|]. split; [exact Ec|].
    destruct (cast_loop_frame _ _ _ _ _ H) as [_ Hs].
    rewrite <- (same_outside_getitem _ _ _ col Hs Hc).
    rewrite store_set_same. now apply getitem_col_setitem_col with (s := s).
  - assert (Hne : c <> col).
    { intros ->. apply Hc. apply (in_map fst) in Hin. exact Hin. }
    destruct (mem c (column_names (h df))) eqn:Em.
    + destruct (pandas_type <- athena2pandas ty ;;
                s0 <- getitem_col (h df) c ;;
                cast_series to_datetime astype_string Decimal astype pandas_type s0)
        as [s1|e]; [|discriminate].
      apply (IH _ Hn' H Hin). rewrite store_set_same.
      rewrite <- (same_outside_getitem [c] _ _ col
                    (setitem_col_same_outside [c] (h df) c s1 (or_introl eq_refl) Em));
        [exact Hg|].
      intros [E|[]]. now apply Hne.
    + apply (IH _ Hn' H Hin Hg).
Qed.

(** C10. [cast_pandas_with_athena_types] returns the reference it was given:
    the very same object, whose columns were replaced in place.  No other
    object changes; in the object itself the index, the column labels and
    every column the override mapping does not name are as before; override
    names absent from the columns change nothing at all; and when the call
    returns, every column an override names, however many overrides there
    are, is in the caller's object the cast of what it was. *)
Theorem cast_in_place (df : ref) (cast_columns : dict string) (h : store) :
  let (h', r) :=
    cast_pandas_with_athena_types to_datetime astype_string Decimal astype
      df cast_columns h in
  (forall df', r = OK df' -> df' = df) /\
  (forall r', r' <> df -> h' r' = h r') /\
  index_levels (h' df) = index_levels (h df) /\
  column_names (h' df) = column_names (h df) /\
  (forall col, ~ In col (keys cast_columns) ->
     getitem_col (h' df) col = getitem_col (h df) col) /\
  same_outside (keys cast_columns) (h df) (h' df) /\
  ((forall col, In col (keys cast_columns) -> ~ In col (column_names (h df))) ->
   h' = h /\ r = OK df) /\
  (NoDup (keys cast_columns) -> r = OK df ->
   forall col tag s,
     In (col, tag) cast_columns ->
     getitem_col (h df) col = OK s ->
     exists pandas_type s',
       athena2pandas tag = OK pandas_type /\
       cast_series to_datetime astype_string Decimal astype pandas_type s = OK s' /\
       getitem_col (h' df) col = OK s').
Proof.
  unfold cast_pandas_with_athena_types.
  destruct (cast_loop to_datetime astype_string Decimal astype cast_columns df h)
    as [h' r] eqn:E.
  destruct (cast_loop_frame _ _ _ _ _ E) as [Ho Hs].
  split; [|split; [exact Ho|split; [|split; [|split; [|split; [exact Hs|split]]]]]].
  - intros df' H. destruct r; simpl in H; [now injection H | discriminate].
  - symmetry. apply Hs.
  - symmetry. exact (same_outside_names _ _ _ Hs).
  - intros col Hn. symmetry. exact (same_outside_getitem _ _ _ col Hs Hn).
  - intros Habs. rewrite (cast_loop_absent _ _ _ Habs) in E.
    injection E as <- <-. now split.
  - intros Hn Hr col tag s Hin Hg.
    destruct r as [[]|e]; [|discriminate].
    exact (cast_loop_reaches _ _ _ _ _ _ _ Hn E Hin Hg).
Qed.

End InPlace.

Lemma cast_in_place_witness :
  let (h', r) :=
    cast_pandas_with_athena_types iso_to_datetime astype_string_of_str
      plain_Decimal astype_relabel 0%nat
      [("d", "date"); ("missing", "bigint"); ("x", "bigint")]
      (store_of df_dates) in
  r = OK 0%nat /\
  (exists pandas_type s',
     athena2pandas "date" = OK pandas_type /\
     cast_series iso_to_datetime astype_string_of_str plain_Decimal
       astype_relabel pandas_type
       (object_series [VStr "2020-01-01 10:30:00"; VNone; VStr "2021-12-31"])
     = OK s' /\
     getitem_col (h' 0%nat) "d" = OK s') /\
  (exists pandas_type s',
     athena2pandas "bigint" = OK pandas_type /\
     cast_series iso_to_datetime astype_string_of_str plain_Decimal
       astype_relabel pandas_type (int64_series [1; 2; 3]) = OK s' /\
     getitem_col (h' 0%nat) "x" = OK s').
Proof.
  pose proof (cast_in_place iso_to_datetime astype_string_of_str plain_Decimal
                astype_relabel 0%nat
                [("d", "date"); ("missing", "bigint"); ("x", "bigint")]
                (store_of df_dates)) as H.
  destruct (cast_pandas_with_athena_types iso_to_datetime astype_string_of_str
              plain_Decimal astype_relabel 0%nat
              [("d", "date"); ("missing", "bigint"); ("x", "bigint")]
              (store_of df_dates))
    as [h' r] eqn:E.
  destruct H as (_ & _ & _ & _ & _ & _ & _ & Hall).
  assert (Hr : r = OK 0%nat) by (injection E as _ <-; reflexivity).
  assert (Hn : NoDup (keys [("d", "date"); ("missing", "bigint"); ("x", "bigint")])).
  { simpl. repeat constructor; simpl; intuition discriminate. }
  split; [exact Hr|]. split.
  - apply (Hall Hn Hr "d" "date"); [simpl; tauto | reflexivity].
  - apply (Hall Hn Hr "x" "bigint"); [simpl; tauto | reflexivity].
Defined.

(** The dataframe of dates after the casts of [d] to dates and of [x] to
    the nullable integers: both columns are cast. *)
Lemma cast_two_columns_example :
  let (h', r) :=
    cast_pandas_with_athena_types iso_to_datetime astype_string_of_str
      plain_Decimal astype_relabel 0%nat [("d", "date"); ("x", "bigint")]
      (store_of df_dates) in
  r = OK 0%nat /\
  getitem_col (h' 0%nat) "d"
  = OK (object_series [VDate {| year := 2020; month := 1; day := 1 |}; VNone;
                       VDate {| year := 2021; month := 12; day := 31 |}]) /\
  getitem_col (h' 0%nat) "x"
  = OK {| dtype := "Int64"; values := [VInt 1; VInt 2; VInt 3] |}.
Proof. repeat split; reflexivity. Qed.

(* ================================================================== *)
(** ** Where the cast override does win *)

Lemma keys_dtypes_to_dict (df : DataFrame) (k : string) :
  In k (column_names df) -> In k (keys (dtypes_to_dict df)).
Proof.
  unfold dtypes_to_dict, column_names.
  assert (G : forall l (acc : dict string),
             In k (keys acc) \/ In k (map fst l) ->
             In k (keys (fold_left (fun d c => setitem d (fst c) (dtype (snd c))) l acc))).
  { induction l as [|c l IH]; simpl; intros acc H.
    - destruct H as [H | []]. exact H.
    - apply IH. destruct H as [H | [H | H]].
      + left. apply keys_setitem. now right.
      + left. apply keys_setitem. now left.
      + now right. }
  intros H. apply G. now right.
Qed.

Lemma exception_dtypes_ignored items ignore cols cd k :
  mem k ignore = true ->
  In k (keys items) \/ getitem cd k = OK None ->
  getitem (snd (exception_dtypes items ignore cols cd)) k = OK None.
Proof.
  intros Hk. revert cols cd.
  induction items as [|[name dt] items IH]; intros cols cd H.
  - destruct H as [[] | H]. exact H.
  - assert (Step : forall v,
              (name = k -> v = None) ->
              In k (keys items) \/ getitem (setitem cd name v) k = OK None).
    { intros v Hv. destruct (String.eqb_spec name k) as [E | N].
      - right. rewrite (Hv E), E. apply getitem_setitem_same.
      - destruct H as [[E | H] | H]; [now elim N | now left |].
        right. rewrite getitem_setitem_other by congruence. exact H. }
    cbn [exception_dtypes].
    destruct (mem name ignore) eqn:Em; [apply IH, Step; reflexivity|].
    assert (Hne : name <> k) by (intros ->; congruence).
    repeat match goal with
           | |- context [if String.eqb dt ?x then _ else _] =>
               destruct (String.eqb dt x);
               [apply IH, Step; intros E; now elim Hne|]
           end.
    apply IH. destruct H as [[E | H] | H]; [now elim Hne | now left | now right].
Qed.

Lemma exception_dtypes_cols items ignore cols cd n :
  In n (fst (exception_dtypes items ignore cols cd)) ->
  In n cols \/ mem n ignore = false.
Proof.
  revert cols cd. induction items as [|[name dt] items IH]; intros cols cd H.
  - now left.
  - cbn [exception_dtypes] in H.
    destruct (mem name ignore) eqn:Em; [now apply IH in H|].
    repeat match type of H with
           | context [if String.eqb dt ?x then _ else _] =>
               destruct (String.eqb dt x); [now apply IH in H|]
           end.
    apply IH in H as [H | H]; [|now right].
    apply List.in_app_iff in H as [H | [<- | []]]; [now left | now right].
Qed.

Lemma getitem_cols_names (df : DataFrame) (cols : list string) (n : string) :
  In n (column_names (getitem_cols df cols)) -> In n cols.
Proof.
  unfold column_names, getitem_cols. cbn [columns].
  rewrite in_map_iff. intros (c & <- & H).
  apply in_flat_map in H as (m & Hm & Hc).
  apply filter_In in Hc as [_ E]. apply String.eqb_eq in E. now rewrite E.
Qed.

Section OverrideFacts.

Variable infer_type : Series -> result DataType.

Lemma mapM_field_names (l : list (string * Series)) (fs : list (string * DataType)) :
  mapM (fun c => t <- infer_type (snd c) ;; OK (fst c, t)) l = OK fs ->
  map fst fs = map fst l.
Proof.
  revert fs. induction l as [|c l IH]; simpl; intros fs H.
  - now injection H as <-.
  - destruct (infer_type (snd c)) as [t|e]; simpl in H; [|discriminate].
    destruct (mapM _ l) as [fs'|e]; simpl in H; [|discriminate].
    injection H as <-. simpl. now rewrite (IH fs').
Qed.

Lemma from_pandas_names_without_index (df : DataFrame) (fs : list (string * DataType)) :
  from_pandas infer_type df false = OK fs -> map fst fs = column_names df.
Proof.
  unfold from_pandas. destruct (negb (is_unique (column_names df))); [discriminate|].
  destruct (mapM _ (columns df)) as [cfs|e] eqn:E; simpl; [|discriminate].
  intros H. injection H as <-. rewrite List.app_nil_r.
  exact (mapM_field_names _ _ E).
Qed.

End OverrideFacts.

Lemma fill_fields_other fields df_columns index cd indexes k :
  ~ In k (map fst fields) ->
  getitem (fst (fill_fields fields df_columns index cd indexes)) k = getitem cd k.
Proof.
  revert cd indexes. induction fields as [|[name t] fields IH]; simpl;
    intros cd indexes H; [reflexivity|].
  rewrite IH by tauto. apply getitem_setitem_other. intros ->. tauto.
Qed.

Lemma fill_fields_no_index fields df_columns cd indexes :
  snd (fill_fields fields df_columns false cd indexes) = indexes.
Proof.
  revert cd indexes. induction fields as [|[name t] fields IH]; simpl;
    intros cd indexes; [reflexivity|].
  rewrite IH. now rewrite andb_false_r.
Qed.

Lemma comprehension_getitem cd names acc res k :
  comprehension cd names acc = OK res ->
  getitem res k = if mem k names then getitem cd k else getitem acc k.
Proof.
  revert acc. induction names as [|n names IH]; simpl; intros acc H.
  - now injection H as <-.
  - destruct (getitem cd n) as [v|e] eqn:E; simpl in H; [|discriminate].
    rewrite (IH _ H). destruct (String.eqb_spec k n) as [->|N]; simpl.
    + destruct (mem n names); [reflexivity|].
      now rewrite getitem_setitem_same.
    + destruct (mem k names); [reflexivity|].
      now apply getitem_setitem_other.
Qed.

Lemma comprehension_NoDup cd names acc res :
  comprehension cd names acc = OK res -> NoDup (keys acc) -> NoDup (keys res).
Proof.
  revert acc. induction names as [|n names IH]; simpl; intros acc H Hn.
  - now injection H as <-.
  - destruct (getitem cd n) as [v|e]; simpl in H; [|discriminate].
    apply (IH _ H). now apply NoDup_keys_setitem.
Qed.

Lemma athena_types_loop_other items casts acc res k :
  athena_types_loop items casts acc = OK res ->
  ~ In k (keys items) -> getitem res k = getitem acc k.
Proof.
  revert acc. induction items as [|[k0 v0] items IH]; simpl; intros acc H Hn.
  - now injection H as <-.
  - destruct (match v0 with
              | Some v1 => pyarrow2athena v1
              | None => getitem casts k0
              end) as [t|e]; simpl in H; [|discriminate].
    rewrite (IH _ H) by tauto. apply getitem_setitem_other. intros ->. tauto.
Qed.

Lemma athena_types_loop_override items casts acc res k :
  athena_types_loop items casts acc = OK res ->
  NoDup (keys items) -> In (k, None) items ->
  getitem res k = getitem casts k.
Proof.
  revert acc. induction items as [|[k0 v0] items IH]; simpl; intros acc H Hn Hin.
  - destruct Hin.
  - inversion Hn as [|? ? Hk Hn']; subst.
    destruct Hin as [[= -> ->] | Hin].
    + destruct (getitem casts k) as [t|e] eqn:E; simpl in H; [|discriminate].
      rewrite (athena_types_loop_other _ _ _ _ k H Hk).
      apply getitem_setitem_same.
    + destruct (match v0 with
                | Some v1 => pyarrow2athena v1
                | None => getitem casts k0
                end) as [t|e]; simpl in H; [|discriminate].
      now apply (IH _ H).
Qed.

(** When the index is not kept, the override wins: every overridden column
    of the dataframe has, in the schema [athena_types_from_pandas] returns,
    exactly the type the override gives it. *)
Lemma override_wins_without_index (infer_type : Series -> result DataType)
    (df : DataFrame) (casts schema : dict string) (k : string) :
  athena_types_from_pandas infer_type df false (Some casts) = OK schema ->
  In k (keys casts) -> In k (column_names df) ->
  getitem schema k = getitem casts k.
Proof.
  intros H Hc Hd. unfold athena_types_from_pandas in H.
  destruct (pyarrow_types_from_pandas infer_type df false (Some (keys casts)))
    as [types|e] eqn:Et; simpl in H; [|discriminate].
  apply (athena_types_loop_override _ _ _ _ k H).
  - unfold pyarrow_types_from_pandas in Et.
    destruct (exception_dtypes _ _ _ _) as [cols cd0].
    destruct (from_pandas _ _ _) as [fields|e]; simpl in Et; [|discriminate].
    destruct (fill_fields _ _ _ _ _) as [cd1 indexes].
    apply (comprehension_NoDup _ _ _ _ Et). constructor.
  - apply getitem_In. revert Et. unfold pyarrow_types_from_pandas.
    pose proof (exception_dtypes_ignored (dtypes_to_dict df) (keys casts) [] [] k
                  (proj2 (mem_In _ _) Hc)
                  (or_introl (keys_dtypes_to_dict df k Hd))) as H0.
    pose proof (fun n => exception_dtypes_cols (dtypes_to_dict df) (keys casts)
                           [] [] n) as Hcols.
    destruct (exception_dtypes _ _ _ _) as [cols cd0]. simpl in H0, Hcols.
    destruct (from_pandas _ _ _) as [fields|e] eqn:Ef; simpl; [|discriminate].
    pose proof (fill_fields_other fields (column_names df) false cd0 [] k) as H1.
    pose proof (fill_fields_no_index fields (column_names df) cd0 []) as H2.
    destruct (fill_fields _ _ _ _ _) as [cd1 indexes]. simpl in H1, H2. subst indexes.
    intros Et. rewrite (comprehension_getitem _ _ _ _ k Et).
    rewrite List.app_nil_r. rewrite (proj2 (mem_In _ _) Hd).
    rewrite H1; [exact H0|].
    rewrite (from_pandas_names_without_index _ _ _ Ef).
    intros Hin. apply getitem_cols_names in Hin.
    destruct (Hcols k Hin) as [[] | Hf].
    rewrite (proj2 (mem_In _ _) Hc) in Hf. discriminate.
Qed.

(* ================================================================== *)
(** * Further properties *)

(** ** What [pyarrow2athena] converts *)

(** Induction over columnar types, through the fields of a struct. *)
Lemma DataType_nested_ind (P : DataType -> Prop) :
  (forall t, (forall v, t <> pa_dictionary v) -> (forall v, t <> pa_list_ v) ->
             (forall fs, t <> pa_struct fs) -> P t) ->
  (forall v, P v -> P (pa_dictionary v)) ->
  (forall v, P v -> P (pa_list_ v)) ->
  (forall fs, Forall (fun f => P (snd f)) fs -> P (pa_struct fs)) ->
  forall t, P t.
Proof.
  intros Hleaf Hdict Hlist Hstruct.
  fix IH 1. intros t.
  destruct t;
    try (apply Hleaf; intros; discriminate).
  - apply Hdict, IH.
  - apply Hlist, IH.
  - apply Hstruct. induction fields as [|[n ty] fs IHfs]; constructor.
    + apply IH.
    + exact IHfs.
Qed.

Lemma pyarrow2athena_cases (t : DataType) :
  (convertible t = true -> exists s, pyarrow2athena t = OK s) /\
  (convertible t = false ->
   exists e, pyarrow2athena t = Raise e /\
             (is_UnsupportedType e = true \/
              (is_UndetectedType e = true /\ contains_null t = true))).
Proof.
  induction t as [t Hd Hl Hs | v IH | v IH | fs IH] using DataType_nested_ind.
  - destruct t;
      try solve [exfalso; eapply Hd; reflexivity
                | exfalso; eapply Hl; reflexivity
                | exfalso; eapply Hs; reflexivity];
      simpl; split; intros H; try discriminate;
      try (eexists; reflexivity);
      eexists; (split; [reflexivity|]); simpl; auto.
  - exact IH.
  - destruct IH as [IHt IHf]. simpl. split; intros H.
    + destruct (IHt H) as [s ->]. simpl. eexists. reflexivity.
    + destruct (IHf H) as (e & -> & He). simpl. now exists e.
  - cbn [pyarrow2athena convertible contains_null].
    induction IH as [|[n ty] fs [IHt IHf] _ IHfs].
    + split; intros H; [eexists; reflexivity | discriminate].
    + cbn [snd] in IHt, IHf. destruct IHfs as [IHst IHsf].
      destruct (convertible ty) eqn:Ec.
      * destruct (IHt eq_refl) as [s Es]. rewrite Es.
        cbn [bind andb]. split; intros H.
        -- destruct (IHst H) as [s' Es'].
           match type of Es' with
           | (x <- ?E ;; _) = _ =>
               destruct E as [l|e] eqn:El; [|discriminate]
           end.
           eexists. reflexivity.
        -- destruct (IHsf H) as (e & Ee & He).
           match type of Ee with
           | (x <- ?E ;; _) = _ =>
               destruct E as [l|e'] eqn:El; [discriminate|]
           end.
           simpl in Ee. injection Ee as ->. exists e. split; [reflexivity|].
           destruct He as [He | [He Hn]]; [now left|].
           right. split; [exact He|]. rewrite Hn. apply orb_true_r.
      * cbn [andb]. split; intros H; [discriminate|].
        destruct (IHf eq_refl) as (e & Ee & He). rewrite Ee. cbn [bind].
        exists e. split; [reflexivity|].
        destruct He as [He | [He Hn]]; [now left|].
        right. split; [exact He|]. now rewrite Hn.
Qed.

(** X1. [pyarrow2athena] returns a catalog type exactly for the types built
    from the leaves it names (the signed integers, float32 and float64,
    boolean, string, timestamps, dates, binary, decimal128) with
    dictionaries, lists and structs. *)
Theorem pyarrow2athena_returns_iff_convertible (t : DataType) :
  (exists s, pyarrow2athena t = OK s) <-> convertible t = true.
Proof.
  destruct (pyarrow2athena_cases t) as [Ht Hf]. split; [|exact Ht].
  intros [s Hs]. destruct (convertible t); [reflexivity|].
  destruct (Hf eq_refl) as (e & He & _). congruence.
Qed.

(** X2. [pyarrow2athena] raises nothing but [UnsupportedType] and
    [UndetectedType], and [UndetectedType] only for a type in which the
    null type occurs. *)
Theorem pyarrow2athena_raises_only (t : DataType) (e : exn) :
  pyarrow2athena t = Raise e ->
  is_UnsupportedType e = true \/
  (is_UndetectedType e = true /\ contains_null t = true).
Proof.
  intros H. destruct (pyarrow2athena_cases t) as [Ht Hf].
  destruct (convertible t).
  - destruct (Ht eq_refl) as [s Hs]. congruence.
  - destruct (Hf eq_refl) as (e' & He' & Hc). congruence.
Qed.

Lemma pyarrow2athena_raises_only_witness :
  is_UnsupportedType (UndetectedType
    "We can not infer the data type from an entire null object column") = true \/
  (is_UndetectedType (UndetectedType
     "We can not infer the data type from an entire null object column") = true /\
   contains_null (pa_struct [("a", pa_int8); ("b", pa_list_ pa_null)]) = true).
Proof.
  apply (pyarrow2athena_raises_only
           (pa_struct [("a", pa_int8); ("b", pa_list_ pa_null)])).
  reflexivity.
Defined.

(** ** The types [athena2pyarrow] produces *)

(** Case analysis on the comparisons of a tag with a literal: in each case
    the tag is that literal, or differs from it. *)
Ltac tag_cases t :=
  repeat match goal with
         | |- context [String.eqb t ?x] =>
             destruct (String.eqb_spec t x) as [-> | ?];
             [ cbv -[in_int32]; try solve [intros; discriminate] | ]
         end.

Lemma athena2pyarrow_image (tag : string) (t : DataType) :
  athena2pyarrow tag = OK t ->
  In t [pa_int8; pa_int16; pa_int32; pa_int64; pa_float32; pa_float64;
        pa_bool_; pa_string; pa_timestamp unit_ns; pa_date32; pa_binary] \/
  exists p s, t = pa_decimal128 p s /\ 1 <= p <= 38 /\ in_int32 s = true.
Proof.
  unfold athena2pyarrow, Py.in_tuple. cbn [existsb].
  generalize (Py.lower tag) as t0. intros t0.
  tag_cases t0; try (intros [= <-]; left; simpl; tauto).
  cbn [orb].
  destruct (Py.contains "binary" t0); [intros [= <-]; left; simpl; tauto|].
  destruct (Py.startswith t0 "decimal"); [|discriminate].
  destruct (Py.split _ _) as [|a [|b [|c l]]]; try discriminate.
  destruct (Py.int a) as [p|e]; [|discriminate].
  destruct (Py.int b) as [s|e]; [|discriminate].
  cbn [bind]. intros Hd. right. exists p, s.
  exact (decimal128_returns _ _ _ Hd).
Qed.

(** X3. Every tag [athena2pyarrow] accepts has a canonical form:
    [pyarrow2athena] renders the type it denotes as a tag that
    [athena2pyarrow] maps to the same type, and that tag makes the round
    trip unchanged. *)
Theorem athena2pyarrow_canonical_tag (tag : string) (t : DataType) :
  athena2pyarrow tag = OK t ->
  exists tag',
    round_trip tag = OK tag' /\
    athena2pyarrow tag' = OK t /\
    round_trip tag' = OK tag'.
Proof.
  intros H. unfold round_trip at 1. rewrite H. cbn [bind].
  destruct (athena2pyarrow_image _ _ H) as [Hin | (p & s & -> & Hp & Hs)].
  - simpl in Hin.
    repeat (destruct Hin as [<- | Hin];
            [eexists; split; [reflexivity | split; reflexivity]|]).
    destruct Hin.
  - exists (decimal_tag p s).
    assert (Ha : athena2pyarrow (decimal_tag p s) = OK (pa_decimal128 p s)).
    { rewrite athena2pyarrow_decimal_tag. now apply decimal128_accepts. }
    split; [reflexivity | split; [exact Ha|]].
    unfold round_trip. rewrite Ha. reflexivity.
Qed.

Lemma athena2pyarrow_canonical_tag_witness :
  exists tag',
    round_trip "VarChar" = OK tag' /\
    athena2pyarrow tag' = OK pa_string /\
    round_trip tag' = OK tag'.
Proof.
  apply (athena2pyarrow_canonical_tag "VarChar" pa_string). reflexivity.
Defined.

(** ** The three mappers agree *)

(** X4. Where [athena2pyarrow] gives a tag a type that has a pandas
    extension dtype, [athena2pandas] gives the tag the name of that very
    dtype; the composite tags array, row and map, which [athena2pyarrow]
    takes for strings, are the exception. *)
Theorem athena2pandas_names_extension_dtype (tag : string) (t : DataType)
    (d : ExtensionDtype) :
  athena2pyarrow tag = OK t ->
  pyarrow2pandas_extension t = Some d ->
  athena2pandas tag = OK (ExtensionDtype_str d) \/
  In (Py.lower tag) ["array"; "row"; "map"].
Proof.
  unfold athena2pyarrow, athena2pandas, Py.in_tuple. cbn [existsb].
  generalize (Py.lower tag) as t0. intros t0.
  tag_cases t0;
    try (intros [= <-] [= <-];
         first [left; reflexivity | right; simpl; tauto]).
  cbn [orb].
  destruct (Py.contains "binary" t0); [intros [= <-]; discriminate|].
  destruct (Py.startswith t0 "decimal"); [|discriminate].
  destruct (Py.split _ _) as [|a [|b [|c l]]]; try discriminate.
  destruct (Py.int a) as [p|e]; [|discriminate].
  destruct (Py.int b) as [s|e]; [|discriminate].
  cbn [bind]. intros H. apply decimal128_returns in H as [-> _]. discriminate.
Qed.

Lemma athena2pandas_names_extension_dtype_witness :
  athena2pandas "BigInt" = OK "Int64" \/
  In (Py.lower "BigInt") ["array"; "row"; "map"].
Proof.
  apply (athena2pandas_names_extension_dtype "BigInt" pa_int64 Int64Dtype);
    reflexivity.
Defined.

(** X5. A tag [athena2pyarrow] accepts is a tag [athena2pandas] accepts,
    unless it is row or map, or one of the fragments of the word "binary"
    that [athena2pyarrow] takes for binary. *)
Theorem athena2pandas_accepts_what_athena2pyarrow_accepts (tag : string)
    (t : DataType) :
  athena2pyarrow tag = OK t ->
  (exists k, athena2pandas tag = OK k) \/
  In (Py.lower tag) ["row"; "map"] \/
  (t = pa_binary /\ Py.lower tag <> "binary").
Proof.
  unfold athena2pyarrow, athena2pandas, Py.in_tuple. cbn [existsb].
  generalize (Py.lower tag) as t0. intros t0.
  tag_cases t0;
    try (intros _;
         first [left; eexists; reflexivity | right; left; simpl; tauto]).
  cbn [orb].
  destruct (Py.contains "binary" t0).
  - intros [= <-]. destruct (Py.startswith t0 "decimal").
    + left. eexists. reflexivity.
    + right. right. split; [reflexivity | assumption].
  - destruct (Py.startswith t0 "decimal"); [|discriminate].
    intros _. left. eexists. reflexivity.
Qed.

Lemma athena2pandas_accepts_what_athena2pyarrow_accepts_witness :
  (exists k, athena2pandas "decimal(10,2)" = OK k) \/
  In (Py.lower "decimal(10,2)") ["row"; "map"] \/
  (pa_decimal128 10 2 = pa_binary /\ Py.lower "decimal(10,2)" <> "binary").
Proof.
  apply (athena2pandas_accepts_what_athena2pyarrow_accepts "decimal(10,2)").
  reflexivity.
Defined.

(* ================================================================== *)
(** ** The inferred schema follows the dataframe *)

Lemma keys_setitem_fresh {V} (d : dict V) (k : string) (v : V) :
  ~ In k (keys d) -> keys (setitem d k v) = (keys d ++ [k])%list.
Proof.
  intros H. rewrite (setitem_fresh d k v H). unfold keys.
  now rewrite List.map_app.
Qed.

Lemma NoDup_app_cons (l : list string) (k : string) (l' : list string) :
  NoDup (l ++ k :: l') -> ~ In k l /\ NoDup ((l ++ [k]) ++ l').
Proof.
  intros H. split.
  - intros Hin. apply NoDup_remove_2 in H. apply H.
    apply List.in_app_iff. now left.
  - now rewrite <- List.app_assoc.
Qed.

Lemma comprehension_keys cd names acc res :
  comprehension cd names acc = OK res ->
  NoDup (keys acc ++ names) -> keys res = (keys acc ++ names)%list.
Proof.
  revert acc. induction names as [|n names IH]; simpl; intros acc H Hn.
  - injection H as <-. now rewrite List.app_nil_r.
  - destruct (getitem cd n) as [v|e]; simpl in H; [|discriminate].
    destruct (NoDup_app_cons _ _ _ Hn) as [Hf Hn'].
    rewrite (IH _ H); rewrite (keys_setitem_fresh acc n v Hf);
      [now rewrite <- List.app_assoc | exact Hn'].
Qed.

Lemma athena_types_loop_keys items casts acc res :
  athena_types_loop items casts acc = OK res ->
  NoDup (keys acc ++ keys items) -> keys res = (keys acc ++ keys items)%list.
Proof.
  revert acc. induction items as [|[k v] items IH]; simpl; intros acc H Hn.
  - injection H as <-. now rewrite List.app_nil_r.
  - destruct (match v with
              | Some v0 => pyarrow2athena v0
              | None => getitem casts k
              end) as [t|e]; simpl in H; [|discriminate].
    destruct (NoDup_app_cons _ _ _ Hn) as [Hf Hn'].
    rewrite (IH _ H); rewrite (keys_setitem_fresh acc k t Hf);
      [now rewrite <- List.app_assoc | exact Hn'].
Qed.

(** X6. Without the index, on a dataframe whose column labels are distinct,
    the schema [athena_types_from_pandas] returns lists exactly the columns
    of the dataframe, in their order, overridden or not. *)
Theorem athena_types_follow_columns (infer_type : Series -> result DataType)
    (df : DataFrame) (cast_columns : option (dict string)) (schema : dict string) :
  NoDup (column_names df) ->
  athena_types_from_pandas infer_type df false cast_columns = OK schema ->
  keys schema = column_names df.
Proof.
  intros Hn. unfold athena_types_from_pandas.
  destruct (pyarrow_types_from_pandas _ _ _ _) as [types|e] eqn:Et; simpl;
    [|discriminate].
  intros H.
  assert (Hk : keys types = column_names df).
  { unfold pyarrow_types_from_pandas in Et.
    destruct (exception_dtypes _ _ _ _) as [cols cd0].
    destruct (from_pandas _ _ _) as [fields|e]; simpl in Et; [|discriminate].
    pose proof (fill_fields_no_index fields (column_names df) cd0 []) as H2.
    destruct (fill_fields _ _ _ _ _) as [cd1 indexes]. simpl in H2. subst indexes.
    rewrite List.app_nil_r in Et.
    now rewrite (comprehension_keys _ _ _ _ Et Hn). }
  rewrite (athena_types_loop_keys _ _ _ _ H); simpl; now rewrite Hk.
Qed.

Lemma athena_types_follow_columns_witness :
  keys [("id", "string"); ("name", "string")] = column_names df_id_name.
Proof.
  apply (athena_types_follow_columns infer_by_dtype df_id_name
           (Some [("id", "string")])).
  - repeat constructor; simpl; intuition discriminate.
  - reflexivity.
Defined.

(* ================================================================== *)
(** ** The Arrow schema of the written file *)

Lemma apply_casts_other items df_columns ct ct' k :
  apply_casts items df_columns ct = OK ct' ->
  ~ In k (keys items) -> getitem ct' k = getitem ct k.
Proof.
  revert ct. induction items as [|[k0 v0] items IH]; simpl; intros ct H Hn.
  - now injection H as <-.
  - destruct (mem k0 df_columns).
    + destruct (athena2pyarrow v0) as [t|e]; simpl in H; [|discriminate].
      rewrite (IH _ H) by tauto. apply getitem_setitem_other. intros ->. tauto.
    + apply (IH _ H). tauto.
Qed.

Lemma apply_casts_present items df_columns ct ct' k tag :
  apply_casts items df_columns ct = OK ct' ->
  NoDup (keys items) -> In (k, tag) items -> In k df_columns ->
  exists t, athena2pyarrow tag = OK t /\ getitem ct' k = OK (Some t).
Proof.
  revert ct. induction items as [|[k0 v0] items IH]; simpl; intros ct H Hn Hin Hc.
  - destruct Hin.
  - inversion Hn as [|? ? Hk Hn']; subst.
    destruct Hin as [[= -> ->] | Hin].
    + rewrite (proj2 (mem_In _ _) Hc) in H.
      destruct (athena2pyarrow tag) as [t|e]; simpl in H; [|discriminate].
      exists t. split; [reflexivity|].
      rewrite (apply_casts_other _ _ _ _ k H Hk). apply getitem_setitem_same.
    + destruct (mem k0 df_columns).
      * destruct (athena2pyarrow v0) as [t|e]; simpl in H; [|discriminate].
        now apply (IH _ H).
      * now apply (IH _ H).
Qed.

Lemma apply_casts_absent items df_columns ct :
  (forall k, In k (keys items) -> ~ In k df_columns) ->
  apply_casts items df_columns ct = OK ct.
Proof.
  induction items as [|[k0 v0] items IH]; simpl; intros H; [reflexivity|].
  replace (mem k0 df_columns) with false.
  - apply IH. intros k Hk. apply H. now right.
  - symmetry. apply mem_false. apply H. now left.
Qed.

(** The fields kept for the schema: the entries that have a type. *)
Lemma getitem_typed_fields (ct : dict (option DataType)) (k : string) (t : DataType) :
  getitem ct k = OK (Some t) ->
  getitem (flat_map (fun kv => match snd kv with
                               | Some t => [(fst kv, t)]
                               | None => []
                               end) ct) k = OK t.
Proof.
  induction ct as [|[k0 [t0|]] ct IH]; simpl; [discriminate | |].
  - destruct (String.eqb_spec k0 k); [now intros [= ->] | exact IH].
  - destruct (String.eqb_spec k0 k); [discriminate | exact IH].
Qed.

(** X7. In [pyarrow_schema_from_pandas] the override always wins: whatever
    the index flag and the excluded columns, every override that names a
    column of the dataframe gives that column, in the returned schema, the
    type [athena2pyarrow] reads from the override's tag. *)
Theorem pyarrow_schema_override_wins (infer_type : Series -> result DataType)
    (df : DataFrame) (index : bool) (ignore_cols : option (list string))
    (casts : dict string) (schema : list (string * DataType)) (k tag : string) :
  NoDup (keys casts) ->
  pyarrow_schema_from_pandas infer_type df index ignore_cols (Some casts) = OK schema ->
  In (k, tag) casts -> In k (column_names df) ->
  exists t, athena2pyarrow tag = OK t /\ getitem schema k = OK t.
Proof.
  intros Hn H Hin Hc. unfold pyarrow_schema_from_pandas in H.
  destruct (pyarrow_types_from_pandas _ _ _ _) as [ct|e]; simpl in H; [|discriminate].
  destruct (apply_casts casts (column_names df) ct) as [ct'|e] eqn:E;
    simpl in H; [|discriminate].
  injection H as <-.
  destruct (apply_casts_present _ _ _ _ _ _ E Hn Hin Hc) as (t & Ht & Hg).
  exists t. split; [exact Ht | now apply getitem_typed_fields].
Qed.

Lemma pyarrow_schema_override_wins_witness :
  exists t, athena2pyarrow "string" = OK t /\
            getitem [("id", pa_string); ("name", pa_string)] "id" = OK t.
Proof.
  apply (pyarrow_schema_override_wins infer_by_dtype df_indexed_by_id true None
           [("id", "string")] [("id", pa_string); ("name", pa_string)] "id" "string").
  - repeat constructor. simpl. tauto.
  - reflexivity.
  - simpl. tauto.
  - simpl. tauto.
Defined.

Lemma keys_dtypes_to_dict_columns (df : DataFrame) (k : string) :
  In k (keys (dtypes_to_dict df)) -> In k (column_names df).
Proof.
  unfold dtypes_to_dict, column_names.
  assert (G : forall l (acc : dict string),
             In k (keys (fold_left (fun d c => setitem d (fst c) (dtype (snd c))) l acc)) ->
             In k (keys acc) \/ In k (map fst l)).
  { induction l as [|c l IH]; simpl; intros acc H; [now left|].
    apply IH in H as [H | H]; [|right; now right].
    apply keys_setitem in H as [-> | H]; [right; now left | now left]. }
  intros H. apply G in H as [[] | H]. exact H.
Qed.

Lemma exception_dtypes_ext items ig1 ig2 cols cd :
  (forall name, In name (keys items) -> mem name ig1 = mem name ig2) ->
  exception_dtypes items ig1 cols cd = exception_dtypes items ig2 cols cd.
Proof.
  revert cols cd. induction items as [|[name dt] items IH]; intros cols cd H;
    [reflexivity|].
  cbn [exception_dtypes].
  rewrite <- (H name (or_introl eq_refl)).
  assert (H' : forall n, In n (keys items) -> mem n ig1 = mem n ig2)
    by (intros n Hn; apply H; now right).
  destruct (mem name ig1); [now apply IH|].
  repeat match goal with
         | |- context [if String.eqb dt ?x then _ else _] =>
             destruct (String.eqb dt x); [now apply IH|]
         end.
  now apply IH.
Qed.

Lemma mem_app_absent (name : string) (l extra : list string) :
  ~ In name extra -> mem name (l ++ extra) = mem name l.
Proof.
  intros H. unfold mem. rewrite existsb_app.
  replace (existsb (String.eqb name) extra) with false; [apply orb_false_r|].
  symmetry. apply (mem_false name extra). exact H.
Qed.

Lemma athena_types_loop_typed items casts1 casts2 acc :
  (forall k, ~ In (k, None) items) ->
  athena_types_loop items casts1 acc = athena_types_loop items casts2 acc.
Proof.
  revert acc. induction items as [|[k [t|]] items IH]; simpl; intros acc H.
  - reflexivity.
  - destruct (pyarrow2athena t); simpl; [|reflexivity].
    apply IH. intros k' Hk. apply (H k'). now right.
  - elim (H k). now left.
Qed.

Section AbsentOverrides.

Variable infer_type : Series -> result DataType.

Lemma pyarrow_types_ignore_absent df index ignore extra :
  (forall k, In k extra -> ~ In k (column_names df)) ->
  pyarrow_types_from_pandas infer_type df index (Some (ignore ++ extra)%list)
  = pyarrow_types_from_pandas infer_type df index (Some ignore).
Proof.
  intros H. unfold pyarrow_types_from_pandas.
  rewrite (exception_dtypes_ext (dtypes_to_dict df) (ignore ++ extra) ignore [] []);
    [reflexivity|].
  intros name Hname. apply mem_app_absent. intros He.
  apply (H name He). now apply keys_dtypes_to_dict_columns.
Qed.

(** X8. Overrides that name no column of the dataframe are never read: with
    such overrides, whatever their tags, [pyarrow_schema_from_pandas] and
    [athena_types_from_pandas] return what they return without overrides. *)
Theorem absent_overrides_are_ignored df index ignore_cols casts :
  (forall k, In k (keys casts) -> ~ In k (column_names df)) ->
  pyarrow_schema_from_pandas infer_type df index ignore_cols (Some casts)
  = pyarrow_schema_from_pandas infer_type df index ignore_cols None /\
  athena_types_from_pandas infer_type df index (Some casts)
  = athena_types_from_pandas infer_type df index None.
Proof.
  intros H. split.
  - unfold pyarrow_schema_from_pandas. cbn [keys map].
    rewrite List.app_nil_r, (pyarrow_types_ignore_absent _ _ _ _ H).
    destruct (pyarrow_types_from_pandas _ _ _ _) as [ct|e]; simpl; [|reflexivity].
    now rewrite (apply_casts_absent _ _ _ H).
  - pose proof (pyarrow_types_ignore_absent df index [] (keys casts) H) as E.
    change (([] ++ keys casts)%list) with (keys casts) in E.
    change (athena_types_from_pandas infer_type df index (Some casts))
      with (t <- pyarrow_types_from_pandas infer_type df index (Some (keys casts)) ;;
            athena_types_loop t casts []).
    change (athena_types_from_pandas infer_type df index None)
      with (t <- pyarrow_types_from_pandas infer_type df index (Some []) ;;
            athena_types_loop t [] []).
    rewrite E.
    destruct (pyarrow_types_from_pandas infer_type df index (Some []))
      as [types|e] eqn:Et; simpl; [|reflexivity].
    apply athena_types_loop_typed. intros k Hk.
    exact (pyarrow_types_from_pandas_None _ _ _ _ _ _ Et Hk).
Qed.

End AbsentOverrides.

Lemma absent_overrides_are_ignored_witness :
  pyarrow_schema_from_pandas infer_by_dtype df_id_name false None
    (Some [("missing", "not a type")])
  = pyarrow_schema_from_pandas infer_by_dtype df_id_name false None None /\
  athena_types_from_pandas infer_by_dtype df_id_name false
    (Some [("missing", "not a type")])
  = athena_types_from_pandas infer_by_dtype df_id_name false None.
Proof.
  apply (absent_overrides_are_ignored infer_by_dtype df_id_name false None
           [("missing", "not a type")]).
  simpl. intros k [<- | []] [H | [H | []]]; discriminate.
Defined.

Lemma athena_types_comprehension_loop (types : dict (option DataType))
    (casts acc : dict string) :
  (forall k, ~ In (k, None) types) ->
  athena_types_comprehension
    (flat_map (fun kv => match snd kv with
                         | Some t => [(fst kv, t)]
                         | None => []
                         end) types) acc
  = athena_types_loop types casts acc.
Proof.
  revert acc. induction types as [|[k [t|]] types IH]; simpl; intros acc H.
  - reflexivity.
  - destruct (pyarrow2athena t); simpl; [|reflexivity].
    apply IH. intros k' Hk. apply (H k'). now right.
  - elim (H k). now left.
Qed.

(** X9. The file schema and the catalog schema agree: without overrides,
    reading the catalog types off the Arrow schema that
    [pyarrow_schema_from_pandas] builds, with
    [athena_types_from_pyarrow_schema], gives exactly what
    [athena_types_from_pandas] infers from the dataframe, failures
    included. *)
Theorem catalog_types_of_file_schema (infer_type : Series -> result DataType)
    (df : DataFrame) (index : bool) :
  (schema <- pyarrow_schema_from_pandas infer_type df index None None ;;
   athena_types_from_pyarrow_schema schema [])
  = (columns_types <- athena_types_from_pandas infer_type df index None ;;
     OK (columns_types, [])).
Proof.
  unfold pyarrow_schema_from_pandas, athena_types_from_pandas,
    athena_types_from_pyarrow_schema.
  cbn [keys map app].
  destruct (pyarrow_types_from_pandas infer_type df index (Some []))
    as [types|e] eqn:Et; [|reflexivity].
  cbn [bind apply_casts].
  rewrite (athena_types_comprehension_loop types [] []).
  - destruct (athena_types_loop types [] []); reflexivity.
  - intros k Hk. exact (pyarrow_types_from_pandas_None _ _ _ _ _ _ Et Hk).
Qed.

(* ================================================================== *)
(** ** Columns of an extension dtype *)

Lemma dtypes_to_dict_NoDup (df : DataFrame) :
  NoDup (column_names df) ->
  dtypes_to_dict df = map (fun c => (fst c, dtype (snd c))) (columns df).
Proof.
  unfold dtypes_to_dict, column_names.
  assert (G : forall l (acc : dict string),
             NoDup (keys acc ++ map fst l) ->
             fold_left (fun d c => setitem d (fst c) (dtype (snd c))) l acc
             = (acc ++ map (fun c => (fst c, dtype (snd c))) l)%list).
  { induction l as [|c l IH]; simpl; intros acc Hn.
    - now rewrite List.app_nil_r.
    - destruct (NoDup_app_cons _ _ _ Hn) as [Hf Hn'].
      rewrite IH.
      + rewrite (setitem_fresh acc _ _ Hf). now rewrite <- List.app_assoc.
      + now rewrite (keys_setitem_fresh acc _ _ Hf). }
  intros Hn. now rewrite G.
Qed.

Lemma exception_dtypes_extension items ignore cols cd k d :
  NoDup (keys items) -> In (k, d) items ->
  mem k ignore = false -> In d exception_dtype_names ->
  exists t x,
    getitem (snd (exception_dtypes items ignore cols cd)) k = OK (Some t) /\
    pyarrow2pandas_extension t = Some x /\ ExtensionDtype_str x = d.
Proof.
  intros Hn Hin Hk Hd.
  assert (Keep : forall items cols cd v,
             ~ In k (keys items) -> getitem cd k = OK v ->
             getitem (snd (exception_dtypes items ignore cols cd)) k = OK v).
  { clear. induction items as [|[name dt] items IH]; intros cols cd v Hn Hg;
      [exact Hg|].
    assert (Hne : name <> k) by (intros ->; apply Hn; now left).
    assert (Hn' : ~ In k (keys items)) by (intros H; apply Hn; now right).
    assert (Hs : forall x, getitem (setitem cd name x) k = OK v).
    { intros x. rewrite getitem_setitem_other by congruence. exact Hg. }
    cbn [exception_dtypes].
    destruct (mem name ignore); [now apply IH|].
    repeat match goal with
           | |- context [if String.eqb dt ?x then _ else _] =>
               destruct (String.eqb dt x); [now apply IH|]
           end.
    now apply IH. }
  revert cols cd. induction items as [|[name dt] items IH]; intros cols cd;
    [destruct Hin|].
  inversion Hn as [|? ? Hf Hn']; subst.
  destruct Hin as [[= -> ->] | Hin].
  - cbn [exception_dtypes]. rewrite Hk.
    simpl in Hd.
    destruct Hd as [<- | [<- | [<- | [<- | [<- | []]]]]];
      cbn [String.eqb Ascii.eqb Bool.eqb];
      eexists _, _;
      (split; [apply Keep; [exact Hf | apply getitem_setitem_same]
              | split; reflexivity]).
  - assert (Hne : name <> k).
    { intros ->. apply Hf. change k with (fst (k, d)). now apply in_map. }
    cbn [exception_dtypes].
    destruct (mem name ignore); [now apply IH|].
    repeat match goal with
           | |- context [if String.eqb dt ?x then _ else _] =>
               destruct (String.eqb dt x); [now apply IH|]
           end.
    now apply IH.
Qed.

Lemma exception_dtypes_inferred items ignore cols cd n :
  In n (fst (exception_dtypes items ignore cols cd)) ->
  In n cols \/ exists d, In (n, d) items /\ ~ In d exception_dtype_names.
Proof.
  revert cols cd. induction items as [|[name dt] items IH]; intros cols cd H.
  - now left.
  - assert (Up : forall cols' cd',
               In n (fst (exception_dtypes items ignore cols' cd')) ->
               (In n cols' -> In n cols \/
                              exists d, In (n, d) ((name, dt) :: items) /\
                                        ~ In d exception_dtype_names) ->
               In n cols \/ exists d, In (n, d) ((name, dt) :: items) /\
                                      ~ In d exception_dtype_names).
    { intros cols' cd' H' Hc. apply IH in H' as [H' | (d & Hd & Hx)].
      - now apply Hc.
      - right. exists d. split; [now right | exact Hx]. }
    cbn [exception_dtypes] in H.
    destruct (mem name ignore); [apply (Up _ _ H); tauto|].
    destruct (String.eqb_spec dt "Int8"); [apply (Up _ _ H); tauto|].
    destruct (String.eqb_spec dt "Int16"); [apply (Up _ _ H); tauto|].
    destruct (String.eqb_spec dt "Int32"); [apply (Up _ _ H); tauto|].
    destruct (String.eqb_spec dt "Int64"); [apply (Up _ _ H); tauto|].
    destruct (String.eqb_spec dt "string"); [apply (Up _ _ H); tauto|].
    apply (Up _ _ H). intros Hc.
    apply List.in_app_iff in Hc as [Hc | [<- | []]]; [now left|].
    right. exists dt. split; [now left|].
    simpl. intros [E | [E | [E | [E | [E | []]]]]]; congruence.
Qed.

(** X10. Without the index, on a dataframe whose column labels are
    distinct, a column of a nullable extension dtype (Int8, Int16, Int32,
    Int64, string) that is not excluded gets, whatever the general inference
    would say, the Arrow type whose pandas extension dtype, by
    [pyarrow2pandas_extension], is the dtype of the column. *)
Theorem extension_dtype_round_trip (infer_type : Series -> result DataType)
    (df : DataFrame) (ignore_cols : list string) (types : dict (option DataType))
    (k : string) (s : Series) :
  NoDup (column_names df) ->
  pyarrow_types_from_pandas infer_type df false (Some ignore_cols) = OK types ->
  In (k, s) (columns df) -> ~ In k ignore_cols ->
  In (dtype s) exception_dtype_names ->
  exists t x,
    getitem types k = OK (Some t) /\
    pyarrow2pandas_extension t = Some x /\ ExtensionDtype_str x = dtype s.
Proof.
  intros Hn Et Hin Hig Hd.
  pose proof (dtypes_to_dict_NoDup df Hn) as Hitems.
  assert (Hk : NoDup (keys (dtypes_to_dict df))).
  { rewrite Hitems. unfold keys. rewrite map_map. exact Hn. }
  assert (Hi : In (k, dtype s) (dtypes_to_dict df)).
  { rewrite Hitems. change (k, dtype s) with ((fun c => (fst c, dtype (snd c))) (k, s)).
    now apply in_map. }
  unfold pyarrow_types_from_pandas in Et.
  destruct (exception_dtypes_extension (dtypes_to_dict df) ignore_cols [] [] k
              (dtype s) Hk Hi (proj2 (mem_false _ _) Hig) Hd)
    as (t & x & Hg & Hx & Hs).
  pose proof (exception_dtypes_inferred (dtypes_to_dict df) ignore_cols [] [] k)
    as Hcols.
  destruct (exception_dtypes _ _ _ _) as [cols cd0]. simpl in Hg, Hcols.
  destruct (from_pandas _ _ _) as [fields|e] eqn:Ef; simpl in Et; [|discriminate].
  pose proof (fill_fields_other fields (column_names df) false cd0 [] k) as H1.
  pose proof (fill_fields_no_index fields (column_names df) cd0 []) as H2.
  destruct (fill_fields _ _ _ _ _) as [cd1 indexes]. simpl in H1, H2. subst indexes.
  exists t, x. split; [|split; [exact Hx | exact Hs]].
  rewrite (comprehension_getitem _ _ _ _ k Et), List.app_nil_r.
  replace (mem k (column_names df)) with true.
  - rewrite H1; [exact Hg|].
    rewrite (from_pandas_names_without_index _ _ _ Ef).
    intros Hc. apply getitem_cols_names in Hc.
    destruct (Hcols Hc) as [[] | (d & Hdi & Hdn)].
    assert (d = dtype s) as ->; [|contradiction].
    clear -Hk Hdi Hi. induction (dtypes_to_dict df) as [|[k0 d0] l IH];
      [destruct Hi|].
    inversion Hk as [|? ? Hf Hk']; subst.
    destruct Hdi as [Hdi | Hdi]; destruct Hi as [Hi | Hi].
    + congruence.
    + injection Hdi as -> ->. elim Hf.
      change k with (fst (k, dtype s)). now apply in_map.
    + injection Hi as -> ->. elim Hf.
      change k with (fst (k, d)). now apply in_map.
    + now apply IH.
  - symmetry. apply mem_In. change k with (fst (k, s)). now apply in_map.
Qed.

Lemma extension_dtype_round_trip_witness :
  exists t x,
    getitem [("n", Some pa_int64); ("v", Some pa_float64)] "n" = OK (Some t) /\
    pyarrow2pandas_extension t = Some x /\ ExtensionDtype_str x = "Int64".
Proof.
  apply (extension_dtype_round_trip infer_by_dtype
           {| columns := [("n", {| dtype := "Int64"; values := [VInt 1; VNA] |});
                          ("v", {| dtype := "float64"; values := [VNaN; VNaN] |})];
              index_levels := [] |}
           [] [("n", Some pa_int64); ("v", Some pa_float64)] "n"
           {| dtype := "Int64"; values := [VInt 1; VNA] |}).
  - repeat constructor; simpl; intuition discriminate.
  - reflexivity.
  - simpl. tauto.
  - simpl. tauto.
  - simpl. tauto.
Defined.

(* ================================================================== *)
(** ** One path per row of partition values *)

Lemma heads_elements {A} (ls : list (list A)) (row : list A) (v : A) :
  heads ls = Some row -> In v row -> exists l, In l ls /\ In v l.
Proof.
  revert row. induction ls as [|l ls IH]; simpl; intros row H Hv.
  - injection H as <-. destruct Hv.
  - destruct l as [|x l]; [discriminate|].
    destruct (heads ls) as [r|]; simpl in H; [|discriminate].
    injection H as <-. destruct Hv as [<- | Hv].
    + exists (x :: l). split; [now left | now left].
    + destruct (IH r eq_refl Hv) as (l' & Hl & Hin).
      exists l'. split; [now right | exact Hin].
Qed.

Lemma zip_rows_elements {A} (n : nat) (ls : list (list A)) (row : list A) (v : A) :
  In row (zip_rows n ls) -> In v row -> exists l, In l ls /\ In v l.
Proof.
  revert ls. induction n as [|n IH]; simpl; intros ls H Hv; [destruct H|].
  destruct (heads ls) as [r|] eqn:E; [|destruct H].
  destruct H as [<- | H]; [now apply (heads_elements ls r)|].
  destruct (IH _ H Hv) as (l & Hl & Hin).
  apply in_map_iff in Hl as (l0 & <- & Hl0).
  exists l0. split; [exact Hl0|]. destruct l0; [destruct Hin | now right].
Qed.

Lemma zip_star_elements {A} (ls : list (list A)) (row : list A) (v : A) :
  In row (zip_star ls) -> In v row -> exists l, In l ls /\ In v l.
Proof.
  unfold zip_star. destruct ls as [|l ls]; [intros []|].
  apply zip_rows_elements.
Qed.

Lemma concat_empty_sep (l : list string) :
  String.concat "" l = fold_right String.append "" l.
Proof.
  induction l as [|x l IH]; [reflexivity|].
  destruct l as [|y l].
  - simpl. clear. induction x as [|c x IH]; simpl; [reflexivity | now rewrite <- IH].
  - change (String.concat "" (x :: y :: l))
      with (x ++ "" ++ String.concat "" (y :: l)).
    rewrite IH. reflexivity.
Qed.

Lemma append_cancel_l (a x y : string) : a ++ x = a ++ y -> x = y.
Proof.
  induction a as [|c a IH]; simpl; intros H; [exact H|].
  injection H as H. now apply IH.
Qed.

Lemma sep_split_unique (sep : ascii) (x y r r' : string) :
  all_chars (differs sep) x = true -> all_chars (differs sep) y = true ->
  x ++ String sep r = y ++ String sep r' -> x = y /\ r = r'.
Proof.
  revert y. induction x as [|c x IH]; intros y Hx Hy H.
  - destruct y as [|d y]; simpl in H.
    + injection H as ->. now split.
    + injection H as <- _. simpl in Hy. unfold differs in Hy.
      now rewrite Ascii.eqb_refl in Hy.
  - destruct y as [|d y]; simpl in H.
    + injection H as -> _. simpl in Hx. unfold differs in Hx.
      now rewrite Ascii.eqb_refl in Hx.
    + injection H as -> H. simpl in Hx, Hy.
      apply andb_prop in Hx as [_ Hx]. apply andb_prop in Hy as [_ Hy].
      destruct (IH y Hx Hy H) as [-> ->]. now split.
Qed.

Lemma rendered_suffix_cons (n : string) (names : list string) (v : string)
    (row : list string) :
  rendered_suffix (n :: names) (v :: row)
  = n ++ "=" ++ v ++ String "/" (rendered_suffix names row).
Proof.
  unfold rendered_suffix. rewrite !concat_empty_sep. cbn [combine map fold_right fst snd].
  rewrite !append_assoc. reflexivity.
Qed.

Lemma rendered_suffix_injective (names r1 r2 : list string) :
  length r1 = length names -> length r2 = length names ->
  (forall v, In v r1 -> all_chars (differs "/") v = true) ->
  (forall v, In v r2 -> all_chars (differs "/") v = true) ->
  rendered_suffix names r1 = rendered_suffix names r2 -> r1 = r2.
Proof.
  revert r1 r2. induction names as [|n names IH]; intros r1 r2 L1 L2 H1 H2 H.
  - destruct r1, r2; try discriminate. reflexivity.
  - destruct r1 as [|v1 r1], r2 as [|v2 r2]; try discriminate.
    rewrite !rendered_suffix_cons in H.
    apply append_cancel_l in H. apply (append_cancel_l "=") in H.
    apply sep_split_unique in H as [-> H];
      [| apply H1; now left | apply H2; now left].
    f_equal. apply IH; auto.
    + intros v Hv. apply H1. now right.
    + intros v Hv. apply H2. now right.
Qed.

Lemma last_char_all_chars (f : ascii -> bool) (s : string) (c : ascii) :
  all_chars f s = true -> Py.last_char s = Some c -> f c = true.
Proof.
  induction s as [|a s IH]; [discriminate|].
  simpl. intros H. apply andb_prop in H as [Ha Hs].
  destruct s as [|b s]; [now intros [= <-] | now apply IH].
Qed.

Lemma last_cons_default {A} (l : list A) (y x : A) : last (y :: l) x = last l y.
Proof.
  revert y x. induction l as [|a l IH]; intros y x; [reflexivity|].
  change (last (y :: a :: l) x) with (last (a :: l) x).
  rewrite (IH a x). symmetry. apply (IH a y).
Qed.

Lemma last_In {A} (m : list A) (d : A) : m <> [] -> In (last m d) m.
Proof.
  induction m as [|a m IH]; [intros H; now elim H|].
  intros _. destruct m as [|b m]; [now left|].
  right. apply IH. discriminate.
Qed.

Lemma last_char_join (sep : string) (l : list string) (x : string) :
  (forall y, In y (x :: l) -> y <> EmptyString) ->
  Py.last_char (Py.join sep (x :: l)) = Py.last_char (last l x).
Proof.
  revert x. induction l as [|y l IH]; intros x H; [reflexivity|].
  change (Py.join sep (x :: y :: l)) with (x ++ sep ++ Py.join sep (y :: l)).
  assert (Hj : Py.join sep (y :: l) <> EmptyString).
  { apply join_nonempty. apply H. right. now left. }
  rewrite <- append_assoc, last_char_app by exact Hj.
  rewrite IH; [|intros z Hz; apply H; now right].
  now rewrite last_cons_default.
Qed.

Lemma render_pairs_last_char (names row : list string) :
  names <> [] -> length row = length names ->
  (forall v, In v row -> all_chars (differs "/") v = true) ->
  Py.last_char (render_pairs names row) <> Some "/"%char.
Proof.
  intros Hn Hl Hv. unfold render_pairs.
  destruct names as [|n names]; [now elim Hn|].
  destruct row as [|v row]; [discriminate|].
  cbn [combine map fst snd].
  set (piece := fun nv : string * string => fst nv ++ "=" ++ snd nv).
  rewrite last_char_join.
  - assert (Hp : exists n' v', In v' (v :: row) /\
                   last (map piece (combine names row)) (n ++ "=" ++ v)
                   = n' ++ "=" ++ v').
    { destruct (combine names row) as [|nv l] eqn:E.
      - exists n, v. split; [now left | reflexivity].
      - assert (Hin : In (last (map piece (nv :: l)) (n ++ "=" ++ v))
                         (map piece (nv :: l))).
        { apply last_In. simpl. discriminate. }
        apply in_map_iff in Hin as ([n' v'] & Hpc & Hin').
        exists n', v'. split.
        + right. rewrite <- E in Hin'. now apply in_combine_r in Hin'.
        + now rewrite <- Hpc. }
    destruct Hp as (n' & v' & Hin & ->).
    rewrite last_char_app by discriminate.
    pose proof (Hv v' Hin) as Hfree.
    destruct v' as [|c w]; [discriminate|].
    change (Py.last_char ("=" ++ String c w)) with (Py.last_char (String c w)).
    intros Hc. pose proof (last_char_all_chars _ _ _ Hfree Hc) as Hd.
    discriminate.
  - intros y Hy. destruct Hy as [<- | Hy].
    + destruct n; discriminate.
    + apply in_map_iff in Hy as ([n' v'] & <- & _). unfold piece.
      cbn [fst snd]. destruct n'; discriminate.
Qed.

Lemma NoDup_map_injective_on {A B} (f : A -> B) (l : list A) :
  (forall x y, In x l -> In y l -> f x = f y -> x = y) ->
  NoDup l -> NoDup (map f l).
Proof.
  induction l as [|a l IH]; simpl; intros Hinj Hn; [constructor|].
  inversion Hn as [|? ? Ha Hl]; subst. constructor.
  - intros Hin. apply in_map_iff in Hin as (x & Hx & Hxl).
    assert (x = a) as -> by (apply Hinj; auto). contradiction.
  - apply IH; [|exact Hl]. intros x y Hx Hy. apply Hinj; now right.
Qed.

Lemma partitions_loop_fresh (rows : list (list string)) (path : string)
    (names : list string) (acc : dict (list string)) :
  (forall row, In row rows ->
     with_trailing_sep (render_pairs names row) = OK (rendered_suffix names row)) ->
  NoDup (List.app (keys acc)
           (map (fun row => path ++ rendered_suffix names row) rows)) ->
  partitions_loop rows path names acc
  = OK (List.app acc
          (map (fun row => (path ++ rendered_suffix names row, row)) rows)).
Proof.
  revert acc. induction rows as [|row rows IH]; intros acc Hs Hn.
  - simpl. now rewrite List.app_nil_r.
  - cbn [partitions_loop map]. rewrite (Hs row (or_introl eq_refl)). cbn [bind].
    cbn [map] in Hn. destruct (NoDup_app_cons _ _ _ Hn) as [Hf Hn'].
    rewrite IH.
    + rewrite (setitem_fresh acc _ _ Hf). now rewrite <- List.app_assoc.
    + intros r Hr. apply Hs. now right.
    + now rewrite (keys_setitem_fresh acc _ _ Hf).
Qed.

(** Rows of '/'-free values, as many as there are names and pairwise
    distinct, each get an entry of their own, keyed by the base followed by
    every [name=value/]. *)
Lemma partitions_loop_rows (rows : list (list string)) (base : string)
    (names : list string) :
  names <> [] ->
  (forall row, In row rows ->
     length row = length names /\
     (forall v, In v row -> all_chars (differs "/") v = true)) ->
  NoDup rows ->
  partitions_loop rows base names []
  = OK (map (fun row => (base ++ rendered_suffix names row, row)) rows).
Proof.
  intros Hn Hrow Hnd. apply partitions_loop_fresh.
  - intros row H. destruct (Hrow row H) as (Hl & Hv).
    assert (Hr : row <> []).
    { destruct row; [|discriminate]. destruct names; [now elim Hn | discriminate]. }
    destruct (with_trailing_sep_nonempty _ (render_pairs_nonempty _ _ Hn Hr))
      as (sfx & Hs & _ & _ & Hadd).
    rewrite Hs, (Hadd (render_pairs_last_char _ _ Hn Hl Hv)).
    now rewrite rendered_suffix_join.
  - simpl. apply NoDup_map_injective_on; [|exact Hnd].
    intros r1 r2 H1 H2 E. apply append_cancel_l in E.
    destruct (Hrow r1 H1) as (L1 & V1). destruct (Hrow r2 H2) as (L2 & V2).
    exact (rendered_suffix_injective names r1 r2 L1 L2 V1 V2 E).
Qed.

(** The rows of [zip( *keys)] have one value per partition level, each a key
    of its level. *)
Lemma zip_star_rows (partitions : list (string * list string)) (row : list string) :
  (forall p v, In p partitions -> In v (snd p) ->
               all_chars (differs "/") v = true) ->
  In row (zip_star (map snd partitions)) ->
  map fst partitions <> [] /\
  length row = length (map fst partitions) /\
  (forall v, In v row -> all_chars (differs "/") v = true).
Proof.
  intros Hfree H. pose proof (zip_star_length _ _ H) as [Hlen Hne].
  rewrite length_map in Hlen. split; [|split].
  - destruct partitions; [now elim Hne | discriminate].
  - now rewrite length_map.
  - intros v Hv. destruct (zip_star_elements _ _ v H Hv) as (l & Hl & Hin).
    apply in_map_iff in Hl as (p & <- & Hpin). exact (Hfree p v Hpin Hin).
Qed.

(** X11. When no partition value contains the separator and the rows of
    values are pairwise distinct, no row overwrites another: on a non-empty
    base path, [athena_partitions_from_pyarrow_partitions] returns exactly
    one entry per row, in the order of the rows, each keyed by the normalized
    base followed by [key1=val1/key2=val2/.../]. *)
Theorem one_path_per_row (path : string) (partitions : list (string * list string)) :
  path <> EmptyString ->
  (forall p v, In p partitions -> In v (snd p) ->
               all_chars (differs "/") v = true) ->
  NoDup (zip_star (map snd partitions)) ->
  exists base,
    with_trailing_sep path = OK base /\
    athena_partitions_from_pyarrow_partitions path partitions
    = OK (map (fun row => (base ++ rendered_suffix (map fst partitions) row, row))
              (zip_star (map snd partitions))).
Proof.
  intros Hp Hfree Hnd.
  destruct (with_trailing_sep_nonempty path Hp) as (base & Hb & _).
  exists base. split; [exact Hb|].
  unfold athena_partitions_from_pyarrow_partitions. rewrite Hb. cbn [bind].
  destruct (zip_star (map snd partitions)) as [|row0 rows0] eqn:Ez; [reflexivity|].
  rewrite <- Ez in *.
  assert (H0 : In row0 (zip_star (map snd partitions)))
    by (rewrite Ez; now left).
  apply partitions_loop_rows; [| |exact Hnd].
  - exact (proj1 (zip_star_rows partitions row0 Hfree H0)).
  - intros row H. exact (proj2 (zip_star_rows partitions row Hfree H)).
Qed.

Lemma one_path_per_row_witness :
  exists base,
    with_trailing_sep "s3://bucket/prefix" = OK base /\
    athena_partitions_from_pyarrow_partitions "s3://bucket/prefix"
      [("name", ["A"; "B"]); ("date", ["2020-01-01"; "2020-01-02"])]
    = OK (map (fun row => (base ++ rendered_suffix ["name"; "date"] row, row))
              [["A"; "2020-01-01"]; ["B"; "2020-01-02"]]).
Proof.
  apply (one_path_per_row "s3://bucket/prefix"
           [("name", ["A"; "B"]); ("date", ["2020-01-01"; "2020-01-02"])]).
  - discriminate.
  - intros p v Hp Hv. simpl in Hp.
    destruct Hp as [<- | [<- | []]]; simpl in Hv;
      destruct Hv as [<- | [<- | []]]; reflexivity.
  - simpl. repeat constructor; simpl; intuition discriminate.
Defined.

(* ================================================================== *)
(** ** Casts in sequence *)

Section CastSequence.

Variable to_datetime : Series -> result Series.
Variable astype_string : Value -> result (option string).
Variable Decimal : string -> result PyDecimal.
Variable astype : string -> Series -> result Series.

Lemma cast_loop_app (a b : dict string) (df : ref) (h : store) :
  cast_loop to_datetime astype_string Decimal astype (a ++ b)%list df h
  = let (h1, r1) := cast_loop to_datetime astype_string Decimal astype a df h in
    match r1 with
    | OK _ => cast_loop to_datetime astype_string Decimal astype b df h1
    | Raise e => (h1, Raise e)
    end.
Proof.
  revert h. induction a as [|[col ty] a IH]; intros h; [reflexivity|].
  cbn [app cast_loop].
  destruct (mem col (column_names (h df))); [|apply IH].
  destruct (pandas_type <- athena2pandas ty ;;
            s <- getitem_col (h df) col ;;
            cast_series to_datetime astype_string Decimal astype pandas_type s)
    as [s'|e]; [apply IH | reflexivity].
Qed.

(** X12. Casting with two override mappings one after the other is casting
    with their concatenation: the overrides are applied in order on the same
    object, and the first failure stops the sequence there. *)
Theorem cast_in_sequence (a b : dict string) (df : ref) (h : store) :
  cast_pandas_with_athena_types to_datetime astype_string Decimal astype
    df (a ++ b)%list h
  = let (h1, r1) :=
      cast_pandas_with_athena_types to_datetime astype_string Decimal astype
        df a h in
    match r1 with
    | OK df1 =>
        cast_pandas_with_athena_types to_datetime astype_string Decimal astype
          df1 b h1
    | Raise e => (h1, Raise e)
    end.
Proof.
  unfold cast_pandas_with_athena_types. rewrite cast_loop_app.
  destruct (cast_loop to_datetime astype_string Decimal astype a df h) as [h1 [u|e]];
    reflexivity.
Qed.

(** X13. A failure leaves partial state: when the override on a column
    succeeds and a later override raises, the call raises and the caller's
    dataframe keeps the first column cast; what the later overrides do not
    name is as the first cast left it. *)
Theorem failed_cast_keeps_earlier_casts (df : ref) (h h2 : store)
    (col tag pandas_type : string) (s s' : Series) (rest : dict string) (e : exn) :
  athena2pandas tag = OK pandas_type ->
  getitem_col (h df) col = OK s ->
  cast_series to_datetime astype_string Decimal astype pandas_type s = OK s' ->
  cast_pandas_with_athena_types to_datetime astype_string Decimal astype
    df rest (store_set h df (setitem_col (h df) col s')) = (h2, Raise e) ->
  cast_pandas_with_athena_types to_datetime astype_string Decimal astype
    df ((col, tag) :: rest) h = (h2, Raise e) /\
  same_outside (keys rest) (setitem_col (h df) col s') (h2 df) /\
  (~ In col (keys rest) -> getitem_col (h2 df) col = OK s').
Proof.
  intros Ht Hg Hc Hrest.
  assert (Hone : cast_loop to_datetime astype_string Decimal astype
                   ((col, tag) :: rest) df h
                 = cast_loop to_datetime astype_string Decimal astype rest df
                     (store_set h df (setitem_col (h df) col s'))).
  { cbn [cast_loop]. rewrite (getitem_col_mem _ _ _ Hg), Ht. cbn [bind].
    rewrite Hg. cbn [bind]. now rewrite Hc. }
  unfold cast_pandas_with_athena_types in *. rewrite Hone.
  destruct (cast_loop to_datetime astype_string Decimal astype rest df
              (store_set h df (setitem_col (h df) col s'))) as [h' r] eqn:E.
  destruct (cast_loop_frame _ _ _ _ _ _ _ _ _ E) as [_ Hs].
  unfold store_set in Hs at 1. rewrite Nat.eqb_refl in Hs.
  injection Hrest as <- Hr. split; [now rewrite Hr|]. split; [exact Hs|].
  intros Hn. rewrite <- (same_outside_getitem _ _ _ col Hs Hn).
  unfold getitem_col, setitem_col. rewrite (getitem_col_mem _ _ _ Hg).
  cbn [columns]. unfold getitem_col in Hg. clear -Hg.
  induction (columns (h df)) as [|[k v] l IH]; simpl in *; [discriminate|].
  destruct (String.eqb_spec k col) as [->|N]; simpl.
  - now rewrite String.eqb_refl.
  - destruct (String.eqb_spec k col); [contradiction | now apply IH].
Qed.

(** X14. For a column cast to bytes (binary or varbinary): when every cell
    stringifies, the cast returns and each cell of the column, read back
    from the caller's dataframe, is the UTF-8 bytes of its string, or the
    explicit absent-value marker where the cell is [pd.NA]; when a cell does
    not stringify, the cast raises and changes nothing. *)
Theorem bytes_cast (h : store) (df : ref) (col tag : string) (s : Series) :
  In (Py.lower tag) ["binary"; "varbinary"] ->
  getitem_col (h df) col = OK s ->
  ((forall v, In v (values s) -> exists x, astype_string v = OK x) ->
   exists h' s',
     cast_pandas_with_athena_types to_datetime astype_string Decimal astype
       df [(col, tag)] h = (h', OK df) /\
     getitem_col (h' df) col = OK s' /\
     Forall2 (fun v out => exists x, astype_string v = OK x /\ out = bytes_cell x)
             (values s) (values s')) /\
  (forall v e, In v (values s) -> astype_string v = Raise e ->
   exists e',
     cast_pandas_with_athena_types to_datetime astype_string Decimal astype
       df [(col, tag)] h
     = (h, Raise e')).
Proof.
  intros Ht Hs. apply athena2pandas_bytes in Ht.
  assert (Hcast : cast_series to_datetime astype_string Decimal astype "bytes" s
                  = (xs <- mapM astype_string (values s) ;;
                     OK {| dtype := "object";
                           values := map (fun x => replace_NA (str_encode x)) xs |}))
    by reflexivity.
  split.
  - intros Hall. destruct (mapM_total astype_string (values s) Hall) as [xs Hxs].
    destruct (cast_one_column_returns to_datetime astype_string Decimal astype
                h df col tag "bytes" s
                {| dtype := "object";
                   values := map (fun x => replace_NA (str_encode x)) xs |}
                Ht Hs) as (h' & Hc & Hg).
    { now rewrite Hcast, Hxs. }
    exists h'. eexists. split; [exact Hc|]. split; [exact Hg|]. cbn [values].
    apply mapM_Forall2 in Hxs. clear -Hxs.
    induction Hxs as [|v x vs xs Hv _ IH]; simpl; constructor; [|exact IH].
    exists x. split; [exact Hv|]. now destruct x.
  - intros v e Hin He.
    destruct (mapM_raises astype_string (values s) v e Hin He) as [e' He'].
    exists e'.
    apply (cast_one_column_raises to_datetime astype_string Decimal astype
             h df col tag "bytes" s e' Ht Hs).
    now rewrite Hcast, He'.
Qed.

(** X15. For a column cast to a timestamp (timestamp, or timestamp with time
    zone): when [to_datetime] converts the column, the cast returns and the
    column read back from the caller's dataframe is the converted column as
    it is, dtype and cells, the timestamp-null [NaT] included (it is not
    replaced by the absent-value marker, unlike in the date cast); when
    [to_datetime] raises, the cast raises the same exception and changes
    nothing. *)
Theorem datetime_cast (h : store) (df : ref) (col tag : string) (s : Series) :
  In (Py.lower tag) ["timestamp"; "timestamp with time zone"] ->
  getitem_col (h df) col = OK s ->
  (forall ts, to_datetime s = OK ts ->
   exists h',
     cast_pandas_with_athena_types to_datetime astype_string Decimal astype
       df [(col, tag)] h = (h', OK df) /\
     getitem_col (h' df) col = OK ts /\
     (forall c, c <> col -> getitem_col (h' df) c = getitem_col (h df) c)) /\
  (forall e, to_datetime s = Raise e ->
     cast_pandas_with_athena_types to_datetime astype_string Decimal astype
       df [(col, tag)] h = (h, Raise e)).
Proof.
  intros Ht Hs. apply athena2pandas_datetime64 in Ht.
  split.
  - intros ts Hts.
    rewrite (cast_one_column to_datetime astype_string Decimal astype
               h df col tag "datetime64" s Ht Hs).
    unfold cast_series. cbn [String.eqb Ascii.eqb Bool.eqb]. rewrite Hts.
    eexists. split; [reflexivity|]. rewrite store_set_same. split.
    + now apply getitem_col_setitem_col with (s := s).
    + intros c Hc. symmetry.
      apply (same_outside_getitem [col]).
      * apply setitem_col_same_outside; [now left|].
        exact (getitem_col_mem _ _ _ Hs).
      * intros [E|[]]. now apply Hc.
  - intros e He.
    apply (cast_one_column_raises to_datetime astype_string Decimal astype
             h df col tag "datetime64" s e Ht Hs).
    unfold cast_series. cbn [String.eqb Ascii.eqb Bool.eqb]. exact He.
Qed.

End CastSequence.

Lemma failed_cast_keeps_earlier_casts_witness :
  cast_pandas_with_athena_types iso_to_datetime astype_string_of_str
    plain_Decimal astype_relabel 0%nat [("d", "date"); ("x", "map")]
    (store_of df_dates)
  = (store_set (store_of df_dates) 0%nat
       (setitem_col df_dates "d"
          (object_series [VDate {| year := 2020; month := 1; day := 1 |}; VNone;
                          VDate {| year := 2021; month := 12; day := 31 |}])),
     Raise (UnsupportedType "Unsupported Athena type: map")).
Proof.
  apply (failed_cast_keeps_earlier_casts iso_to_datetime astype_string_of_str
           plain_Decimal astype_relabel 0%nat (store_of df_dates) _
           "d" "date" "date"
           (object_series [VStr "2020-01-01 10:30:00"; VNone; VStr "2021-12-31"])
           _ [("x", "map")] _ eq_refl eq_refl eq_refl eq_refl).
Defined.

Lemma bytes_cast_witness :
  exists h' s',
    cast_pandas_with_athena_types iso_to_datetime astype_string_of_str
      plain_Decimal astype_relabel 0%nat [("amt", "VarBinary")]
      (store_of df_amounts) = (h', OK 0%nat) /\
    getitem_col (h' 0%nat) "amt" = OK s' /\
    Forall2 (fun v out => exists x, astype_string_of_str v = OK x /\
                                    out = bytes_cell x)
            [VStr "1.50"; VStr ""; VStr "none"] (values s').
Proof.
  apply (proj1 (bytes_cast iso_to_datetime astype_string_of_str plain_Decimal
                  astype_relabel (store_of df_amounts) 0%nat "amt" "VarBinary"
                  (object_series [VStr "1.50"; VStr ""; VStr "none"])
                  (or_intror (or_introl eq_refl)) eq_refl)).
  intros v H. simpl in H.
  destruct H as [<- | [<- | [<- | []]]]; eexists; reflexivity.
Defined.

Lemma datetime_cast_witness :
  exists h',
    cast_pandas_with_athena_types iso_to_datetime astype_string_of_str
      plain_Decimal astype_relabel 0%nat [("d", "Timestamp")] (store_of df_dates)
    = (h', OK 0%nat) /\
    getitem_col (h' 0%nat) "d"
    = OK {| dtype := "datetime64[ns]";
            values :=
              [VTimestamp {| ts_date := {| year := 2020; month := 1; day := 1 |};
                             ts_nanos := 37800000000000 |};
               VNaT;
               VTimestamp {| ts_date := {| year := 2021; month := 12; day := 31 |};
                             ts_nanos := 0 |}] |} /\
    (forall c, c <> "d" ->
       getitem_col (h' 0%nat) c = getitem_col (store_of df_dates 0%nat) c).
Proof.
  apply (proj1 (datetime_cast iso_to_datetime astype_string_of_str plain_Decimal
                  astype_relabel (store_of df_dates) 0%nat "d" "Timestamp"
                  (object_series [VStr "2020-01-01 10:30:00"; VNone;
                                  VStr "2021-12-31"])
                  (or_introl eq_refl) eq_refl)).
  reflexivity.
Defined.

(* ================================================================== *)
(** ** Objects on S3 *)

Lemma startswith_scheme_no_colon (y : string) :
  all_chars (differs ":") y = true -> Py.startswith y "s3://" = false.
Proof.
  destruct y as [|c1 [|c2 [|c3 y]]]; try reflexivity.
  - simpl. intros _. now rewrite andb_false_r.
  - simpl. intros _. now rewrite !andb_false_r.
  - intros H. simpl in H.
    apply andb_prop in H as [_ H]. apply andb_prop in H as [_ H].
    apply andb_prop in H as [H _]. unfold differs in H.
    cbn [Py.startswith].
    rewrite (Ascii.eqb_sym ":" c3).
    destruct (Ascii.eqb c3 ":"); [discriminate|].
    now rewrite !andb_false_r.
Qed.

Lemma remove_scheme_no_colon (y : string) :
  all_chars (differs ":") y = true -> Py.remove_from "s3://" 0 y = y.
Proof.
  induction y as [|c y IH]; [reflexivity|].
  intros H. cbn [Py.remove_from].
  rewrite (startswith_scheme_no_colon _ H).
  simpl in H. apply andb_prop in H as [_ H]. now rewrite (IH H).
Qed.

Lemma split_once_absent (sep : ascii) (y : string) :
  all_chars (differs sep) y = true -> split_once sep y = [y].
Proof.
  induction y as [|c y IH]; simpl; [reflexivity|].
  intros H. apply andb_prop in H as [Hc Hy]. rewrite (IH Hy).
  unfold differs in Hc. now destruct (Ascii.eqb c sep).
Qed.

Lemma split_once_at_first (sep : ascii) (x y : string) :
  all_chars (differs sep) x = true ->
  split_once sep (x ++ String sep y) = [x; y].
Proof.
  induction x as [|c x IH]; simpl; intros H.
  - now rewrite Ascii.eqb_refl.
  - apply andb_prop in H as [Hc Hx]. rewrite (IH Hx).
    unfold differs in Hc. now destruct (Ascii.eqb c sep).
Qed.

(** X16. On a path [s3://bucket/key], where the bucket has no slash and
    neither part a colon, [does_object_exists] asks the client for exactly
    that bucket and that key, the key with all its slashes; it answers true
    when the object is there, false on a 404, and lets any other failure
    through. *)
Theorem does_object_exists_asks_bucket_and_key
    (head_object : string -> string -> outcome unit) (bucket key : string) :
  all_chars (differs "/") bucket = true ->
  all_chars (differs ":") bucket = true ->
  all_chars (differs ":") key = true ->
  does_object_exists head_object ("s3://" ++ bucket ++ "/" ++ key)
  = exists_of_head (head_object bucket key).
Proof.
  intros Hs Hb Hk. unfold does_object_exists, Py.remove.
  change (Py.remove_from "s3://" 0 ("s3://" ++ bucket ++ "/" ++ key))
    with (Py.remove_from "s3://" 0 (bucket ++ String "/" key)).
  rewrite remove_scheme_no_colon.
  - now rewrite (split_once_at_first "/" bucket key Hs).
  - rewrite all_chars_app. simpl. now rewrite Hb, Hk.
Qed.

Lemma does_object_exists_asks_bucket_and_key_witness :
  does_object_exists (fun b k => RaisedClientError 404) "s3://bucket/dir/key"
  = Returned false.
Proof.
  apply (does_object_exists_asks_bucket_and_key
           (fun b k => RaisedClientError 404) "bucket" "dir/key");
    reflexivity.
Defined.

(** X17. A path with no key part, [s3://bucket] with no slash after the
    scheme, makes [does_object_exists] raise [ValueError] when it unpacks
    the two parts; the client is not asked. *)
Theorem does_object_exists_without_key
    (head_object : string -> string -> outcome unit) (bucket : string) :
  all_chars (differs "/") bucket = true ->
  all_chars (differs ":") bucket = true ->
  does_object_exists head_object ("s3://" ++ bucket) = Raised ValueError.
Proof.
  intros Hs Hb. unfold does_object_exists, Py.remove.
  change (Py.remove_from "s3://" 0 ("s3://" ++ bucket))
    with (Py.remove_from "s3://" 0 bucket).
  now rewrite (remove_scheme_no_colon _ Hb), (split_once_absent "/" _ Hs).
Qed.

Lemma does_object_exists_without_key_witness :
  does_object_exists (fun b k => Returned tt) "s3://bucket" = Raised ValueError.
Proof.
  apply (does_object_exists_without_key (fun b k => Returned tt) "bucket");
    reflexivity.
Defined.

(* ================================================================== *)
(** ** Paths by bucket *)

Lemma getitem_absent {V} (d : dict V) (k : string) :
  ~ In k (keys d) -> getitem d k = Raise KeyError.
Proof.
  induction d as [|[k0 v0] d IH]; simpl; intros H; [reflexivity|].
  destruct (String.eqb_spec k0 k) as [->|N]; [tauto | apply IH; tauto].
Qed.

Section PathsByBucket.

Variable parse_path : string -> result (string * string).

(** The entry a bucket has once its slot is there. *)
Lemma bucket_slot (acc : dict (list string)) (b : string) :
  getitem (if negb (mem b (keys acc)) then setitem acc b [] else acc) b
  = OK (keys_of_bucket acc b).
Proof.
  unfold keys_of_bucket. destruct (mem b (keys acc)) eqn:E; simpl.
  - apply mem_In in E. destruct (getitem_keys acc b E) as [l ->]. reflexivity.
  - apply mem_false in E. rewrite (getitem_absent acc b E).
    apply getitem_setitem_same.
Qed.

Lemma split_paths_loop_spec (paths : list string) (parsed : list (string * string))
    (acc : dict (list string)) :
  mapM parse_path paths = OK parsed ->
  NoDup (keys acc) ->
  exists buckets,
    split_paths_loop parse_path paths acc = OK buckets /\
    NoDup (keys buckets) /\
    (forall b, In b (keys buckets) <-> In b (keys acc) \/ In b (map fst parsed)) /\
    (forall b, In b (keys buckets) ->
       getitem buckets b
       = OK (keys_of_bucket acc b ++
             map snd (filter (fun bk => String.eqb (fst bk) b) parsed))%list).
Proof.
  revert parsed acc. induction paths as [|path paths IH]; intros parsed acc Hm Hn.
  - simpl in Hm. injection Hm as <-. exists acc. simpl.
    split; [reflexivity|]. split; [exact Hn|]. split; [intros b; tauto|].
    intros b Hb. rewrite List.app_nil_r. unfold keys_of_bucket.
    destruct (getitem_keys acc b Hb) as [l ->]. reflexivity.
  - simpl in Hm. destruct (parse_path path) as [[b0 k0]|e] eqn:Ep;
      simpl in Hm; [|discriminate].
    destruct (mapM parse_path paths) as [parsed'|e] eqn:Em;
      simpl in Hm; [|discriminate].
    injection Hm as <-.
    cbn [split_paths_loop]. rewrite Ep. cbn [bind fst snd].
    rewrite bucket_slot. cbn [bind].
    set (acc1 := if negb (mem b0 (keys acc)) then setitem acc b0 [] else acc).
    set (acc2 := setitem acc1 b0 (keys_of_bucket acc b0 ++ [k0])%list).
    assert (Hn1 : NoDup (keys acc1)).
    { unfold acc1. destruct (negb _); [now apply NoDup_keys_setitem | exact Hn]. }
    assert (Hk1 : forall b, In b (keys acc1) <-> b = b0 \/ In b (keys acc)).
    { intros b. unfold acc1. destruct (mem b0 (keys acc)) eqn:E; simpl.
      - apply mem_In in E. split; [tauto | intros [-> | H]; assumption].
      - apply keys_setitem. }
    destruct (IH parsed' acc2 eq_refl) as (buckets & Hb & Hnb & Hkeys & Hget).
    { now apply NoDup_keys_setitem. }
    exists buckets. split; [exact Hb|]. split; [exact Hnb|]. split.
    + intros b. rewrite Hkeys. unfold acc2. rewrite keys_setitem, Hk1. simpl.
      split; [intros [[H | [H | H]] | H]; auto | intros [H | [H | H]]; auto].
    + intros b Hin. rewrite (Hget b Hin). f_equal. cbn [filter fst].
      destruct (String.eqb_spec b0 b) as [<- | N].
      * unfold keys_of_bucket at 1, acc2. rewrite getitem_setitem_same.
        cbn [map snd]. now rewrite <- List.app_assoc.
      * f_equal. unfold keys_of_bucket, acc2.
        rewrite getitem_setitem_other by congruence.
        unfold acc1. destruct (negb _); [|reflexivity].
        now rewrite getitem_setitem_other by congruence.
Qed.

Lemma split_paths_loop_raises (paths : list string) (acc : dict (list string))
    (e : exn) :
  mapM parse_path paths = Raise e ->
  split_paths_loop parse_path paths acc = Raise e.
Proof.
  revert acc. induction paths as [|path paths IH]; intros acc Hm; [discriminate|].
  simpl in Hm. cbn [split_paths_loop].
  destruct (parse_path path) as [[b0 k0]|e0]; simpl in Hm |- *;
    [|now injection Hm as ->].
  rewrite bucket_slot. cbn [bind]. apply IH.
  destruct (mapM parse_path paths); simpl in Hm; [discriminate | exact Hm].
Qed.

(** X18. [_split_paths_by_bucket] groups the keys by bucket and loses
    nothing: when every path parses, the mapping has exactly the buckets of
    the paths, each once, and the entry of a bucket lists the keys of its
    paths in the order of the paths; when a path does not parse, the
    exception of the first such path is raised. *)
Theorem split_paths_by_bucket_groups (paths : list string) :
  (forall parsed, mapM parse_path paths = OK parsed ->
   exists buckets,
     _split_paths_by_bucket parse_path paths = OK buckets /\
     NoDup (keys buckets) /\
     (forall b, In b (keys buckets) <-> In b (map fst parsed)) /\
     (forall b, In b (keys buckets) ->
        getitem buckets b
        = OK (map snd (filter (fun bk => String.eqb (fst bk) b) parsed)))) /\
  (forall e, mapM parse_path paths = Raise e ->
             _split_paths_by_bucket parse_path paths = Raise e).
Proof.
  split.
  - intros parsed Hm.
    destruct (split_paths_loop_spec paths parsed [] Hm) as (b & Hb & Hn & Hk & Hg);
      [constructor|].
    exists b. split; [exact Hb|]. split; [exact Hn|]. split.
    + intros x. rewrite Hk. simpl. tauto.
    + intros x Hx. now rewrite (Hg x Hx).
  - intros e Hm. now apply split_paths_loop_raises.
Qed.

End PathsByBucket.

Lemma split_paths_by_bucket_groups_witness :
  exists buckets,
    _split_paths_by_bucket parse_bucket_key ["s3://a/x"; "s3://b/y"; "s3://a/z"]
    = OK buckets /\
    NoDup (keys buckets) /\
    (forall b, In b (keys buckets)
               <-> In b (map fst [("a", "x"); ("b", "y"); ("a", "z")])) /\
    (forall b, In b (keys buckets) ->
       getitem buckets b
       = OK (map snd (filter (fun bk => String.eqb (fst bk) b)
                             [("a", "x"); ("b", "y"); ("a", "z")]))).
Proof.
  apply (proj1 (split_paths_by_bucket_groups parse_bucket_key
                  ["s3://a/x"; "s3://b/y"; "s3://a/z"])
               [("a", "x"); ("b", "y"); ("a", "z")]).
  reflexivity.
Defined.

(* ================================================================== *)
(** ** What the writer deletes and writes *)

Lemma deleted_prefixes_app (a b : list s3_event) :
  deleted_prefixes (a ++ b) = (deleted_prefixes a ++ deleted_prefixes b)%list.
Proof. unfold deleted_prefixes. apply flat_map_app. Qed.

Lemma written_paths_app (a b : list s3_event) :
  written_paths (a ++ b) = (written_paths a ++ written_paths b)%list.
Proof. unfold written_paths. apply flat_map_app. Qed.

Lemma write_results_app file_writer (a b : list s3_event) :
  write_results file_writer (a ++ b)
  = (write_results file_writer a ++ write_results file_writer b)%list.
Proof. unfold write_results. apply flat_map_app. Qed.

Lemma firstn_In {A} (n : nat) (l : list A) (x : A) : In x (firstn n l) -> In x l.
Proof.
  revert l. induction n as [|n IH]; intros [|a l]; simpl; try tauto.
  intros [H|H]; [now left | right; now apply IH].
Qed.

Section WriterFacts.

Variable get_cpu_count : bool -> Z.
Variable file_writer : DataFrame -> string -> option string -> Z -> bool -> result string.
Variable delete_objects_prefix : string -> bool -> result unit.
Variable array_split : DataFrame -> Z -> result (list DataFrame).
Variable groupby : DataFrame -> list string -> result (list (group_key * DataFrame)).

(** The loop over the sections of the dataframe only writes, and under the
    path it is given. *)
Lemma write_subgroups_events subgroups path cpus sd paths tr :
  exists evs r,
    write_subgroups file_writer subgroups path cpus sd paths tr
    = ((tr ++ evs)%list, r) /\
    deleted_prefixes evs = [] /\
    Forall (fun p => p = path) (written_paths evs) /\
    (forall ps, r = OK ps ->
       exists new, ps = (paths ++ new)%list /\
                   write_results file_writer evs = map (fun p => OK p) new).
Proof.
  revert paths tr. induction subgroups as [|sg rest IH]; intros paths tr.
  - exists [], (OK paths). cbn. rewrite List.app_nil_r.
    split; [reflexivity|]. split; [reflexivity|]. split; [constructor|].
    intros ps [= <-]. exists []. now rewrite List.app_nil_r.
  - cbn [write_subgroups]. unfold bindT, write, call.
    destruct (file_writer sg path None cpus sd) as [p|e] eqn:Ef.
    + destruct (IH (paths ++ [p])%list (tr ++ [WriteFile sg path None cpus sd])%list)
        as (evs & r & E & Hd & Hw & Hr).
      exists (WriteFile sg path None cpus sd :: evs), r.
      rewrite E. rewrite <- List.app_assoc. split; [reflexivity|].
      split; [exact Hd|]. split; [cbn; now constructor|].
      intros ps Hps. destruct (Hr ps Hps) as (new & -> & Hres).
      exists (p :: new). rewrite <- List.app_assoc. split; [reflexivity|].
      cbn. now rewrite Ef, <- Hres.
    + exists [WriteFile sg path None cpus sd], (Raise e).
      split; [reflexivity|]. split; [reflexivity|].
      split; [cbn; now constructor | discriminate].
Qed.

(** The loop over the groups: what it deletes and what it writes. *)
Lemma write_groups_events groups pcs path mode parallel cpus sd paths tr :
  exists evs r,
    write_groups file_writer delete_objects_prefix groups pcs path mode
      parallel cpus sd paths tr = ((tr ++ evs)%list, r) /\
    (String.eqb mode "partition_upsert" = false -> deleted_prefixes evs = []) /\
    (exists n, deleted_prefixes evs = firstn n (map (group_prefix path pcs) groups)) /\
    (exists n, written_paths evs = firstn n (map (group_prefix path pcs) groups)) /\
    (forall ps, r = OK ps ->
       written_paths evs = map (group_prefix path pcs) groups /\
       (exists new, ps = (paths ++ new)%list /\
                    length new = length groups /\
                    write_results file_writer evs = map (fun p => OK p) new) /\
       (String.eqb mode "partition_upsert" = true ->
        exists subs,
          mapM (fun g => drop_columns (snd g) pcs) groups = OK subs /\
          evs = flat_map (delete_then_write parallel cpus sd)
                         (combine (map (group_prefix path pcs) groups) subs))).
Proof.
  revert paths tr. induction groups as [|[gk subgroup] rest IH]; intros paths tr.
  - exists [], (OK paths). cbn. rewrite List.app_nil_r.
    split; [reflexivity|]. split; [reflexivity|].
    split; [now exists O|]. split; [now exists O|].
    intros ps [= <-]. split; [reflexivity|].
    split; [exists []; now rewrite List.app_nil_r|].
    intros _. now exists [].
  - cbn [write_groups map].
    change (group_prefix path pcs (gk, subgroup))
      with (path ++ render_pairs pcs (as_tuple gk) ++ "/").
    set (prefix := path ++ render_pairs pcs (as_tuple gk) ++ "/").
    unfold bindT at 1. unfold lift.
    destruct (drop_columns subgroup pcs) as [sub|e] eqn:Edrop.
    2:{ exists [], (Raise e). rewrite List.app_nil_r.
        split; [reflexivity|]. split; [reflexivity|].
        split; [now exists O|]. split; [now exists O|]. discriminate. }
    destruct (String.eqb mode "partition_upsert") eqn:Em.
    + unfold bindT, delete, write, call.
      destruct (delete_objects_prefix prefix parallel) as [[]|e].
      2:{ exists [DeletePrefix prefix parallel], (Raise e).
          split; [reflexivity|]. split; [discriminate|].
          split; [now exists 1%nat|]. split; [now exists O|]. discriminate. }
      destruct (file_writer sub prefix None cpus sd) as [p|e] eqn:Ef.
      2:{ exists [DeletePrefix prefix parallel; WriteFile sub prefix None cpus sd],
            (Raise e).
          rewrite <- List.app_assoc.
          split; [reflexivity|]. split; [discriminate|].
          split; [now exists 1%nat|]. split; [now exists 1%nat|]. discriminate. }
      destruct (IH (paths ++ [p])%list
                  ((tr ++ [DeletePrefix prefix parallel]) ++
                   [WriteFile sub prefix None cpus sd])%list)
        as (evs & r & E & _ & (nd & Hd) & (nw & Hw) & Hok).
      exists (DeletePrefix prefix parallel :: WriteFile sub prefix None cpus sd :: evs), r.
      rewrite E, <- !List.app_assoc.
      split; [reflexivity|]. split; [discriminate|].
      split; [exists (S nd); cbn; now rewrite <- Hd|].
      split; [exists (S nw); cbn; now rewrite <- Hw|].
      intros ps Hr. destruct (Hok ps Hr) as (Hwp & (new & -> & Hlen & Hres) & Hshape).
      split; [cbn; now rewrite <- Hwp|].
      split.
      { exists (p :: new). rewrite <- List.app_assoc.
        split; [reflexivity|]. split; [cbn; now rewrite Hlen|].
        cbn. now rewrite Ef, <- Hres. }
      intros _. destruct (Hshape eq_refl) as (subs & Hl & ->).
      exists (sub :: subs). split; [|reflexivity].
      cbn [mapM snd]. rewrite Edrop. cbn [bind]. now rewrite Hl.
    + unfold bindT, ret, write, call.
      destruct (file_writer sub prefix None cpus sd) as [p|e] eqn:Ef.
      2:{ exists [WriteFile sub prefix None cpus sd], (Raise e).
          split; [reflexivity|]. split; [reflexivity|].
          split; [now exists O|]. split; [now exists 1%nat|]. discriminate. }
      destruct (IH (paths ++ [p])%list (tr ++ [WriteFile sub prefix None cpus sd])%list)
        as (evs & r & E & Hnd & _ & (nw & Hw) & Hok).
      specialize (Hnd eq_refl).
      exists (WriteFile sub prefix None cpus sd :: evs), r.
      rewrite E, <- !List.app_assoc.
      split; [reflexivity|]. split; [intros _; cbn; exact Hnd|].
      split; [exists O; cbn; exact Hnd|].
      split; [exists (S nw); cbn; now rewrite <- Hw|].
      intros ps Hr. destruct (Hok ps Hr) as (Hwp & (new & -> & Hlen & Hres) & _).
      split; [cbn; now rewrite <- Hwp|].
      split; [|discriminate].
      exists (p :: new). rewrite <- List.app_assoc.
      split; [reflexivity|]. split; [cbn; now rewrite Hlen|].
      cbn. now rewrite Ef, <- Hres.
Qed.

(** X19. [_writer_factory] deletes nothing when it is given a file name, and
    nothing in a mode other than [overwrite] and [partition_upsert]: the
    prefixes deleted after the call are those deleted before it, whatever
    the writer, the split and the grouping come to. *)
Theorem writer_deletes_only_on_request (df : DataFrame) (path : string)
    (filename : option string) (partition_cols : option (list string))
    (num_files : Z) (mode : string) (parallel self_destruct : bool)
    (tr : list s3_event) :
  filename <> None \/
  (String.eqb mode "overwrite" = false /\
   String.eqb mode "partition_upsert" = false) ->
  deleted_prefixes
    (fst (_writer_factory get_cpu_count file_writer delete_objects_prefix
            array_split groupby df path filename partition_cols num_files
            mode parallel self_destruct tr))
  = deleted_prefixes tr.
Proof.
  intros H. unfold _writer_factory. unfold bindT at 1. unfold lift.
  destruct (with_trailing_sep path) as [base|e]; [|reflexivity].
  assert (Hone : forall d f,
            deleted_prefixes
              (fst (bindT (write file_writer d base f (get_cpu_count parallel)
                             self_destruct)
                          (fun p => ret [p]) tr))
            = deleted_prefixes tr).
  { intros d f. unfold bindT, write, call, ret.
    destruct (file_writer d base f (get_cpu_count parallel) self_destruct);
      cbn [fst]; rewrite deleted_prefixes_app; cbn; now rewrite List.app_nil_r. }
  destruct filename as [f|]; [apply Hone|].
  destruct H as [H|[Ho Hu]]; [now elim H|].
  rewrite Ho, Hu. cbn [orb andb]. unfold bindT at 1. unfold ret at 1.
  destruct (no_partition_cols partition_cols).
  - destruct (num_files <? 2); [apply Hone|].
    unfold bindT, lift. destruct (array_split df num_files) as [subs|e]; [|reflexivity].
    destruct (write_subgroups_events subs base (get_cpu_count parallel)
                self_destruct [] tr) as (evs & r & E & Hd & _).
    rewrite E. cbn [fst]. rewrite deleted_prefixes_app, Hd. apply List.app_nil_r.
  - unfold bindT, lift.
    destruct (groupby df _) as [groups|e]; [|reflexivity].
    destruct (write_groups_events groups
                (match partition_cols with Some l => l | None => [] end)
                base mode parallel (get_cpu_count parallel) self_destruct [] tr)
      as (evs & r & E & Hd & _).
    rewrite E. cbn [fst]. rewrite deleted_prefixes_app, (Hd Hu).
    apply List.app_nil_r.
Qed.

(** X20. In mode [overwrite] and without a file name, [_writer_factory]
    first deletes the whole normalized base path, once, before any file is
    written; it deletes nothing else, and every file it then writes goes
    under that base. *)
Theorem overwrite_clears_base_first (df : DataFrame) (path base : string)
    (partition_cols : option (list string)) (num_files : Z)
    (parallel self_destruct : bool) (tr : list s3_event) :
  with_trailing_sep path = OK base ->
  exists evs r,
    _writer_factory get_cpu_count file_writer delete_objects_prefix
      array_split groupby df path None partition_cols num_files
      "overwrite" parallel self_destruct tr
    = ((tr ++ DeletePrefix base parallel :: evs)%list, r) /\
    deleted_prefixes evs = [] /\
    Forall (fun p => exists s, p = base ++ s) (written_paths evs).
Proof.
  intros Hb. unfold _writer_factory. unfold bindT at 1. unfold lift. rewrite Hb.
  cbn [String.eqb Ascii.eqb Bool.eqb orb andb]. unfold bindT at 1.
  unfold delete, call.
  destruct (delete_objects_prefix base parallel) as [[]|e].
  2:{ exists [], (Raise e). split; [reflexivity|]. split; [reflexivity|]. constructor. }
  set (tr1 := (tr ++ [DeletePrefix base parallel])%list).
  assert (Hshape : forall (evs : list s3_event),
            (tr1 ++ evs = tr ++ DeletePrefix base parallel :: evs)%list).
  { intros evs. unfold tr1. now rewrite <- List.app_assoc. }
  assert (Hbase : base = base ++ "").
  { clear. induction base as [|c s IH]; [reflexivity|]. cbn. now rewrite <- IH. }
  destruct (no_partition_cols partition_cols).
  - destruct (num_files <? 2).
    + unfold bindT, write, call, ret.
      exists [WriteFile df base None (get_cpu_count parallel) self_destruct].
      destruct (file_writer df base None (get_cpu_count parallel) self_destruct)
        as [p|e]; eexists; (split; [rewrite Hshape; reflexivity|]);
        (split; [reflexivity|]); cbn; constructor; try constructor;
        now exists "".
    + unfold bindT, lift. destruct (array_split df num_files) as [subs|e].
      2:{ exists [], (Raise e). rewrite <- Hshape, List.app_nil_r.
          split; [reflexivity|]. split; [reflexivity|]. constructor. }
      destruct (write_subgroups_events subs base (get_cpu_count parallel)
                  self_destruct [] tr1) as (evs & r & E & Hd & Hw & _).
      exists evs, r. rewrite E, Hshape.
      split; [reflexivity|]. split; [exact Hd|].
      eapply Forall_impl; [|exact Hw]. intros p ->. now exists "".
  - unfold bindT, lift.
    destruct (groupby df _) as [groups|e].
    2:{ exists [], (Raise e). rewrite <- Hshape, List.app_nil_r.
        split; [reflexivity|]. split; [reflexivity|]. constructor. }
    destruct (write_groups_events groups
                (match partition_cols with Some l => l | None => [] end)
                base "overwrite" parallel (get_cpu_count parallel) self_destruct
                [] tr1)
      as (evs & r & E & Hd & _ & (nw & Hw) & _).
    exists evs, r. rewrite E, Hshape.
    split; [reflexivity|]. split; [now apply Hd|].
    rewrite Hw. apply Forall_forall. intros p Hp.
    apply firstn_In in Hp. apply in_map_iff in Hp as (g & <- & _).
    unfold group_prefix. now eexists.
Qed.

(** X21. In mode [partition_upsert] with partition columns,
    [_writer_factory] never deletes the base path: it deletes only prefixes
    of the groups of the dataframe, in the order of the groups, and when it
    returns it has, for each group in turn, deleted the prefix of the group
    and then written into that prefix the group without its partition
    columns. *)
Theorem partition_upsert_replaces_each_group (df : DataFrame)
    (path base : string) (c : string) (cs : list string) (num_files : Z)
    (parallel self_destruct : bool)
    (groups : list (group_key * DataFrame)) (tr : list s3_event) :
  with_trailing_sep path = OK base ->
  groupby df (c :: cs) = OK groups ->
  exists evs r,
    _writer_factory get_cpu_count file_writer delete_objects_prefix
      array_split groupby df path None (Some (c :: cs)) num_files
      "partition_upsert" parallel self_destruct tr
    = ((tr ++ evs)%list, r) /\
    (exists n, deleted_prefixes evs
               = firstn n (map (group_prefix base (c :: cs)) groups)) /\
    (forall ps, r = OK ps ->
       exists subs,
         mapM (fun g => drop_columns (snd g) (c :: cs)) groups = OK subs /\
         evs = flat_map (delete_then_write parallel (get_cpu_count parallel)
                           self_destruct)
                 (combine (map (group_prefix base (c :: cs)) groups) subs)).
Proof.
  intros Hb Hg. unfold _writer_factory. unfold bindT at 1. unfold lift. rewrite Hb.
  cbn [String.eqb Ascii.eqb Bool.eqb orb andb no_partition_cols].
  unfold bindT at 1. unfold ret at 1. unfold bindT at 1. rewrite Hg.
  destruct (write_groups_events groups (c :: cs) base "partition_upsert" parallel
              (get_cpu_count parallel) self_destruct [] tr)
    as (evs & r & E & _ & Hd & _ & Hok).
  exists evs, r. split; [exact E|]. split; [exact Hd|].
  intros ps Hr. destruct (Hok ps Hr) as (_ & _ & Hshape).
  exact (Hshape eq_refl).
Qed.

(** X22. [_writer_factory] returns what the file writer returned, one path
    per file written and in the order of the writes. *)
Theorem returned_paths_are_the_files_written (df : DataFrame) (path : string)
    (filename : option string) (partition_cols : option (list string))
    (num_files : Z) (mode : string) (parallel self_destruct : bool)
    (tr tr' : list s3_event) (ps : list string) :
  _writer_factory get_cpu_count file_writer delete_objects_prefix
    array_split groupby df path filename partition_cols num_files
    mode parallel self_destruct tr = (tr', OK ps) ->
  exists evs,
    tr' = (tr ++ evs)%list /\
    write_results file_writer evs = map (fun p => OK p) ps.
Proof.
  unfold _writer_factory. unfold bindT at 1. unfold lift.
  destruct (with_trailing_sep path) as [base|e]; [|discriminate].
  assert (Hone : forall d f t,
            bindT (write file_writer d base f (get_cpu_count parallel) self_destruct)
                  (fun p => ret [p]) t = (tr', OK ps) ->
            exists evs, tr' = (t ++ evs)%list /\
                        write_results file_writer evs = map (fun p => OK p) ps).
  { intros d f t. unfold bindT, write, call, ret.
    destruct (file_writer d base f (get_cpu_count parallel) self_destruct)
      as [p|e] eqn:Ef; [|discriminate].
    intros [= <- <-].
    exists [WriteFile d base f (get_cpu_count parallel) self_destruct].
    split; [reflexivity|]. cbn. now rewrite Ef. }
  assert (Hrest : forall t,
            (if no_partition_cols partition_cols
             then if num_files <? 2
                  then bindT (write file_writer df base None (get_cpu_count parallel)
                                self_destruct) (fun p => ret [p])
                  else bindT (lift (array_split df num_files))
                         (fun subgroups =>
                            write_subgroups file_writer subgroups base
                              (get_cpu_count parallel) self_destruct [])
             else bindT (lift (groupby df (match partition_cols with
                                           | Some l => l | None => [] end)))
                    (fun groups =>
                       write_groups file_writer delete_objects_prefix groups
                         (match partition_cols with Some l => l | None => [] end)
                         base mode parallel (get_cpu_count parallel)
                         self_destruct [])) t = (tr', OK ps) ->
            exists evs, tr' = (t ++ evs)%list /\
                        write_results file_writer evs = map (fun p => OK p) ps).
  { intros t. destruct (no_partition_cols partition_cols).
    - destruct (num_files <? 2); [apply Hone|].
      unfold bindT, lift. destruct (array_split df num_files) as [subs|e]; [|discriminate].
      destruct (write_subgroups_events subs base (get_cpu_count parallel)
                  self_destruct [] t) as (evs & r & E & _ & _ & Hr).
      rewrite E. intros [= <- ->]. exists evs. split; [reflexivity|].
      destruct (Hr ps eq_refl) as (new & -> & Hres). exact Hres.
    - unfold bindT, lift. destruct (groupby df _) as [groups|e]; [|discriminate].
      destruct (write_groups_events groups
                  (match partition_cols with Some l => l | None => [] end)
                  base mode parallel (get_cpu_count parallel) self_destruct [] t)
        as (evs & r & E & _ & _ & _ & Hok).
      rewrite E. intros [= <- ->]. exists evs. split; [reflexivity|].
      destruct (Hok ps eq_refl) as (_ & (new & -> & _ & Hres) & _). exact Hres. }
  destruct filename as [f|]; [apply Hone|].
  unfold bindT at 1.
  destruct (String.eqb mode "overwrite" ||
            String.eqb mode "partition_upsert" && no_partition_cols partition_cols).
  - unfold delete, call.
    destruct (delete_objects_prefix base parallel) as [[]|e]; [|discriminate].
    intros H. destruct (Hrest _ H) as (evs & -> & Hres).
    exists (DeletePrefix base parallel :: evs).
    rewrite <- List.app_assoc. split; [reflexivity|]. exact Hres.
  - unfold ret at 1. apply Hrest.
Qed.

(** X23. The files of a partitioned dataset land where the catalog looks
    for them: when the groups of the dataframe carry the rows of values of
    the partition levels, values without separator and rows pairwise
    distinct, the prefixes [_writer_factory] has written into when it
    returns are the keys of
    [athena_partitions_from_pyarrow_partitions] for the same path and
    levels, in the same order. *)
Theorem files_land_on_catalog_partitions (df : DataFrame) (path : string)
    (partitions : list (string * list string)) (num_files : Z) (mode : string)
    (parallel self_destruct : bool) (groups : list (group_key * DataFrame))
    (tr tr' : list s3_event) (ps : list string) :
  partitions <> [] ->
  groupby df (map fst partitions) = OK groups ->
  map (fun g => as_tuple (fst g)) groups = zip_star (map snd partitions) ->
  (forall p v, In p partitions -> In v (snd p) ->
               all_chars (differs "/") v = true) ->
  NoDup (zip_star (map snd partitions)) ->
  _writer_factory get_cpu_count file_writer delete_objects_prefix
    array_split groupby df path None (Some (map fst partitions)) num_files
    mode parallel self_destruct tr = (tr', OK ps) ->
  exists evs d,
    tr' = (tr ++ evs)%list /\
    athena_partitions_from_pyarrow_partitions path partitions = OK d /\
    written_paths evs = keys d.
Proof.
  intros Hne Hg Hrows Hfree Hnd.
  unfold _writer_factory, athena_partitions_from_pyarrow_partitions.
  unfold bindT at 1. unfold lift.
  destruct (with_trailing_sep path) as [base|e]; [|discriminate].
  cbn [bind].
  assert (Hnames : map fst partitions <> []).
  { destruct partitions; [now elim Hne | discriminate]. }
  assert (Hnp : no_partition_cols (Some (map fst partitions)) = false).
  { destruct partitions; [now elim Hne | reflexivity]. }
  rewrite Hnp, Bool.andb_false_r, Bool.orb_false_r.
  assert (Hkeys : forall evs,
            written_paths evs = map (group_prefix base (map fst partitions)) groups ->
            exists d,
              partitions_loop (zip_star (map snd partitions)) base
                (map fst partitions) [] = OK d /\
              written_paths evs = keys d).
  { intros evs Hw. eexists. split.
    - apply partitions_loop_rows; [exact Hnames| |exact Hnd].
      intros row H. exact (proj2 (zip_star_rows partitions row Hfree H)).
    - rewrite Hw, <- Hrows. unfold keys. rewrite !map_map. cbn [fst].
      apply map_ext_in. intros [gk sg] Hin. unfold group_prefix. cbn [fst].
      f_equal. apply rendered_suffix_join; [exact Hnames|].
      assert (Hr : In (as_tuple gk) (zip_star (map snd partitions))).
      { rewrite <- Hrows. apply in_map_iff. now exists (gk, sg). }
      destruct (zip_star_rows partitions _ Hfree Hr) as (_ & Hl & _).
      destruct (as_tuple gk); [|discriminate].
      destruct (map fst partitions); [now elim Hnames | discriminate]. }
  assert (Hrest : forall t,
            bindT (lift (groupby df (map fst partitions)))
              (fun groups =>
                 write_groups file_writer delete_objects_prefix groups
                   (map fst partitions) base mode parallel
                   (get_cpu_count parallel) self_destruct []) t = (tr', OK ps) ->
            exists evs, tr' = (t ++ evs)%list /\
              written_paths evs = map (group_prefix base (map fst partitions)) groups).
  { intros t. unfold bindT, lift. rewrite Hg.
    destruct (write_groups_events groups (map fst partitions) base mode parallel
                (get_cpu_count parallel) self_destruct [] t)
      as (evs & r & E & _ & _ & _ & Hok).
    rewrite E. intros [= <- ->]. exists evs. split; [reflexivity|].
    exact (proj1 (Hok ps eq_refl)). }
  unfold bindT at 1.
  destruct (String.eqb mode "overwrite").
  - unfold delete, call.
    destruct (delete_objects_prefix base parallel) as [[]|e]; [|discriminate].
    intros H. destruct (Hrest _ H) as (evs & -> & Hw).
    destruct (Hkeys evs Hw) as (d & Hd & Hk).
    exists (DeletePrefix base parallel :: evs), d.
    rewrite <- List.app_assoc. split; [reflexivity|]. split; [exact Hd|exact Hk].
  - unfold ret at 1. intros H. destruct (Hrest _ H) as (evs & -> & Hw).
    destruct (Hkeys evs Hw) as (d & Hd & Hk).
    exists evs, d. split; [reflexivity|]. split; [exact Hd|exact Hk].
Qed.

End WriterFacts.

Lemma writer_deletes_only_on_request_witness :
  deleted_prefixes
    (fst (_writer_factory sample_cpu_count sample_file_writer sample_delete
            rows_array_split groups_of_df_id_name df_id_name
            "s3://bucket/prefix" None (Some ["name"]) 1 "append" true false []))
  = deleted_prefixes [].
Proof.
  apply (writer_deletes_only_on_request sample_cpu_count sample_file_writer
           sample_delete rows_array_split groups_of_df_id_name df_id_name
           "s3://bucket/prefix" None (Some ["name"]) 1 "append" true false []).
  right. split; reflexivity.
Defined.

Lemma overwrite_clears_base_first_witness :
  exists evs r,
    _writer_factory sample_cpu_count sample_file_writer sample_delete
      rows_array_split groups_of_df_id_name df_id_name "s3://bucket/prefix"
      None (Some ["name"]) 1 "overwrite" true false []
    = (([] ++ DeletePrefix "s3://bucket/prefix/" true :: evs)%list, r) /\
    deleted_prefixes evs = [] /\
    Forall (fun p => exists s, p = "s3://bucket/prefix/" ++ s) (written_paths evs).
Proof.
  apply (overwrite_clears_base_first sample_cpu_count sample_file_writer
           sample_delete rows_array_split groups_of_df_id_name df_id_name
           "s3://bucket/prefix" "s3://bucket/prefix/" (Some ["name"]) 1 true
           false []).
  reflexivity.
Defined.

Lemma partition_upsert_replaces_each_group_witness :
  exists evs r,
    _writer_factory sample_cpu_count sample_file_writer sample_delete
      rows_array_split groups_of_df_id_name df_id_name "s3://bucket/prefix"
      None (Some ["name"]) 1 "partition_upsert" true false []
    = (([] ++ evs)%list, r) /\
    (exists n, deleted_prefixes evs
               = firstn n ["s3://bucket/prefix/name=a/"; "s3://bucket/prefix/name=b/"]) /\
    (forall ps, r = OK ps ->
       exists subs,
         mapM (fun g => drop_columns (snd g) ["name"])
              [(ScalarKey "a", slice_frame df_id_name 0 1);
               (ScalarKey "b", slice_frame df_id_name 1 1)] = OK subs /\
         evs = flat_map (delete_then_write true (sample_cpu_count true) false)
                 (combine ["s3://bucket/prefix/name=a/"; "s3://bucket/prefix/name=b/"]
                          subs)).
Proof.
  apply (partition_upsert_replaces_each_group sample_cpu_count sample_file_writer
           sample_delete rows_array_split groups_of_df_id_name df_id_name
           "s3://bucket/prefix" "s3://bucket/prefix/" "name" [] 1 true false
           [(ScalarKey "a", slice_frame df_id_name 0 1);
            (ScalarKey "b", slice_frame df_id_name 1 1)] []).
  - reflexivity.
  - reflexivity.
Defined.

Lemma returned_paths_are_the_files_written_witness :
  exists evs,
    fst sample_run = ([] ++ evs)%list /\
    write_results sample_file_writer evs
    = map (fun p => OK p)
          ["s3://bucket/prefix/name=a/part.parquet";
           "s3://bucket/prefix/name=b/part.parquet"].
Proof.
  apply (returned_paths_are_the_files_written sample_cpu_count sample_file_writer
           sample_delete rows_array_split groups_of_df_id_name df_id_name
           "s3://bucket/prefix" None (Some ["name"]) 1 "append" true false
           [] (fst sample_run)
           ["s3://bucket/prefix/name=a/part.parquet";
            "s3://bucket/prefix/name=b/part.parquet"]).
  reflexivity.
Defined.

Lemma files_land_on_catalog_partitions_witness :
  exists evs d,
    fst sample_run = ([] ++ evs)%list /\
    athena_partitions_from_pyarrow_partitions "s3://bucket/prefix"
      levels_of_df_id_name = OK d /\
    written_paths evs = keys d.
Proof.
  apply (files_land_on_catalog_partitions sample_cpu_count sample_file_writer
           sample_delete rows_array_split groups_of_df_id_name df_id_name
           "s3://bucket/prefix" levels_of_df_id_name 1 "append" true false
           [(ScalarKey "a", slice_frame df_id_name 0 1);
            (ScalarKey "b", slice_frame df_id_name 1 1)]
           [] (fst sample_run)
           ["s3://bucket/prefix/name=a/part.parquet";
            "s3://bucket/prefix/name=b/part.parquet"]).
  - discriminate.
  - reflexivity.
  - reflexivity.
  - intros p v Hp Hv. simpl in Hp. destruct Hp as [<- | []]. simpl in Hv.
    destruct Hv as [<- | [<- | []]]; reflexivity.
  - simpl. repeat constructor; simpl; intuition discriminate.
  - reflexivity.
Defined.
